(** * Checkout, order and payment state machine of the gvoiceus storefront

    A shallow embedding of the checkout logic of [core/views.py] and the
    tables of [core/models.py]: the cart snapshot builder, order creation,
    the SSLCommerz payment initiator, the 2Checkout webhook, the two return
    pages and the customer's per-item upload.

    Conventions of the embedding.
    - The database is a record of tables, each table a list of rows in
      storage order; a handler is a function from a database (and its
      request) to a database and a response.
    - Python [int] is [Z]; Python [str] is [string]; a Python [Decimal] is a
      coefficient with a power-of-ten exponent, and arithmetic is the exact
      arithmetic of the [decimal] module (the default context rounds only
      beyond 28 significant digits, which the 12-digit money columns of the
      models never reach).
    - Values the source draws from its environment (uuid4, the clock) are
      arguments of the functions that draw them. *)

From Stdlib Require Import ZArith List Bool String Ascii Lia.
Import ListNotations.

Open Scope string_scope.
Open Scope Z_scope.

(* ------------------------------------------------------------------ *)
(** ** Python values *)

Module Py.

(** [a or b] on strings: the first operand when it is non-empty. *)
Definition str_or (a b : string) : string :=
  if String.eqb a "" then b else a.

(** [d.get(k)] on a dict with string keys, as an association list in
    insertion order. *)
Fixpoint dict_get {V : Type} (d : list (string * V)) (k : string) : option V :=
  match d with
  | [] => None
  | (k', v) :: rest => if String.eqb k' k then Some v else dict_get rest k
  end.

(** [d[k] = v]: replaces the value of an existing key in place, appends a
    new key. *)
Fixpoint dict_set {V : Type} (d : list (string * V)) (k : string) (v : V)
  : list (string * V) :=
  match d with
  | [] => [(k, v)]
  | (k', v') :: rest =>
      if String.eqb k' k then (k', v) :: rest else (k', v') :: dict_set rest k v
  end.

(** [x or y] where [x] is [d.get(k)] on a dict of strings: [None] and the
    empty string are both falsy. *)
Definition get_or (x : option string) (y : option string) : option string :=
  match x with
  | Some s => if String.eqb s "" then y else Some s
  | None => y
  end.

(** Truthiness of [d.get(k)]. *)
Definition truthy (x : option string) : bool :=
  match x with
  | Some s => negb (String.eqb s "")
  | None => false
  end.

Definition lower_ascii (c : ascii) : ascii :=
  let n := nat_of_ascii c in
  if (Nat.leb 65 n && Nat.leb n 90)%bool then ascii_of_nat (n + 32) else c.

Definition upper_ascii (c : ascii) : ascii :=
  let n := nat_of_ascii c in
  if (Nat.leb 97 n && Nat.leb n 122)%bool then ascii_of_nat (n - 32) else c.

(** [s.lower()] and [s.upper()] on ASCII text. *)
Fixpoint lower (s : string) : string :=
  match s with
  | EmptyString => EmptyString
  | String c r => String (lower_ascii c) (lower r)
  end.

Fixpoint upper (s : string) : string :=
  match s with
  | EmptyString => EmptyString
  | String c r => String (upper_ascii c) (upper r)
  end.

Fixpoint startswith (s pre : string) : bool :=
  match pre, s with
  | EmptyString, _ => true
  | String _ _, EmptyString => false
  | String a pre', String b s' => Ascii.eqb a b && startswith s' pre'
  end.

(** [needle in hay] on strings. *)
Fixpoint str_in (needle hay : string) : bool :=
  startswith hay needle
  || match hay with
     | EmptyString => false
     | String _ hay' => str_in needle hay'
     end.

(** [set.add] on a set kept as a duplicate-free list. *)
Fixpoint set_add (x : string) (s : list string) : list string :=
  match s with
  | [] => [x]
  | y :: r => if String.eqb y x then s else y :: set_add x r
  end.

End Py.

(* ------------------------------------------------------------------ *)
(** ** Keys of a [UUIDField]

    A lookup [Model.objects.get(id=text)] on a uuid key first converts
    [text] with [uuid.UUID(text)] and raises [ValidationError] where the
    constructor raises [ValueError]; the row is then found by the value
    of the key, whatever spelling the text had.  [Uuid.parse] follows
    the constructor of the standard [uuid] module and the [int(hex, 16)]
    it calls, on text whose characters are code points below 256. *)

Module Uuid.

(** [s.replace(pat, "")] for a non-empty [pat]: the occurrences of [pat]
    are cut out from the left, without overlap.  [skip] counts the
    characters of a found occurrence still to drop. *)
Fixpoint remove_from (skip : nat) (pat s : string) : string :=
  match s with
  | EmptyString => EmptyString
  | String c r =>
      match skip with
      | S k => remove_from k pat r
      | O =>
          if Py.startswith s pat
          then remove_from (String.length pat - 1) pat r
          else String c (remove_from 0 pat r)
      end
  end.

Definition remove (pat s : string) : string := remove_from 0 pat s.

(** [s.strip(chars)] for the characters that [f] accepts. *)
Fixpoint lstrip_by (f : ascii -> bool) (s : string) : string :=
  match s with
  | EmptyString => EmptyString
  | String c r => if f c then lstrip_by f r else s
  end.

Fixpoint rstrip_by (f : ascii -> bool) (s : string) : string :=
  match s with
  | EmptyString => EmptyString
  | String c r =>
      let r' := rstrip_by f r in
      if f c && String.eqb r' "" then EmptyString else String c r'
  end.

Definition strip_by (f : ascii -> bool) (s : string) : string :=
  rstrip_by f (lstrip_by f s).

Definition is_brace (c : ascii) : bool :=
  (Ascii.eqb c "{" || Ascii.eqb c "}")%char.

(** The white space [int] skips around a numeral: blank, tab, line
    feed, vertical tab, form feed, carriage return. *)
Definition is_blank (c : ascii) : bool :=
  let n := nat_of_ascii c in
  (Nat.eqb n 32 || (Nat.leb 9 n && Nat.leb n 13))%bool.

(** Before it reads a numeral [int] rewrites the characters from 127 on:
    a white space (next line, no-break space) becomes a blank, any
    other one a character that no numeral holds. *)
Definition to_ascii_char (c : ascii) : ascii :=
  let n := nat_of_ascii c in
  if Nat.ltb n 127 then c
  else if (Nat.eqb n 133 || Nat.eqb n 160)%bool then " "%char
  else "?"%char.

Fixpoint to_ascii_text (s : string) : string :=
  match s with
  | EmptyString => EmptyString
  | String c r => String (to_ascii_char c) (to_ascii_text r)
  end.

Definition hex_value (c : ascii) : option Z :=
  let n := Z.of_nat (nat_of_ascii c) in
  if (48 <=? n) && (n <=? 57) then Some (n - 48)
  else if (97 <=? n) && (n <=? 102) then Some (n - 87)
  else if (65 <=? n) && (n <=? 70) then Some (n - 55)
  else None.

(** The digits of a numeral: hex digits with single underscores between
    them.  [after_us] tells that the last character read was an
    underscore.  The result is the value read and the text left. *)
Fixpoint scan_digits (acc : Z) (after_us : bool) (s : string)
  : option (Z * string) :=
  match s with
  | EmptyString => if after_us then None else Some (acc, s)
  | String c r =>
      if Ascii.eqb c "_"
      then if after_us then None else scan_digits acc true r
      else
        match hex_value c with
        | Some d => scan_digits (16 * acc + d) false r
        | None => if after_us then None else Some (acc, s)
        end
  end.

(** [int(s, 16)]; [None] where it raises [ValueError]. *)
Definition int16 (s : string) : option Z :=
  let s := lstrip_by is_blank (to_ascii_text s) in
  let signed :=
    match s with
    | String "+" r => (false, r)
    | String "-" r => (true, r)
    | _ => (false, s)
    end in
  let s :=
    match snd signed with
    | String "0" (String x r) =>
        if (Ascii.eqb x "x" || Ascii.eqb x "X")%char
        then match r with
             | String "_" r' => r'
             | _ => r
             end
        else snd signed
    | _ => snd signed
    end in
  match s with
  | EmptyString => None
  | String c _ =>
      match hex_value c with
      | None => None
      | Some _ =>
          match scan_digits 0 false s with
          | Some (n, rest) =>
              if String.eqb (lstrip_by is_blank rest) ""
              then Some (if fst signed then - n else n)
              else None
          | None => None
          end
      end
  end.

(** [uuid.UUID(text).int]; [None] where the constructor raises. *)
Definition parse (text : string) : option Z :=
  let hex := remove "uuid:" (remove "urn:" text) in
  let hex := remove "-" (strip_by is_brace hex) in
  if Nat.eqb (String.length hex) 32 then
    match int16 hex with
    | Some n => if (0 <=? n) && (n <? 2 ^ 128) then Some n else None
    | None => None
    end
  else None.

Definition hex_char (d : Z) : ascii :=
  ascii_of_nat (Z.to_nat (if d <? 10 then 48 + d else 87 + d)).

(** The [k] low hex digits of [n], the most significant first. *)
Fixpoint hex_digits (k : nat) (n : Z) : string :=
  match k with
  | O => EmptyString
  | S k' =>
      String (hex_char (Z.land (Z.shiftr n (4 * Z.of_nat k')) 15))
             (hex_digits k' n)
  end.

(** [str(u)] of the UUID with the int [n]. *)
Definition to_str (n : Z) : string :=
  let hex := hex_digits 32 n in
  (substring 0 8 hex ++ "-" ++ substring 8 4 hex ++ "-" ++ substring 12 4 hex
   ++ "-" ++ substring 16 4 hex ++ "-" ++ substring 20 12 hex)%string.

(** The text of the key that [text] names. *)
Definition canonical (text : string) : option string :=
  option_map to_str (parse text).

End Uuid.

(* ------------------------------------------------------------------ *)
(** ** Decimal *)

Module Dec.

(** A finite [Decimal]: the number [coef * 10 ^ dexp]. *)
Record Decimal : Type := mk { coef : Z; dexp : Z }.

Definition of_int (n : Z) : Decimal := mk n 0.

(** [Decimal("0.00")] and [Decimal("10.00")]. *)
Definition zero2 : Decimal := mk 0 (-2).
Definition ten2 : Decimal := mk 1000 (-2).
Definition one2 : Decimal := mk 100 (-2).

Definition mul (a b : Decimal) : Decimal :=
  mk (coef a * coef b) (dexp a + dexp b).

Definition add (a b : Decimal) : Decimal :=
  let e := Z.min (dexp a) (dexp b) in
  mk (coef a * 10 ^ (dexp a - e) + coef b * 10 ^ (dexp b - e)) e.

Definition ltb (a b : Decimal) : bool :=
  let e := Z.min (dexp a) (dexp b) in
  coef a * 10 ^ (dexp a - e) <? coef b * 10 ^ (dexp b - e).

(** Truthiness: a zero Decimal is falsy. *)
Definition truthy (a : Decimal) : bool := negb (coef a =? 0).

(** Division of [n] by [d > 0] rounded to the nearest integer, ties to the
    even one: ROUND_HALF_EVEN, the rounding of the default context. *)
Definition round_half_even (n d : Z) : Z :=
  let q := n / d in
  let r := n mod d in
  if 2 * r <? d then q
  else if d <? 2 * r then q + 1
  else if Z.even q then q else q + 1.

(** [d.quantize(Decimal("0.01"))]. *)
Definition quantize2 (x : Decimal) : Decimal :=
  if -2 <=? dexp x
  then mk (coef x * 10 ^ (dexp x + 2)) (-2)
  else mk (round_half_even (coef x) (10 ^ (-2 - dexp x))) (-2).

End Dec.

Abbreviation Decimal := Dec.Decimal.

(** [_q2d] of views.py. *)
Definition _q2d (x : Decimal) : Decimal := Dec.quantize2 x.

(* ------------------------------------------------------------------ *)
(** ** Tables of core/models.py

    The key of a user is a positive auto-increment value; the uuid keys
    of products, orders and payments are kept as their text. *)

Record User : Type := mkUser {
  user_id : positive;
  username : string;
  first_name : string;
  user_email : string;
  is_staff : bool
}.

Record Product : Type := mkProduct {
  product_pk : string;
  product_name : string;
  price : Decimal;
  product_currency : string;
  stock : Z;
  is_active : bool
}.

Record Cart : Type := mkCart {
  cart_pk : Z;
  cart_user : positive
}.

Record CartItem : Type := mkCartItem {
  ci_cart : Z;
  ci_product : string;
  quantity : Z
}.

(** One dict of the snapshot list [items_json].  The source keeps
    [unit_price] and [line_total] as the [str] of a quantized Decimal and
    parses them back when it copies the snapshot into OrderItem rows; the
    embedding keeps the Decimal. *)
Record SnapItem : Type := mkSnap {
  snap_product_id : string;
  snap_name : string;
  snap_unit_price : Decimal;
  snap_qty : Z;
  snap_line_total : Decimal;
  snap_currency : string
}.

(** A stored upload. *)
Record File : Type := mkFile {
  file_name : string;
  file_size : Z
}.

(** A value of the JSON bags [Order.data] and [Payment.meta]; [JDecStr d]
    is the string [str(d)] and [JTimeStr t] the string [str(t)] of a
    clock reading. *)
Inductive Json : Type :=
| JStr (s : string)
| JBool (b : bool)
| JDecStr (d : Decimal)
| JTimeStr (t : Z)
| JDict (d : list (string * string)).

Record Order : Type := mkOrder {
  order_pk : string;
  order_code : string;
  order_user : option positive;
  order_email : string;
  order_currency : string;
  subtotal : Decimal;
  total : Decimal;
  order_status : string;
  items_json : list SnapItem;
  order_processing_status : string;
  provider_order_no : string;
  order_data : list (string * Json);
  order_created_at : Z;
  order_updated_at : Z
}.

Record OrderItem : Type := mkOrderItem {
  item_pk : Z;
  item_order : string;
  item_product_id : string;
  item_name : string;
  item_unit_price : Decimal;
  item_qty : Z;
  item_line_total : Decimal;
  item_processing_status : string;
  delivery_file : option File;
  user_file : option File
}.

Record Payment : Type := mkPayment {
  payment_pk : string;
  payment_order : string;
  method : string;
  payment_status : string;
  amount : Decimal;
  payment_currency : string;
  provider_ref : string;
  payment_meta : list (string * Json);
  payment_created_at : Z;
  payment_updated_at : Z
}.

Record DB : Type := mkDB {
  products : list Product;
  carts : list Cart;
  cart_items : list CartItem;
  orders : list Order;
  order_items : list OrderItem;
  payments : list Payment
}.

(** [Order.STATUS] and [Payment.STATUS]: the stored values of the choices. *)
Definition Order_STATUS : list string :=
  ["pending"; "paid"; "failed"; "cancelled"; "expired"].

Definition Payment_STATUS : list string :=
  ["created"; "awaiting_manual_review"; "processing"; "succeeded"; "failed";
   "cancelled"].

Definition Order_PROCESSING_CHOICES : list string := ["running"; "complete"].

(** Membership of a string in a literal set such as
    [{"processing", "created"}]. *)
Definition in_strs (s : string) (l : list string) : bool :=
  existsb (String.eqb s) l.

(** Replacing one table. *)
Definition set_carts (db : DB) (l : list Cart) : DB :=
  mkDB (products db) l (cart_items db) (orders db) (order_items db)
       (payments db).
Definition set_cart_items (db : DB) (l : list CartItem) : DB :=
  mkDB (products db) (carts db) l (orders db) (order_items db) (payments db).
Definition set_orders (db : DB) (l : list Order) : DB :=
  mkDB (products db) (carts db) (cart_items db) l (order_items db)
       (payments db).
Definition set_order_items (db : DB) (l : list OrderItem) : DB :=
  mkDB (products db) (carts db) (cart_items db) (orders db) l (payments db).
Definition set_payments (db : DB) (l : list Payment) : DB :=
  mkDB (products db) (carts db) (cart_items db) (orders db) (order_items db)
       l.

(* ------------------------------------------------------------------ *)
(** ** Exceptions and the database monad *)

Inductive Exc : Type :=
| ValueError (msg : string)
| IntegrityError (msg : string)
| ValidationError (value : string).

Inductive result (A : Type) : Type :=
| Ok (a : A)
| Raise (e : Exc).
Arguments Ok {A} a.
Arguments Raise {A} e.

(** A computation that reads and writes the database and may raise.  The
    views run in autocommit: what was written before an exception stays. *)
Definition M (A : Type) : Type := DB -> DB * result A.

Definition ret {A} (a : A) : M A := fun db => (db, Ok a).
Definition raise {A} (e : Exc) : M A := fun db => (db, Raise e).
Definition bind {A B} (c : M A) (k : A -> M B) : M B :=
  fun db =>
    match c db with
    | (db', Ok a) => k a db'
    | (db', Raise e) => (db', Raise e)
    end.
Definition gets {A} (f : DB -> A) : M A := fun db => (db, Ok (f db)).
Definition modify (f : DB -> DB) : M unit := fun db => (f db, Ok tt).

Notation "x <- c ;; k" := (bind c (fun x => k))
  (at level 61, c at next level, right associativity).
Notation "' p <- c ;; k" := (bind c (fun x => let p := x in k))
  (at level 61, p pattern, c at next level, right associativity).

(* ------------------------------------------------------------------ *)
(** ** Cart snapshot: [_get_user_cart], [_build_cart_snapshot] *)

Definition find_cart (db : DB) (uid : positive) : option Cart :=
  find (fun c => Pos.eqb (cart_user c) uid) (carts db).

(** The next value of an auto-increment key. *)
Definition next_pk (used : list Z) : Z := 1 + fold_right Z.max 0 used.

(** [Cart.objects.get_or_create(user=user)]. *)
Definition _get_user_cart (user : User) : M Cart :=
  fun db =>
    match find_cart db (user_id user) with
    | Some c => (db, Ok c)
    | None =>
        let c := mkCart (next_pk (map cart_pk (carts db))) (user_id user) in
        (set_carts db (carts db ++ [c]), Ok c)
    end.

Definition find_product (db : DB) (pk : string) : option Product :=
  find (fun p => String.eqb (product_pk p) pk) (products db).

(** [CartItem.objects.select_related("product").filter(cart=cart,
    product__is_active=True)]: the rows of the cart joined with their
    product, in storage order. *)
Definition items_qs (db : DB) (cart : Cart) : list (CartItem * Product) :=
  flat_map
    (fun it =>
       if ci_cart it =? cart_pk cart then
         match find_product db (ci_product it) with
         | Some p => if is_active p then [(it, p)] else []
         | None => []
         end
       else [])
    (cart_items db).

(** The three accumulators of the loop of [_build_cart_snapshot]. *)
Record SnapAcc : Type := mkAcc {
  acc_items : list SnapItem;
  acc_subtotal : Decimal;
  acc_currencies : list string
}.

Definition snap_init : SnapAcc := mkAcc [] Dec.zero2 [].

(** One iteration of [for it in items_qs]. *)
Definition snap_step (acc : SnapAcc) (row : CartItem * Product) : SnapAcc :=
  let (it, p) := row in
  let qty := quantity it in
  let qty :=
    if negb (stock p =? 0) && (0 <? stock p) then Z.min qty (stock p)
    else qty in
  if qty <=? 0 then acc
  else
    let line := _q2d (Dec.mul (Dec.of_int qty) (price p)) in
    mkAcc
      (acc_items acc ++
         [mkSnap (product_pk p) (product_name p) (_q2d (price p)) qty line
                 (Py.str_or (product_currency p) "USD")])
      (Dec.add (acc_subtotal acc) line)
      (Py.set_add (Py.str_or (product_currency p) "USD") (acc_currencies acc)).

Definition snap_loop (rows : list (CartItem * Product)) : SnapAcc :=
  fold_left snap_step rows snap_init.

Definition msg_empty : string := "Cart is empty".
Definition msg_mixed : string := "Mixed currency cart is not supported".

(** What follows the loop: the two checks and the returned triple. *)
Definition snap_finish (acc : SnapAcc)
  : result (list SnapItem * Decimal * string) :=
  match acc_items acc with
  | [] => Raise (ValueError msg_empty)
  | _ :: _ =>
      if (1 <? List.length (acc_currencies acc))%nat
      then Raise (ValueError msg_mixed)
      else Ok (acc_items acc, _q2d (acc_subtotal acc),
               hd "USD" (acc_currencies acc))
  end.

Definition _build_cart_snapshot (user : User)
  : M (list SnapItem * Decimal * string) :=
  cart <- _get_user_cart user ;;
  rows <- gets (fun db => items_qs db cart) ;;
  fun db => (db, snap_finish (snap_loop rows)).

(* ------------------------------------------------------------------ *)
(** ** Order creation: [_generate_order_code], [_create_order_from_cart] *)

(** [f"{prefix}-{uuid.uuid4().hex[:8].upper()}"]; [hex8] is the upper-cased
    eight hex digits drawn from uuid4. *)
Definition _generate_order_code (prefix hex8 : string) : string :=
  (prefix ++ "-" ++ hex8)%string.

(** What one request draws from outside the database: the clock, the
    uuid4 values and, for the SSLCommerz call, what the gateway answered
    ([None] when [requests.post] or the decoding of its reply raised,
    otherwise the decoded [data] dict). *)
Record Env : Type := mkEnv {
  env_now : Z;
  env_order_pk : string;
  env_order_hex : string;
  env_payment_pk : string;
  env_tran_hex : string;
  env_gateway : option (list (string * string));
  env_upload_path : string
}.

(** [Order.objects.create(...)]: the primary key and [order_code] are
    unique columns. *)
Definition Order_create (o : Order) : M Order :=
  fun db =>
    if existsb (fun o' => String.eqb (order_pk o') (order_pk o)
                          || String.eqb (order_code o') (order_code o))
               (orders db)
    then (db, Raise (IntegrityError "UNIQUE constraint failed"))
    else (set_orders db (orders db ++ [o]), Ok o).

(** [OrderItem.objects.bulk_create(bulk_items)]: the rows get consecutive
    auto-increment keys. *)
Fixpoint number_items (next : Z) (order : string) (items : list SnapItem)
  : list OrderItem :=
  match items with
  | [] => []
  | it :: rest =>
      mkOrderItem next order (snap_product_id it) (snap_name it)
                  (snap_unit_price it) (snap_qty it) (snap_line_total it)
                  "running" None None
      :: number_items (next + 1) order rest
  end.

Definition OrderItem_bulk_create (order : string) (items : list SnapItem)
  : M unit :=
  modify (fun db =>
    set_order_items db
      (order_items db
       ++ number_items (next_pk (map item_pk (order_items db))) order items)).

Definition _create_order_from_cart (env : Env) (user : User) : M Order :=
  '(items, sub, currency) <- _build_cart_snapshot user ;;
  order <- Order_create
    (mkOrder (env_order_pk env)
             (_generate_order_code "GV" (env_order_hex env))
             (Some (user_id user))
             (Py.str_or (user_email user) "")
             currency sub sub "pending" items
             "running" "" [] (env_now env) (env_now env)) ;;
  _ <- OrderItem_bulk_create (order_pk order) items ;;
  ret order.

(* ------------------------------------------------------------------ *)
(** ** Requests, responses, flash messages, settings *)

Inductive Level : Type := lvl_info | lvl_success | lvl_warning | lvl_error.

(** A piece of a message text: f-strings that interpolate a Decimal keep
    it as a value. *)
Inductive Piece : Type :=
| PStr (s : string)
| PDec (d : Decimal).

Definition Message : Type := (Level * list Piece)%type.

Definition say (l : Level) (s : string) : Message := (l, [PStr s]).

Inductive Response : Type :=
| HttpResponse (status : Z)
| Redirect (to : string)
| Render (template : string)
| Http404
| Uncaught (e : Exc).

(** The result of a view: the database it leaves, the flash messages it
    queued and its response. *)
Definition Outcome : Type := (DB * list Message * Response)%type.

Definition out_db (o : Outcome) : DB := fst (fst o).
Definition out_messages (o : Outcome) : list Message := snd (fst o).
Definition out_response (o : Outcome) : Response := snd o.

Record Request : Type := mkRequest {
  req_method : string;
  req_user : option User;
  GET : list (string * string);
  POST : list (string * string);
  FILES : list (string * File)
}.

(** The settings the modelled views read, after the source's fallback
    chain over [settings] and [os.environ]; the three rates are the
    Decimals that [_get] returns. *)
Record Settings : Type := mkSettings {
  DEBUG : bool;
  TWOCHECKOUT_SECRET_WORD : option string;
  SSLC_STORE_ID : string;
  SSLC_STORE_PASS : string;
  SSLC_SANDBOX : bool;
  FX_USD_BDT : Decimal;
  FX_EUR_BDT : Decimal;
  FX_GBP_BDT : Decimal;
  requests_installed : bool
}.

(** [@require_POST]. *)
Definition require_POST (req : Request) (view : DB -> Outcome) : DB -> Outcome :=
  fun db =>
    if String.eqb (req_method req) "POST" then view db
    else (db, [], HttpResponse 405).

(** [@login_required(login_url="login")]. *)
Definition login_required (req : Request) (view : User -> DB -> Outcome)
  : DB -> Outcome :=
  fun db =>
    match req_user req with
    | Some u => view u db
    | None => (db, [], Redirect "login")
    end.

(* ------------------------------------------------------------------ *)
(** ** Gateway B: [pay_with_sslcommerz] *)

Definition is_space (c : ascii) : bool :=
  let n := nat_of_ascii c in
  (Nat.eqb n 32 || (Nat.leb 9 n && Nat.leb n 13)
   || (Nat.leb 28 n && Nat.leb n 31))%bool.

Fixpoint lstrip (s : string) : string :=
  match s with
  | EmptyString => EmptyString
  | String c r => if is_space c then lstrip r else s
  end.

Fixpoint rstrip (s : string) : string :=
  match s with
  | EmptyString => EmptyString
  | String c r =>
      let r' := rstrip r in
      if is_space c && String.eqb r' "" then EmptyString else String c r'
  end.

(** [s.strip()]. *)
Definition strip (s : string) : string := rstrip (lstrip s).

Definition msg_unsupported (cur : string) : string :=
  ("Currency " ++ cur ++ " is not supported for SSLCommerz without a rate.")%string.

(** The inner helper [_to_bdt]: the amount in BDT and the rate used. *)
Definition _to_bdt (st : Settings) (amount : Decimal) (currency : string)
  : result (Decimal * Decimal) :=
  let cur := Py.upper (Py.str_or currency "BDT") in
  if String.eqb cur "BDT" then Ok (_q2d amount, Dec.one2)
  else
    let rates := [("USD", FX_USD_BDT st); ("EUR", FX_EUR_BDT st);
                  ("GBP", FX_GBP_BDT st)] in
    match Py.dict_get rates cur with
    | Some rate =>
        if Dec.truthy rate then Ok (_q2d (Dec.mul amount rate), rate)
        else Raise (ValueError (msg_unsupported cur))
    | None => Raise (ValueError (msg_unsupported cur))
    end.

(** [order.status = s; order.save(update_fields=["status"])]. *)
Definition with_status (o : Order) (s : string) : Order :=
  mkOrder (order_pk o) (order_code o) (order_user o) (order_email o)
          (order_currency o) (subtotal o) (total o) s (items_json o)
          (order_processing_status o) (provider_order_no o) (order_data o)
          (order_created_at o) (order_updated_at o).

Definition update_order (db : DB) (pk : string) (f : Order -> Order) : DB :=
  set_orders db
    (map (fun o => if String.eqb (order_pk o) pk then f o else o) (orders db)).

Definition save_order_status (db : DB) (pk : string) (s : string) : DB :=
  update_order db pk (fun o => with_status o s).

(** [Payment.objects.create(...)]. *)
Definition Payment_create (p : Payment) : M Payment :=
  fun db =>
    if existsb (fun p' => String.eqb (payment_pk p') (payment_pk p))
               (payments db)
    then (db, Raise (IntegrityError "UNIQUE constraint failed"))
    else (set_payments db (payments db ++ [p]), Ok p).

Definition dget (d : list (string * string)) (k : string) : string :=
  match Py.dict_get d k with Some v => v | None => "" end.

Definition sslcommerz_view (st : Settings) (env : Env) (user : User)
  : DB -> Outcome :=
  fun db =>
    if negb (requests_installed st) then
      (db, [say lvl_error
              "Python 'requests' package not installed. Run: pip install requests"],
       Redirect "checkout")
    else if String.eqb (SSLC_STORE_ID st) "" || String.eqb (SSLC_STORE_PASS st) ""
    then
      (db, [say lvl_error
              "SSLCommerz credentials missing. Set SSLC_STORE_ID and SSLC_STORE_PASS."],
       Redirect "checkout")
    else
      match _create_order_from_cart env user db with
      | (db1, Raise (ValueError m)) =>
          (db1, [say lvl_error m], Redirect "cart_view")
      | (db1, Raise _) =>
          (db1, [say lvl_error "Could not start checkout. Please try again."],
           Redirect "cart_view")
      | (db1, Ok order) =>
          match _to_bdt st (total order)
                        (Py.str_or (order_currency order) "BDT") with
          | Raise (ValueError m) =>
              (save_order_status db1 (order_pk order) "cancelled",
               [say lvl_error m], Redirect "checkout")
          | Raise e => (db1, [], Uncaught e)
          | Ok (amount_bdt, fx_rate) =>
              if Dec.ltb amount_bdt Dec.ten2 then
                (save_order_status db1 (order_pk order) "cancelled",
                 [(lvl_error,
                   [PStr "Amount too small for SSLCommerz: "; PDec amount_bdt;
                    PStr " BDT (min 10.00)."])],
                 Redirect "checkout")
              else
                match env_gateway env with
                | None =>
                    (db1, [say lvl_error "SSLCommerz error. Please try again later."],
                     Redirect "checkout")
                | Some data =>
                    let gateway_url := strip (dget data "GatewayPageURL") in
                    let status := Py.upper (dget data "status") in
                    let reason :=
                      Py.str_or (dget data "failedreason")
                        (Py.str_or (dget data "desc") (dget data "error")) in
                    if String.eqb gateway_url ""
                       || negb (String.eqb status "SUCCESS")
                    then
                      (db1,
                       [say lvl_error
                          ("SSLCommerz init failed: "
                           ++ Py.str_or reason
                                "Could not get gateway URL from SSLCommerz.")%string],
                       Redirect "checkout")
                    else
                      let tran_id := ("GV" ++ env_tran_hex env)%string in
                      match Payment_create
                              (mkPayment (env_payment_pk env) (order_pk order)
                                 "sslcommerz" "processing" amount_bdt "BDT"
                                 tran_id
                                 [("init_response", JDict data);
                                  ("original_total", JDecStr (_q2d (total order)));
                                  ("original_currency", JStr (order_currency order));
                                  ("fx_rate_to_bdt", JDecStr fx_rate);
                                  ("charged_bdt", JDecStr amount_bdt);
                                  ("sandbox", JBool (SSLC_SANDBOX st))]
                                 (env_now env) (env_now env)) db1 with
                      | (db2, Ok _) => (db2, [], Redirect gateway_url)
                      | (db2, Raise e) => (db2, [], Uncaught e)
                      end
                end
          end
      end.

Definition pay_with_sslcommerz (st : Settings) (env : Env) (req : Request)
  : DB -> Outcome :=
  login_required req (sslcommerz_view st env).

(* ------------------------------------------------------------------ *)
(** ** Reconciliation: [two_co_webhook] *)

(** [_verify_tco_signature]: accepts everything in debug mode and nothing
    otherwise (the verification itself is a TODO of the source). *)
Definition _verify_tco_signature (st : Settings)
  (payload : list (string * string)) (secret_word : option string) : bool :=
  if DEBUG st then true
  else if negb (Py.truthy secret_word) then false
  else false.

Definition find_order_by_pk (db : DB) (pk : string) : option Order :=
  find (fun o => String.eqb (order_pk o) pk) (orders db).

Definition find_order_by_code (db : DB) (code : string) : option Order :=
  find (fun o => String.eqb (order_code o) code) (orders db).

(** [order.payments.order_by("-created_at").first()]: the payment of the
    order with the greatest [created_at]; among equal timestamps the row
    stored first. *)
Definition pick_newer (order : string) (best : option Payment) (p : Payment)
  : option Payment :=
  if String.eqb (payment_order p) order then
    match best with
    | None => Some p
    | Some b =>
        if payment_created_at b <? payment_created_at p then Some p else best
    end
  else best.

Definition latest_payment (db : DB) (order : string) : option Payment :=
  fold_left (pick_newer order) (payments db) None.

(** [Cart.objects.get(user_id=u)] then [cart.items.all().delete()];
    nothing when the user has no cart. *)
Definition clear_cart_of (db : DB) (u : positive) : DB :=
  match find_cart db u with
  | Some cart =>
      set_cart_items db
        (filter (fun it => negb (ci_cart it =? cart_pk cart)) (cart_items db))
  | None => db
  end.

(** [if order.user_id: ...clear the cart...]: a user key is a positive
    auto-increment value, so the test fails on [None] only. *)
Definition clear_owner_cart (db : DB) (o : Order) : DB :=
  match order_user o with
  | Some u => clear_cart_of db u
  | None => db
  end.

(** The branch on [status_text] that picks the value written to
    [order.status]. *)
Definition webhook_status (status_text : string) : string :=
  if Py.str_in "approved" status_text || Py.str_in "complete" status_text
     || Py.str_in "paid" status_text || String.eqb status_text "success"
  then "paid"
  else if Py.str_in "declined" status_text || Py.str_in "refunded" status_text
          || Py.str_in "failed" status_text
  then "failed"
  else if Py.str_in "canceled" status_text || Py.str_in "cancelled" status_text
  then "canceled"
  else "pending".

(** The value written to [pay.status] from the new [order.status]. *)
Definition webhook_payment_status (order_status : string) : string :=
  if String.eqb order_status "paid" then "succeeded"
  else if in_strs order_status ["failed"; "canceled"] then "cancelled"
  else "processing".

Definition update_payment (db : DB) (pk : string) (f : Payment -> Payment)
  : DB :=
  set_payments db
    (map (fun p => if String.eqb (payment_pk p) pk then f p else p)
         (payments db)).

(** The webhook once an order is resolved: lines 1093-1126. *)
Definition webhook_apply (now : Z) (payload : list (string * string))
  (status_text : string) (order : Order) (db : DB) : DB :=
  let new_status := webhook_status status_text in
  let db1 :=
    if String.eqb new_status "paid" then clear_owner_cart db order else db in
  let prov :=
    match Py.get_or (Py.dict_get payload "order_number")
            (Py.get_or (Py.dict_get payload "REFNO") None) with
    | Some s => s
    | None => provider_order_no order
    end in
  let d := Py.dict_set (Py.dict_set (order_data order) "webhook" (JDict payload))
                       "webhook_last_at" (JTimeStr now) in
  let db2 :=
    update_order db1 (order_pk order)
      (fun o =>
         mkOrder (order_pk o) (order_code o) (order_user o) (order_email o)
                 (order_currency o) (subtotal o) (total o) new_status
                 (items_json o) (order_processing_status o) prov d
                 (order_created_at o) now) in
  match latest_payment db2 (order_pk order) with
  | Some pay =>
      if in_strs (method pay) ["stripe"; "sslcommerz"; "coin"] then
        let ref :=
          if Py.truthy (Py.dict_get payload "REFNO")
          then dget payload "REFNO" else provider_ref pay in
        update_payment db2 (payment_pk pay)
          (fun p =>
             mkPayment (payment_pk p) (payment_order p) (method p)
                       (webhook_payment_status new_status) (amount p)
                       (payment_currency p) ref
                       (Py.dict_set (payment_meta pay) "webhook" (JDict payload))
                       (payment_created_at p) now)
      else db2
  | None => db2
  end.

(** [Order.objects.get(id=text)]: the text is converted to a uuid first,
    which raises [ValidationError] for text that is none; the order is
    then found by the value of its key, the stored key being the text
    [str(order.id)].  [Ok None] stands for [Order.DoesNotExist]. *)
Definition get_order_by_id (db : DB) (text : string) : result (option Order) :=
  match Uuid.canonical text with
  | Some pk => Ok (find_order_by_pk db pk)
  | None => Raise (ValidationError text)
  end.

(** The merchant order id and the order code of a notification. *)
Definition payload_merchant_order_id (payload : list (string * string))
  : option string :=
  Py.get_or (Py.dict_get payload "merchant_order_id")
    (Py.get_or (Py.dict_get payload "REFNOEXT")
       (Py.get_or (Py.dict_get payload "ref") None)).

Definition payload_order_code (payload : list (string * string))
  : option string :=
  Py.get_or (Py.dict_get payload "order-ext-ref")
    (Py.get_or (Py.dict_get payload "ORDERREF") None).

(** The order the webhook acts on: by primary key from the merchant order
    id, falling back to the order code when no order has that key;
    [Ok None] where the source returns 200 without touching anything or
    skips the update.  Only [Order.DoesNotExist] is caught: the
    [ValidationError] of a merchant order id that is no uuid leaves the
    view. *)
Definition webhook_resolve (db : DB) (payload : list (string * string))
  : result (option Order) :=
  match payload_merchant_order_id payload with
  | Some merchant_order_id =>
      match get_order_by_id db merchant_order_id with
      | Raise e => Raise e
      | Ok (Some o) => Ok (Some o)
      | Ok None =>
          match payload_order_code payload with
          | Some code => Ok (find_order_by_code db code)
          | None => Ok None
          end
      end
  | None => Ok None
  end.

Definition webhook_view (st : Settings) (now : Z) (req : Request)
  : DB -> Outcome :=
  fun db =>
    let payload := POST req in
    let status_text :=
      Py.lower
        (match Py.get_or (Py.dict_get payload "ORDERSTATUS")
                 (Py.get_or (Py.dict_get payload "status") None) with
         | Some s => s
         | None => ""
         end) in
    let verified :=
      _verify_tco_signature st payload (TWOCHECKOUT_SECRET_WORD st) in
    if negb verified && negb (DEBUG st) then (db, [], HttpResponse 400)
    else
      match webhook_resolve db payload with
      | Raise e => (db, [], Uncaught e)
      | Ok (Some order) =>
          (webhook_apply now payload status_text order db, [],
           HttpResponse 200)
      | Ok None => (db, [], HttpResponse 200)
      end.

Definition two_co_webhook (st : Settings) (now : Z) (req : Request)
  : DB -> Outcome :=
  require_POST req (webhook_view st now req).

(* ------------------------------------------------------------------ *)
(** ** Return pages: [checkout_success], [checkout_cancel] *)

Definition with_payment_status (p : Payment) (s : string) : Payment :=
  mkPayment (payment_pk p) (payment_order p) (method p) s (amount p)
            (payment_currency p) (provider_ref p) (payment_meta p)
            (payment_created_at p) (payment_updated_at p).

(** [pay.status = s; pay.save(update_fields=["status"])]. *)
Definition save_payment_status (db : DB) (pk : string) (s : string) : DB :=
  update_payment db pk (fun p => with_payment_status p s).

(** [order.status = "paid"; order.processing_status = "running";
    order.save(update_fields=["status", "processing_status"])]. *)
Definition mark_paid_running (o : Order) : Order :=
  mkOrder (order_pk o) (order_code o) (order_user o) (order_email o)
          (order_currency o) (subtotal o) (total o) "paid" (items_json o)
          "running" (provider_order_no o) (order_data o)
          (order_created_at o) (order_updated_at o).

Definition in_flight (p : Payment) : bool :=
  in_strs (payment_status p) ["processing"; "created"].

Definition checkout_success (req : Request) : DB -> Outcome :=
  fun db =>
    let oc := dget (GET req) "oc" in
    match find_order_by_code db oc with
    | None => (db, [], Http404)
    | Some order =>
        let db' :=
          match latest_payment db (order_pk order) with
          | Some pay =>
              if in_flight pay then
                let db1 := save_payment_status db (payment_pk pay) "succeeded" in
                let db2 := update_order db1 (order_pk order) mark_paid_running in
                clear_owner_cart db2 order
              else db
          | None => db
          end in
        (db', [], Render "checkout/success.html")
    end.

Definition checkout_cancel (req : Request) : DB -> Outcome :=
  fun db =>
    let oc := dget (GET req) "oc" in
    let db' :=
      match find_order_by_code db oc with
      | Some order =>
          let db1 :=
            if String.eqb (order_status order) "pending"
            then save_order_status db (order_pk order) "cancelled"
            else db in
          match latest_payment db1 (order_pk order) with
          | Some pay =>
              if in_flight pay
              then save_payment_status db1 (payment_pk pay) "cancelled"
              else db1
          | None => db1
          end
      | None => db
      end in
    (db', [say lvl_warning "Payment was cancelled."],
     Render "checkout/cancel.html").

(* ------------------------------------------------------------------ *)
(** ** Fulfillment: [user_item_upload_file] *)

Definition find_item (db : DB) (pk : Z) : option OrderItem :=
  find (fun i => item_pk i =? pk) (order_items db).

(** Truthiness of an uploaded file and of a file field: a file with a
    name. *)
Definition file_truthy (f : option File) : bool :=
  match f with
  | Some f => negb (String.eqb (file_name f) "")
  | None => false
  end.

(** [request.FILES.get("file") or request.FILES.get("output")]. *)
Definition picked_file (req : Request) : option File :=
  if file_truthy (Py.dict_get (FILES req) "file")
  then Py.dict_get (FILES req) "file"
  else Py.dict_get (FILES req) "output".

Definition MAX_UPLOAD : Z := 50 * 1024 * 1024.

Definition allowed_types : list string :=
  ["application/pdf"; "application/zip"; "text/plain";
   "application/octet-stream"].

(** [item.user_file = f; item.save(update_fields=["user_file"])]: the
    field stores the upload under the path that [item_file_upload_to]
    chose below [order_items/]. *)
Definition save_user_file (db : DB) (pk : Z) (stored : File) : DB :=
  set_order_items db
    (map (fun i =>
            if item_pk i =? pk then
              mkOrderItem (item_pk i) (item_order i) (item_product_id i)
                          (item_name i) (item_unit_price i) (item_qty i)
                          (item_line_total i) (item_processing_status i)
                          (delivery_file i) (Some stored)
            else i)
         (order_items db)).

Section Upload.

(** [mimetypes.guess_type] on a file name. *)
Variable guess_type : string -> option string.

Definition upload_view (env : Env) (req : Request) (item_id : Z)
  (user : User) : DB -> Outcome :=
  fun db =>
    match find_item db item_id with
    | None => (db, [], Http404)
    | Some item =>
        match find_order_by_pk db (item_order item) with
        | None => (db, [], Http404)
        | Some order =>
            let back :=
              Redirect ("my_order_detail/" ++ order_pk order)%string in
            if match order_user order with
               | Some u => negb (Pos.eqb u (user_id user))
               | None => true
               end
            then (db, [], Http404)
            else if negb (String.eqb (order_status order) "paid") then
              (db, [say lvl_error "You can upload files after payment."], back)
            else if file_truthy (user_file item) then
              (db, [say lvl_info
                      "You've already uploaded a file for this item."], back)
            else if negb (file_truthy (picked_file req)) then
              (db, [say lvl_error "No file selected."], back)
            else
              match picked_file req with
              | None => (db, [say lvl_error "No file selected."], back)
              | Some f =>
                  if MAX_UPLOAD <? file_size f then
                    (db, [say lvl_error "File too large (max 50MB)."], back)
                  else
                    let warn :=
                      match guess_type (file_name f) with
                      | Some g =>
                          if in_strs g allowed_types then []
                          else [say lvl_warning
                                  ("Uncommon type (" ++ g
                                   ++ "). Uploading anyway.")%string]
                      | None => []
                      end in
                    (save_user_file db (item_pk item)
                       (mkFile ("order_items/" ++ env_upload_path env)%string
                               (file_size f)),
                     (warn ++ [say lvl_success
                                 "File uploaded. Our team will review it."])%list,
                     back)
              end
        end
    end.

Definition user_item_upload_file (env : Env) (req : Request) (item_id : Z)
  : DB -> Outcome :=
  login_required req (fun user =>
    require_POST req (upload_view env req item_id user)).

End Upload.

(* ------------------------------------------------------------------ *)
(** ** The snapshot in the words of the specification

    The quantities the specification speaks of, defined line by line and
    independently of the loop of [_build_cart_snapshot]. *)

(** The rows the builder reads for a user: the cart lines of active
    products. *)
Definition cart_rows (user : User) (db : DB) : list (CartItem * Product) :=
  match _get_user_cart user db with
  | (db', Ok cart) => items_qs db' cart
  | (_, Raise _) => []
  end.

(** The requested quantity, clamped to the stock when the stock is
    positive. *)
Definition clamped_qty (row : CartItem * Product) : Z :=
  if 0 <? stock (snd row) then Z.min (quantity (fst row)) (stock (snd row))
  else quantity (fst row).

Definition survives (row : CartItem * Product) : bool := 0 <? clamped_qty row.

Definition surviving (rows : list (CartItem * Product))
  : list (CartItem * Product) := filter survives rows.

Definition effective_currency (row : CartItem * Product) : string :=
  Py.str_or (product_currency (snd row)) "USD".

(** Quantity times unit price, before and after rounding to 2 places. *)
Definition line_exact (row : CartItem * Product) : Decimal :=
  Dec.mul (Dec.of_int (clamped_qty row)) (price (snd row)).

Definition line_rounded (row : CartItem * Product) : Decimal :=
  Dec.quantize2 (line_exact row).

Definition snapshot_line (row : CartItem * Product) : SnapItem :=
  mkSnap (product_pk (snd row)) (product_name (snd row))
         (Dec.quantize2 (price (snd row))) (clamped_qty row)
         (line_rounded row) (effective_currency row).

Definition dsum (l : list Decimal) : Decimal := fold_left Dec.add l Dec.zero2.

(** Each line rounded, then summed. *)
Definition sum_of_rounded (rows : list (CartItem * Product)) : Decimal :=
  dsum (map line_rounded (surviving rows)).

(** The exact lines summed, then rounded once. *)
Definition rounded_sum (rows : list (CartItem * Product)) : Decimal :=
  Dec.quantize2 (dsum (map line_exact (surviving rows))).

(** The set of currencies after adding those of [cs] to [s]. *)
Definition add_currencies (cs : list string) (s : list string) : list string :=
  fold_left (fun s c => Py.set_add c s) cs s.

(** The subtotal of the triple a builder run returned, if it returned. *)
Definition returned_subtotal (r : result (list SnapItem * Decimal * string))
  : option Decimal :=
  match r with
  | Ok (_, sub, _) => Some sub
  | Raise _ => None
  end.

(** The owner's persisted cart lines. *)
Definition owner_cart_items (db : DB) (u : positive) : list CartItem :=
  match find_cart db u with
  | Some cart => filter (fun it => ci_cart it =? cart_pk cart) (cart_items db)
  | None => []
  end.

(** The order and the payment as [checkout_cancel] leaves them. *)
Definition cancel_order (o : Order) : Order :=
  if String.eqb (order_status o) "pending" then with_status o "cancelled" else o.

Definition cancel_payment (p : Payment) : Payment :=
  if in_flight p then with_payment_status p "cancelled" else p.

(* ------------------------------------------------------------------ *)
(** ** Scenarios *)

Module Scenario.

(** Keys, as the text of the uuid4 values they are. *)
Definition oid : string := "7d9f3c1e-5a2b-4c8d-9e1f-0a1b2c3d4e5f".
Definition oid_unknown : string := "00000000-0000-4000-8000-000000000404".
Definition pay_id : string := "3b6a8f20-1c4d-4e7a-b9c2-5d6e7f8091a2".
Definition pidA : string := "a1a1a1a1-0000-4000-8000-00000000000a".
Definition pidE : string := "e2e2e2e2-0000-4000-8000-00000000000e".
Definition pidS : string := "53535353-0000-4000-8000-000000000005".
Definition pidF1 : string := "f1f1f1f1-0000-4000-8000-0000000000f1".
Definition pidF2 : string := "f2f2f2f2-0000-4000-8000-0000000000f2".

Definition alice : User := mkUser 1 "alice" "Alice" "alice@example.com" false.

Definition d (cents : Z) : Decimal := Dec.mk cents (-2).

Definition productA : Product := mkProduct pidA "Product A" (d 1000) "USD" 5 true.
Definition productE : Product := mkProduct pidE "Product E" (d 250) "EUR" 0 true.
Definition productS : Product := mkProduct pidS "Sticker" (d 5) "USD" 0 true.

Definition env0 : Env :=
  mkEnv 100 oid "1A2B3C4D" pay_id "0123456789" None "2025/10/GV-1A2B3C4D/1_f.pdf".

Definition st0 : Settings :=
  mkSettings true None "store" "secret" true (d 12500) (d 13000) (d 14000) true.

(** Live settings: [DEBUG] off. *)
Definition st_live : Settings :=
  mkSettings false (Some "word") "store" "secret" false (d 12500) (d 13000)
             (d 14000) true.

(** The end-to-end cart of the specification: 3 x Product A. *)
Definition db_cart : DB :=
  mkDB [productA; productE; productS] [mkCart 1 1] [mkCartItem 1 pidA 3] [] [] [].

(** A cart in two currencies. *)
Definition db_mixed : DB :=
  mkDB [productA; productE; productS] [mkCart 1 1]
       [mkCartItem 1 pidA 1; mkCartItem 1 pidE 2] [] [] [].

(** A cart worth 0.05 USD. *)
Definition db_small : DB :=
  mkDB [productA; productE; productS] [mkCart 1 1] [mkCartItem 1 pidS 1] [] [] [].

Definition order1 (status : string) : Order :=
  mkOrder oid "GV-1A2B3C4D" (Some 1%positive) "alice@example.com" "USD"
          (d 3000) (d 3000) status [] "running" "" [] 100 100.

Definition pay1 (status : string) : Payment :=
  mkPayment pay_id oid "stripe" status (d 3000) "USD" "" [] 101 101.

Definition item1 (f : option File) : OrderItem :=
  mkOrderItem 1 oid pidA "Product A" (d 1000) 3 (d 3000) "running" None f.

(** Two lines priced 0.005 USD each: prices finer than the 2 places of
    the price column, where the order of rounding shows. *)
Definition productF1 : Product := mkProduct pidF1 "Fine 1" (Dec.mk 5 (-3)) "USD" 0 true.
Definition productF2 : Product := mkProduct pidF2 "Fine 2" (Dec.mk 5 (-3)) "USD" 0 true.
Definition db_fine : DB :=
  mkDB [productF1; productF2] [mkCart 1 1]
       [mkCartItem 1 pidF1 1; mkCartItem 1 pidF2 1] [] [] [].

(** After Gateway A started a payment: the order is pending, its payment
    processing, the cart still full. *)
Definition db_started : DB :=
  mkDB [productA] [mkCart 1 1] [mkCartItem 1 pidA 3] [order1 "pending"]
       [item1 None] [pay1 "processing"].

(** A paid order whose item has no customer file yet. *)
Definition db_paid : DB :=
  mkDB [productA] [mkCart 1 1] [] [order1 "paid"] [item1 None]
       [pay1 "succeeded"].

Definition get_oc : Request :=
  mkRequest "GET" (Some alice) [("oc", "GV-1A2B3C4D")] [] [].

Definition post_webhook (status : string) : Request :=
  mkRequest "POST" None []
            [("merchant_order_id", oid); ("ORDERSTATUS", status)] [].

Definition post_webhook_unknown : Request :=
  mkRequest "POST" None []
            [("merchant_order_id", oid_unknown); ("order-ext-ref", "GV-FFFFFFFF");
             ("ORDERSTATUS", "COMPLETE")] [].

(** A notification that names its order by the order code only, as the
    external reference of the provider. *)
Definition post_webhook_by_code (code : string) : Request :=
  mkRequest "POST" None []
            [("REFNOEXT", code); ("order-ext-ref", code);
             ("ORDERSTATUS", "COMPLETE")] [].


Definition post_checkout : Request := mkRequest "POST" (Some alice) [] [] [].


End Scenario.

(* ------------------------------------------------------------------ *)
(** ** Cart helpers: [_parse_int], [_add_to_db_cart], [_set_db_cart_qty],
       [_db_cart_count], [_clear_user_db_cart] *)

Definition CART_MAX_PER_ITEM : Z := 10000.

Section ParseInt.

(** [int(v)] on the text of a request parameter; [None] where it raises. *)
Variable py_int : string -> option Z.

Definition _parse_int (v : option string) (default min_v max_v : Z) : Z :=
  let n :=
    match v with
    | Some s => match py_int s with Some n => n | None => default end
    | None => default
    end in
  Z.max min_v (Z.min max_v n).

End ParseInt.

(** The line of a cart for a product.  [CartItem] is unique together on
    (cart, product), so a lookup on the pair finds at most one row; the
    embedding takes the first one stored. *)
Definition line_of (cart : Z) (pid : string) (it : CartItem) : bool :=
  (ci_cart it =? cart) && String.eqb (ci_product it) pid.

Definition line_key (it : CartItem) : Z * string := (ci_cart it, ci_product it).

Definition with_quantity (it : CartItem) (q : Z) : CartItem :=
  mkCartItem (ci_cart it) (ci_product it) q.

(** Saving the one row a lookup returned. *)
Fixpoint update_first {A : Type} (f : A -> bool) (g : A -> A) (l : list A)
  : list A :=
  match l with
  | [] => []
  | x :: r => if f x then g x :: r else x :: update_first f g r
  end.

(** Writing quantity [q] to the line of [pid] in [cart]: the existing row
    is saved with the new quantity, a missing row is created with it. *)
Definition put_line (db : DB) (cart : Z) (pid : string) (q : Z) : DB :=
  match find (line_of cart pid) (cart_items db) with
  | Some _ =>
      set_cart_items db
        (update_first (line_of cart pid) (fun it => with_quantity it q)
                      (cart_items db))
  | None => set_cart_items db (cart_items db ++ [mkCartItem cart pid q])
  end.

(** [CartItem.objects.filter(cart=cart, product_id=pid).delete()]. *)
Definition delete_line (db : DB) (cart : Z) (pid : string) : DB :=
  set_cart_items db (filter (fun it => negb (line_of cart pid it)) (cart_items db)).

(** The quantity [_add_to_db_cart] stores: the old quantity plus [qty]
    (or [qty] alone for a new line), clamped by a positive stock, then
    brought into 1..CART_MAX_PER_ITEM. *)
Definition added_qty (old : option Z) (product : Product) (qty : Z) : Z :=
  let new_qty := match old with Some q => q + qty | None => qty end in
  let new_qty :=
    if negb (stock product =? 0) && (0 <? stock product)
    then Z.min new_qty (stock product) else new_qty in
  Z.max 1 (Z.min CART_MAX_PER_ITEM new_qty).

Definition _add_to_db_cart (user : User) (product : Product) (qty : Z) : M unit :=
  cart <- _get_user_cart user ;;
  modify (fun db =>
    let found := find (line_of (cart_pk cart) (product_pk product))
                      (cart_items db) in
    put_line db (cart_pk cart) (product_pk product)
             (added_qty (option_map quantity found) product qty)).

(** The quantity [_set_db_cart_qty] stores for a positive [qty]. *)
Definition set_qty (product : Product) (qty : Z) : Z :=
  let qty :=
    if negb (stock product =? 0) && (0 <? stock product)
    then Z.min qty (stock product) else qty in
  Z.min qty CART_MAX_PER_ITEM.

Definition _set_db_cart_qty (user : User) (product_id : string) (qty : Z)
  : M unit :=
  cart <- _get_user_cart user ;;
  modify (fun db =>
    match find_product db product_id with
    | None => delete_line db (cart_pk cart) product_id
    | Some product =>
        if qty <=? 0 then delete_line db (cart_pk cart) (product_pk product)
        else put_line db (cart_pk cart) (product_pk product)
                      (set_qty product qty)
    end).

(** [sum(cart.items.values_list("quantity", flat=True))]. *)
Definition _db_cart_count (user : User) : M Z :=
  cart <- _get_user_cart user ;;
  gets (fun db =>
    fold_left Z.add
      (map quantity (filter (fun it => ci_cart it =? cart_pk cart) (cart_items db)))
      0).

Definition _clear_user_db_cart (user : User) : M unit :=
  fun db =>
    match find_cart db (user_id user) with
    | None => (db, Ok tt)
    | Some cart =>
        (set_cart_items db
           (filter (fun it => negb (ci_cart it =? cart_pk cart)) (cart_items db)),
         Ok tt)
    end.

(** The second definition of [_cart_count] in views.py (line 1172), the
    one in force once the module is loaded: 0 for an anonymous request,
    otherwise the sum of the quantities of the lines whose cart belongs
    to the user. *)
Definition _cart_count (req : Request) (db : DB) : Z :=
  match req_user req with
  | None => 0
  | Some u =>
      fold_left Z.add
        (map quantity
           (filter (fun it =>
                      existsb (fun c => (cart_pk c =? ci_cart it)
                                        && Pos.eqb (cart_user c) (user_id u))
                              (carts db))
                   (cart_items db)))
        0
  end.

(** Integrity of the cart tables: one line per (cart, product), one cart
    per user, cart keys distinct, and every line in a stored cart. *)
Definition cart_lines_unique (db : DB) : Prop :=
  NoDup (map line_key (cart_items db)).

Definition lines_in_carts (db : DB) : Prop :=
  forall it, In it (cart_items db) ->
    exists c, In c (carts db) /\ cart_pk c = ci_cart it.

(* ------------------------------------------------------------------ *)
(** ** Session cart: [_get_session_cart], [context_processors.cart],
       [cart_update_view], [_merge_session_cart_into_db] *)

Section SessionCart.

(** A value found in the session dict under a product key, and [int(v)]
    on it ([None] where it raises). *)
Variable Raw : Type.
Variable raw_int : Raw -> option Z.

(** What the session holds under the key [cart]: some dict put there by
    anyone, a dict of ints as these views write it, or something that is
    no dict.  An absent key reads as the empty dict. *)
Inductive SessionCart : Type :=
| RawCart (d : list (string * Raw))
| IntCart (d : list (string * Z))
| NotADict.

(** The loop of [_get_session_cart]: entries whose value converts to a
    positive int are kept. *)
Fixpoint keep_positive {V : Type} (to_int : V -> option Z)
  (raw : list (string * V)) (cart : list (string * Z)) : list (string * Z) :=
  match raw with
  | [] => cart
  | (k, v) :: rest =>
      match to_int v with
      | Some q =>
          if 0 <? q then keep_positive to_int rest (Py.dict_set cart k q)
          else keep_positive to_int rest cart
      | None => keep_positive to_int rest cart
      end
  end.

Definition session_cart_of (s : SessionCart) : list (string * Z) :=
  match s with
  | RawCart d => keep_positive raw_int d []
  | IntCart d => keep_positive (fun q => Some q) d []
  | NotADict => []
  end.

(** [_get_session_cart]: the cleaned cart, which is also written back. *)
Definition _get_session_cart (s : SessionCart)
  : SessionCart * list (string * Z) :=
  (IntCart (session_cart_of s), session_cart_of s).

Definition _set_session_cart (cart : list (string * Z)) : SessionCart :=
  IntCart cart.

Definition _clear_session_cart : SessionCart := IntCart [].

(** The loop of [context_processors.cart]. *)
Fixpoint count_positive {V : Type} (to_int : V -> option Z)
  (raw : list (string * V)) (count : Z) : Z :=
  match raw with
  | [] => count
  | (_, v) :: rest =>
      match to_int v with
      | Some q =>
          if 0 <? q then count_positive to_int rest (count + q)
          else count_positive to_int rest count
      | None => count_positive to_int rest count
      end
  end.

(** [context_processors.cart(request)["cart_count"]]. *)
Definition context_cart_count (s : SessionCart) : Z :=
  match s with
  | RawCart d => count_positive raw_int d 0
  | IntCart d => count_positive (fun q => Some q) d 0
  | NotADict => 0
  end.

(** [cart.pop(pid, None)]. *)
Definition dict_pop {V : Type} (d : list (string * V)) (k : string)
  : list (string * V) :=
  filter (fun kv => negb (String.eqb (fst kv) k)) d.

Variable py_int : string -> option Z.

(** [redirect(request.POST.get("next") or reverse("cart_view"))]. *)
Definition back_to_cart (req : Request) : Response :=
  Redirect (Py.str_or (dget (POST req) "next") "/cart/").

(** The guest branch of [cart_update_view] for [action == "set"]: the
    cart to store. *)
Definition guest_set (db : DB) (cart : list (string * Z)) (pid : string)
  (qty : Z) : list (string * Z) :=
  if qty <=? 0 then dict_pop cart pid
  else
    match find_product db pid with
    | Some p =>
        let qty :=
          if negb (stock p =? 0) && (0 <? stock p) then Z.min qty (stock p)
          else qty in
        if 0 <? qty then Py.dict_set cart pid qty else cart
    | None => dict_pop cart pid
    end.

Definition cart_update_view (req : Request) (product_id : string)
  (db : DB) (s : SessionCart) : DB * SessionCart * Response :=
  if negb (String.eqb (req_method req) "POST") then (db, s, HttpResponse 405)
  else
    let action := Py.lower (dget (POST req) "action") in
    match req_user req with
    | Some user =>
        if String.eqb action "remove" then
          match _get_user_cart user db with
          | (db1, Ok cart) =>
              (delete_line db1 (cart_pk cart) product_id, s, back_to_cart req)
          | (db1, Raise e) => (db1, s, Uncaught e)
          end
        else if String.eqb action "set" then
          let qty := _parse_int py_int (Py.dict_get (POST req) "qty") 1 0
                                CART_MAX_PER_ITEM in
          (fst (_set_db_cart_qty user product_id qty db), s, back_to_cart req)
        else (db, s, HttpResponse 400)
    | None =>
        let cart := session_cart_of s in
        if String.eqb action "remove" then
          (db, _set_session_cart (dict_pop cart product_id), back_to_cart req)
        else if String.eqb action "set" then
          let qty := _parse_int py_int (Py.dict_get (POST req) "qty") 1 0
                                CART_MAX_PER_ITEM in
          (db, _set_session_cart (guest_set db cart product_id qty),
           back_to_cart req)
        else (db, IntCart cart, HttpResponse 400)
    end.

(** The loop of [_merge_session_cart_into_db]: each entry of the session
    cart whose product is stored and active is added to the user's cart. *)
Definition merge_step (user : User) (db : DB) (entry : string * Z) : DB :=
  match find_product db (fst entry) with
  | Some product =>
      if is_active product
      then fst (_add_to_db_cart user product (snd entry) db)
      else db
  | None => db
  end.

Definition _merge_session_cart_into_db (user : User) (db : DB)
  (s : SessionCart) : DB * SessionCart :=
  let sess := session_cart_of s in
  match sess with
  | [] => (db, IntCart sess)
  | _ :: _ => (fold_left (merge_step user) sess db, _clear_session_cart)
  end.

End SessionCart.

Arguments RawCart {Raw} d.
Arguments IntCart {Raw} d.
Arguments NotADict {Raw}.

(* ------------------------------------------------------------------ *)
(** ** Cart and payment-choice pages: [cart_view], [checkout_view] *)

(** The dict [checkout_view] builds per line (key [id] where the snapshot
    has [product_id]; the prices stay Decimals). *)
Record CheckoutItem : Type := mkCheckoutItem {
  co_id : string;
  co_name : string;
  co_qty : Z;
  co_unit_price : Decimal;
  co_line_total : Decimal;
  co_currency : string
}.

(** The dict [cart_view] builds per line. *)
Record CartLine : Type := mkCartLine {
  cl_product : Product;
  cl_qty : Z;
  cl_unit_price : Decimal;
  cl_line_total : Decimal
}.

(** What a page view answers: a redirect, the template with the part of
    its context that the view computes, or an exception that escapes. *)
Inductive Page : Type :=
| Goto (to : string)
| ChoosePayment (items : list CheckoutItem) (subtotal : Decimal)
                (currency : string) (cart_count : Z)
| CartPage (items : list CartLine) (subtotal : Decimal) (cart_count : Z)
| Escaped (e : Exc).

Record CheckoutAcc : Type := mkCoAcc {
  coa_items : list CheckoutItem;
  coa_subtotal : Decimal;
  coa_currencies : list string
}.

(** One iteration of the loop of [checkout_view]. *)
Definition checkout_step (acc : CheckoutAcc) (row : CartItem * Product)
  : CheckoutAcc :=
  let (it, p) := row in
  let qty := quantity it in
  let qty :=
    if negb (stock p =? 0) && (0 <? stock p) then Z.min qty (stock p)
    else qty in
  if qty <=? 0 then acc
  else
    let line := _q2d (Dec.mul (Dec.of_int qty) (price p)) in
    mkCoAcc
      (coa_items acc ++
         [mkCheckoutItem (product_pk p) (product_name p) qty (_q2d (price p))
                         line (Py.str_or (product_currency p) "USD")])
      (Dec.add (coa_subtotal acc) line)
      (Py.set_add (Py.str_or (product_currency p) "USD") (coa_currencies acc)).

Definition checkout_view (req : Request) (db : DB)
  : DB * list Message * Page :=
  match req_user req with
  | None => (db, [], Goto "login")
  | Some user =>
      match _get_user_cart user db with
      | (db1, Raise e) => (db1, [], Escaped e)
      | (db1, Ok cart) =>
          let rows := items_qs db1 cart in
          match rows with
          | [] => (db1, [say lvl_info "Your cart is empty."], Goto "cart_view")
          | _ :: _ =>
              let acc := fold_left checkout_step rows (mkCoAcc [] Dec.zero2 []) in
              match coa_items acc with
              | [] => (db1, [say lvl_info "Your cart is empty."], Goto "cart_view")
              | _ :: _ =>
                  if (1 <? List.length (coa_currencies acc))%nat then
                    (db1,
                     [say lvl_error
                        "Mixed currency cart isn't supported. Please keep one currency."],
                     Goto "cart_view")
                  else
                    (db1, [],
                     ChoosePayment (coa_items acc) (_q2d (coa_subtotal acc))
                                   (hd "USD" (coa_currencies acc))
                                   (_cart_count req db1))
              end
          end
      end
  end.

(** One iteration of the loop of [cart_view] over the lines of a stored
    cart. *)
Definition cart_step (acc : list CartLine * Decimal) (row : CartItem * Product)
  : list CartLine * Decimal :=
  let (it, p) := row in
  let qty := quantity it in
  let qty :=
    if negb (stock p =? 0) && (0 <? stock p) then Z.min qty (stock p)
    else qty in
  if qty <=? 0 then acc
  else
    let line := _q2d (Dec.mul (Dec.of_int qty) (price p)) in
    ((fst acc ++ [mkCartLine p qty (_q2d (price p)) line])%list,
     Dec.add (snd acc) line).

(** One iteration of the loop of [cart_view] over a session cart; the
    quantity passes through [_parse_int(str(qty), default=0, min_v=0,
    max_v=CART_MAX_PER_ITEM)], where [int(str(qty))] is [qty]. *)
Definition guest_cart_step (db : DB) (acc : list CartLine * Decimal)
  (entry : string * Z) : list CartLine * Decimal :=
  match find_product db (fst entry) with
  | None => acc
  | Some p =>
      let qty := Z.max 0 (Z.min CART_MAX_PER_ITEM (snd entry)) in
      let qty :=
        if negb (stock p =? 0) && (0 <? stock p) then Z.min qty (stock p)
        else qty in
      if qty <=? 0 then acc
      else
        let line := _q2d (Dec.mul (Dec.of_int qty) (price p)) in
        ((fst acc ++ [mkCartLine p qty (_q2d (price p)) line])%list,
         Dec.add (snd acc) line)
  end.

Section CartPage.

Variable Raw : Type.
Variable raw_int : Raw -> option Z.

Definition cart_view (req : Request) (db : DB) (s : SessionCart Raw)
  : DB * SessionCart Raw * Page :=
  match req_user req with
  | Some user =>
      match _get_user_cart user db with
      | (db1, Raise e) => (db1, s, Escaped e)
      | (db1, Ok cart) =>
          let acc := fold_left cart_step (items_qs db1 cart) ([], Dec.zero2) in
          (db1, s,
           CartPage (fst acc) (_q2d (snd acc))
                    (fold_left Z.add (map cl_qty (fst acc)) 0))
      end
  | None =>
      let cart := session_cart_of Raw raw_int s in
      let acc := fold_left (guest_cart_step db) cart ([], Dec.zero2) in
      (db, IntCart cart,
       CartPage (fst acc) (_q2d (snd acc))
                (fold_left Z.add (map cl_qty (fst acc)) 0))
  end.

End CartPage.

(* ------------------------------------------------------------------ *)
(** ** Gateway A: [pay_with_2checkout] *)

(** The settings this view reads, after the fallback to [os.environ]. *)
Record TcoSettings : Type := mkTcoSettings {
  TWOCHECKOUT_BUY_LINK : string;
  TWOCHECKOUT_SELLER_ID : string;
  SITE_URL : string
}.

(** [s.rstrip("/")]. *)
Fixpoint rstrip_slash (s : string) : string :=
  match s with
  | EmptyString => EmptyString
  | String c r =>
      let r' := rstrip_slash r in
      if Ascii.eqb c "/"%char && String.eqb r' "" then EmptyString
      else String c r'
  end.

Section TwoCheckout.

(** [urllib.parse.urlencode] and [str] on an amount. *)
Variable urlencode : list (string * string) -> string.
Variable decimal_str : Decimal -> string.

Definition tco_params (ts : TcoSettings) (order : Order)
  : list (string * string) :=
  let base := rstrip_slash (SITE_URL ts) in
  let success_url := (base ++ "/checkout/success/" ++ "?oc=" ++ order_code order)%string in
  let cancel_url := (base ++ "/checkout/cancel/" ++ "?oc=" ++ order_code order)%string in
  ([("currency", Py.str_or (order_currency order) "USD");
    ("amount", decimal_str (total order));
    ("merchant_order_id", order_pk order);
    ("order-ext-ref", order_code order);
    ("return-url", success_url);
    ("return-type", "redirect");
    ("x_receipt_link_url", success_url);
    ("cancel-url", cancel_url)]
   ++ (if String.eqb (TWOCHECKOUT_SELLER_ID ts) "" then []
       else [("seller_id", TWOCHECKOUT_SELLER_ID ts)]))%list.

Definition tco_view (ts : TcoSettings) (env : Env) (user : User)
  : DB -> Outcome :=
  fun db =>
    if String.eqb (TWOCHECKOUT_BUY_LINK ts) "" then
      (db, [say lvl_error "2Checkout buy link is not configured."],
       Redirect "checkout")
    else
      match _create_order_from_cart env user db with
      | (db1, Raise (ValueError m)) =>
          (db1, [say lvl_error m], Redirect "cart_view")
      | (db1, Raise _) =>
          (db1, [say lvl_error "Could not start checkout. Please try again."],
           Redirect "cart_view")
      | (db1, Ok order) =>
          let params := tco_params ts order in
          match Payment_create
                  (mkPayment (env_payment_pk env) (order_pk order) "stripe"
                     "processing" (total order) (order_currency order) ""
                     [("start_params", JDict params);
                      ("provider", JStr "2checkout")]
                     (env_now env) (env_now env)) db1 with
          | (db2, Ok _) =>
              (db2, [],
               Redirect (TWOCHECKOUT_BUY_LINK ts ++ "?" ++ urlencode params)%string)
          | (db2, Raise e) => (db2, [], Uncaught e)
          end
      end.

Definition pay_with_2checkout (ts : TcoSettings) (env : Env) (req : Request)
  : DB -> Outcome :=
  login_required req (tco_view ts env).

End TwoCheckout.

(** Every payment belongs to a stored order (the foreign key of
    [Payment.order]). *)
Definition payments_in_orders (db : DB) : Prop :=
  forall p, In p (payments db) ->
    exists o, In o (orders db) /\ order_pk o = payment_order p.

(* ------------------------------------------------------------------ *)
(** ** Staff actions and downloads on order items *)

(** [@staff_member_required]: the view runs for a logged-in staff user;
    anyone else is sent to the admin login. *)
Definition staff_member_required (req : Request) (view : User -> DB -> Outcome)
  : DB -> Outcome :=
  fun db =>
    match req_user req with
    | Some u => if is_staff u then view u db else (db, [], Redirect "admin:login")
    | None => (db, [], Redirect "admin:login")
    end.

Definition update_item (db : DB) (pk : Z) (f : OrderItem -> OrderItem) : DB :=
  set_order_items db
    (map (fun i => if item_pk i =? pk then f i else i) (order_items db)).

Definition with_item_processing (i : OrderItem) (s : string) : OrderItem :=
  mkOrderItem (item_pk i) (item_order i) (item_product_id i) (item_name i)
              (item_unit_price i) (item_qty i) (item_line_total i) s
              (delivery_file i) (user_file i).

Definition with_delivery (i : OrderItem) (f : option File) (s : string)
  : OrderItem :=
  mkOrderItem (item_pk i) (item_order i) (item_product_id i) (item_name i)
              (item_unit_price i) (item_qty i) (item_line_total i) s
              f (user_file i).


Definition admin_detail (order : string) : Response :=
  Redirect ("admin_order_detail/" ++ order)%string.

Definition toggled (s : string) : string :=
  if String.eqb s "running" then "complete" else "running".

Definition staff_item_toggle_processing (req : Request) (item_id : Z)
  : DB -> Outcome :=
  staff_member_required req (fun _ =>
    require_POST req (fun db =>
      match find_item db item_id with
      | None => (db, [], Http404)
      | Some item =>
          match find_order_by_pk db (item_order item) with
          | None => (db, [], Http404)
          | Some order =>
              if negb (String.eqb (order_status order) "paid") then
                (db, [say lvl_error "Only PAID orders' items can be toggled."],
                 admin_detail (item_order item))
              else
                let s := toggled (item_processing_status item) in
                (update_item db (item_pk item)
                   (fun i => with_item_processing i s),
                 [say lvl_success
                    ("Item '" ++ item_name item ++ "' marked " ++ s ++ ".")%string],
                 admin_detail (item_order item))
          end
      end)).

Section StaffFiles.

Variable guess_type : string -> option string.


End StaffFiles.

Definition staff_item_delete_file (req : Request) (item_id : Z)
  : DB -> Outcome :=
  staff_member_required req (fun _ =>
    require_POST req (fun db =>
      match find_item db item_id with
      | None => (db, [], Http404)
      | Some item =>
          match find_order_by_pk db (item_order item) with
          | None => (db, [], Http404)
          | Some _ =>
              if file_truthy (delivery_file item) then
                (update_item db (item_pk item)
                   (fun i => with_delivery i None (item_processing_status i)),
                 [say lvl_success "Item file removed."],
                 admin_detail (item_order item))
              else
                (db, [say lvl_info "No file to remove."],
                 admin_detail (item_order item))
          end
      end)).


(** What a download view answers: the stored file as an attachment, or
    another response with its flash messages. *)
Inductive Download : Type :=
| FileResponse (f : File)
| NoFile (messages : list Message) (r : Response).

Section Downloads.

(** Whether the storage can open a stored file. *)
Variable can_open : File -> bool.

Definition order_page (u : User) (order : string) : Response :=
  if is_staff u then Redirect ("admin_order_detail/" ++ order)%string
  else Redirect ("my_order_detail/" ++ order)%string.

(** The body shared by [item_file_download] and
    [item_user_file_download], which differ in the field they serve and
    in one message. *)
Definition download_field (field : OrderItem -> option File) (missing : string)
  (req : Request) (item_id : Z) (db : DB) : Download :=
  match req_user req with
  | None => NoFile [] (Redirect "login")
  | Some u =>
      match find_item db item_id with
      | None => NoFile [] Http404
      | Some item =>
          match find_order_by_pk db (item_order item) with
          | None => NoFile [] Http404
          | Some order =>
              if negb (is_staff u
                       || match order_user order with
                          | Some o => Pos.eqb o (user_id u)
                          | None => false
                          end)
              then NoFile [] Http404
              else
                match field item with
                | Some f =>
                    if negb (String.eqb (file_name f) "") then
                      if can_open f then FileResponse f
                      else NoFile [say lvl_error "File not found."]
                                  (order_page u (order_pk order))
                    else NoFile [say lvl_error missing]
                                (order_page u (order_pk order))
                | None => NoFile [say lvl_error missing]
                                 (order_page u (order_pk order))
                end
          end
      end
  end.

Definition item_file_download : Request -> Z -> DB -> Download :=
  download_field delivery_file "No file attached for this item.".

Definition item_user_file_download : Request -> Z -> DB -> Download :=
  download_field user_file "No user file uploaded for this item.".

End Downloads.

(* ------------------------------------------------------------------ *)
(** ** Order lists: the querysets of [admin_orders_view] and
       [my_orders_view] *)

(** [order_by("-created_at")]: newest first; rows of equal time keep
    their storage order. *)
Fixpoint insert_newest (o : Order) (l : list Order) : list Order :=
  match l with
  | [] => [o]
  | x :: r =>
      if order_created_at x <? order_created_at o then o :: l
      else x :: insert_newest o r
  end.

Definition newest_first (l : list Order) : list Order :=
  fold_left (fun acc o => insert_newest o acc) l [].

(** The queryset [qs] that [admin_orders_view] paginates, for the value
    of [?status=]. *)
Definition admin_orders_qs (status_param : string) (db : DB) : list Order :=
  let status := strip (Py.lower status_param) in
  let status := if String.eqb status "canceled" then "cancelled" else status in
  let qs := newest_first (orders db) in
  if in_strs status ["new"; "pending"; "paid"; "failed"; "cancelled"]
  then filter (fun o => String.eqb (order_status o) status) qs
  else qs.

(** The queryset [qs] that [my_orders_view] paginates. *)
Definition my_orders_qs (user : User) (status_param : string) (db : DB)
  : list Order :=
  let qs :=
    newest_first
      (filter (fun o => match order_user o with
                        | Some u => Pos.eqb u (user_id user)
                        | None => false
                        end) (orders db)) in
  let status := Py.lower status_param in
  if in_strs status ["new"; "pending"; "paid"; "failed"; "canceled"; "cancelled"]
  then filter (fun o => String.eqb (order_status o) status) qs
  else qs.

(* ------------------------------------------------------------------ *)
(** ** [Product.save] *)

(** [Product.save] on the columns of the embedding: the price is
    quantized to 2 places before the row is written. *)
Definition Product_save (p : Product) : Product :=
  mkProduct (product_pk p) (product_name p) (Dec.quantize2 (price p))
            (product_currency p) (stock p) (is_active p).

(* ------------------------------------------------------------------ *)
(** ** Quantities the further properties speak of *)

(** A snapshot line as the dict of [checkout_view]. *)
Definition to_checkout (s : SnapItem) : CheckoutItem :=
  mkCheckoutItem (snap_product_id s) (snap_name s) (snap_qty s)
                 (snap_unit_price s) (snap_line_total s) (snap_currency s).

(** A surviving cart row as the dict of [cart_view]. *)
Definition to_cart_line (row : CartItem * Product) : CartLine :=
  mkCartLine (snd row) (clamped_qty row) (Dec.quantize2 (price (snd row)))
             (line_rounded row).

(** The entries of a session dict whose value converts to a positive
    int, with that int. *)
Definition positives {V : Type} (to_int : V -> option Z)
  (raw : list (string * V)) : list (string * Z) :=
  flat_map (fun kv =>
              match to_int (snd kv) with
              | Some q => if 0 <? q then [(fst kv, q)] else []
              | None => []
              end) raw.

(** Every cart line of a stored product holds between 1 and 10000 units
    and no more than a positive stock. *)
Definition lines_bounded (db : DB) : Prop :=
  forall it p, In it (cart_items db) ->
    find_product db (ci_product it) = Some p ->
    1 <= quantity it <= CART_MAX_PER_ITEM
    /\ (0 < stock p -> quantity it <= stock p).

(** The keys of the session dict are distinct, as the keys of a dict
    are. *)
Definition dict_keys_distinct {Raw : Type} (s : SessionCart Raw) : Prop :=
  match s with
  | RawCart d => NoDup (map fst d)
  | IntCart d => NoDup (map fst d)
  | NotADict => True
  end.

(* ------------------------------------------------------------------ *)
(** ** Further scenarios *)

Module Cases.

Definition ts0 : TcoSettings :=
  mkTcoSettings "https://secure.2checkout.com/checkout/buy" ""
                "http://127.0.0.1:8000/".

(** The order that checkout creates from the end-to-end cart. *)
Definition order_cart : Order :=
  mkOrder Scenario.oid "GV-1A2B3C4D" (Some 1%positive) "alice@example.com" "USD"
          (Scenario.d 3000) (Scenario.d 3000) "pending"
          [mkSnap Scenario.pidA "Product A" (Scenario.d 1000) 3
                  (Scenario.d 3000) "USD"]
          "running" "" [] 100 100.

Definition plain_urlencode (params : list (string * string)) : string :=
  String.concat "&" (map (fun kv => (fst kv ++ "=" ++ snd kv)%string) params).

Definition cents_str (d : Decimal) : string := "30.00".

Definition staff : User := mkUser 2 "staff" "Sam" "staff@example.com" true.
Definition bob : User := mkUser 3 "bob" "Bob" "bob@example.com" false.

Definition post_by (u : User) : Request := mkRequest "POST" (Some u) [] [] [].
Definition get_by (u : User) : Request := mkRequest "GET" (Some u) [] [] [].

Definition stored_file : File := mkFile "order_items/2025/10/GV-1A2B3C4D/1_a.pdf" 2048.


(** The paid order with a delivery file on its item. *)
Definition db_delivered : DB :=
  mkDB [Scenario.productA] [mkCart 1 1] [] [Scenario.order1 "paid"]
       [mkOrderItem 1 Scenario.oid Scenario.pidA "Product A" (Scenario.d 1000) 3
                    (Scenario.d 3000) "complete" (Some stored_file) None]
       [Scenario.pay1 "succeeded"].

Definition pidI : string := "19191919-0000-4000-8000-000000000019".
Definition productI : Product :=
  mkProduct pidI "Rupee item" (Scenario.d 50000) "INR" 0 true.

(** A cart with one product priced in INR. *)
Definition db_inr : DB :=
  mkDB [Scenario.productA; productI] [mkCart 1 1] [mkCartItem 1 pidI 1] [] [] [].

Definition order_inr_cart : Order :=
  mkOrder Scenario.oid "GV-1A2B3C4D" (Some 1%positive) "alice@example.com" "INR"
          (Scenario.d 50000) (Scenario.d 50000) "pending"
          [mkSnap pidI "Rupee item" (Scenario.d 50000) 1 (Scenario.d 50000) "INR"]
          "running" "" [] 100 100.


End Cases.

(* ------------------------------------------------------------------ *)
(** * Properties *)

(** ** Decimal arithmetic *)

Lemma quantize2_exp (x : Decimal) : Dec.dexp (Dec.quantize2 x) = -2.
Proof. unfold Dec.quantize2. destruct (-2 <=? Dec.dexp x); reflexivity. Qed.

Lemma quantize2_fixed (x : Decimal) :
  Dec.dexp x = -2 -> Dec.quantize2 x = x.
Proof.
  destruct x as [c e]. simpl. intros ->. unfold Dec.quantize2. simpl.
  f_equal. lia.
Qed.

Lemma add_exp2 (a b : Decimal) :
  Dec.dexp a = -2 -> Dec.dexp b = -2 ->
  Dec.add a b = Dec.mk (Dec.coef a + Dec.coef b) (-2).
Proof.
  destruct a as [ca ea], b as [cb eb]. simpl. intros -> ->.
  unfold Dec.add. simpl. f_equal. lia.
Qed.

Lemma fold_add_exp2 (l : list Decimal) (z : Decimal) :
  Dec.dexp z = -2 -> Forall (fun x => Dec.dexp x = -2) l ->
  Dec.dexp (fold_left Dec.add l z) = -2.
Proof.
  revert z. induction l as [|x l IH]; intros z Hz Hl; simpl.
  - exact Hz.
  - inversion Hl as [|? ? Hx Hl']; subst. apply IH; [|exact Hl'].
    rewrite (add_exp2 z x Hz Hx). reflexivity.
Qed.

(** ** The loop of the snapshot builder *)

Lemma tracked_stock_test (s : Z) :
  (negb (s =? 0) && (0 <? s))%bool = (0 <? s).
Proof.
  destruct (Z.ltb_spec 0 s) as [H|H]; destruct (Z.eqb_spec s 0) as [E|E];
    simpl; try reflexivity; lia.
Qed.

Lemma snap_step_cases (acc : SnapAcc) (row : CartItem * Product) :
  snap_step acc row =
  if survives row then
    mkAcc (acc_items acc ++ [snapshot_line row])
          (Dec.add (acc_subtotal acc) (line_rounded row))
          (Py.set_add (effective_currency row) (acc_currencies acc))
  else acc.
Proof.
  destruct row as [it p]. unfold snap_step, survives, snapshot_line,
    line_rounded, line_exact, effective_currency, clamped_qty, _q2d. simpl.
  rewrite tracked_stock_test.
  set (q := if 0 <? stock p then Z.min (quantity it) (stock p) else quantity it).
  destruct (Z.leb_spec q 0) as [H|H]; destruct (Z.ltb_spec 0 q) as [H'|H'];
    try lia; reflexivity.
Qed.

Lemma snap_fold (rows : list (CartItem * Product)) (acc : SnapAcc) :
  fold_left snap_step rows acc =
  mkAcc (acc_items acc ++ map snapshot_line (surviving rows))
        (fold_left Dec.add (map line_rounded (surviving rows)) (acc_subtotal acc))
        (add_currencies (map effective_currency (surviving rows))
                        (acc_currencies acc)).
Proof.
  revert acc. induction rows as [|row rows IH]; intros acc; simpl.
  - rewrite app_nil_r. destruct acc; reflexivity.
  - rewrite IH, snap_step_cases. unfold surviving. simpl.
    destruct (survives row); simpl.
    + rewrite <- app_assoc. reflexivity.
    + reflexivity.
Qed.

Lemma snap_loop_eq (rows : list (CartItem * Product)) :
  snap_loop rows =
  mkAcc (map snapshot_line (surviving rows)) (sum_of_rounded rows)
        (add_currencies (map effective_currency (surviving rows)) []).
Proof. unfold snap_loop. rewrite snap_fold. reflexivity. Qed.

Lemma sum_of_rounded_exp (rows : list (CartItem * Product)) :
  Dec.dexp (sum_of_rounded rows) = -2.
Proof.
  unfold sum_of_rounded, dsum. apply fold_add_exp2; [reflexivity|].
  apply Forall_forall. intros x Hx. apply in_map_iff in Hx.
  destruct Hx as [r [<- _]]. apply quantize2_exp.
Qed.

(** ** Sets of currencies *)

Lemma set_add_in (x y : string) (s : list string) :
  In y (Py.set_add x s) <-> y = x \/ In y s.
Proof.
  induction s as [|z s IH]; simpl.
  - intuition congruence.
  - destruct (String.eqb_spec z x) as [->|Hne]; simpl.
    + intuition.
    + rewrite IH. intuition.
Qed.

Lemma set_add_nodup (x : string) (s : list string) :
  NoDup s -> NoDup (Py.set_add x s).
Proof.
  induction s as [|z s IH]; simpl; intros Hn.
  - constructor; [intros []|constructor].
  - destruct (String.eqb_spec z x) as [->|Hne]; [exact Hn|].
    inversion Hn as [|? ? Hz Hs]; subst. constructor.
    + rewrite set_add_in. intros [E|Hin]; [congruence|contradiction].
    + apply IH, Hs.
Qed.

Lemma add_currencies_in (cs s : list string) (y : string) :
  In y (add_currencies cs s) <-> In y cs \/ In y s.
Proof.
  revert s. induction cs as [|c cs IH]; intros s; simpl.
  - intuition.
  - unfold add_currencies in *. simpl. rewrite IH, set_add_in. intuition.
Qed.

Lemma add_currencies_nodup (cs s : list string) :
  NoDup s -> NoDup (add_currencies cs s).
Proof.
  revert s. induction cs as [|c cs IH]; intros s Hn; simpl.
  - exact Hn.
  - apply IH, set_add_nodup, Hn.
Qed.

Lemma two_members_length (a b : string) (s : list string) :
  In a s -> In b s -> a <> b -> (1 < List.length s)%nat.
Proof.
  destruct s as [|x [|y s]]; simpl; intros Ha Hb Hne.
  - contradiction.
  - destruct Ha as [<-|[]], Hb as [<-|[]]. congruence.
  - lia.
Qed.

Lemma one_member_list (c : string) (s : list string) :
  NoDup s -> s <> [] -> (forall y, In y s -> y = c) -> s = [c].
Proof.
  destruct s as [|x [|y s]]; intros Hn Hne Hall.
  - congruence.
  - f_equal. apply Hall. left. reflexivity.
  - exfalso. inversion Hn as [|? ? Hx _]; subst. apply Hx. left.
    rewrite (Hall x), (Hall y); simpl; auto.
Qed.

(** ** The builder as its loop followed by the two checks *)

Lemma get_user_cart_ok (user : User) (db : DB) :
  exists cart, snd (_get_user_cart user db) = Ok cart.
Proof.
  unfold _get_user_cart. destruct (find_cart db (user_id user)); eexists;
    reflexivity.
Qed.

Lemma get_user_cart_tables (user : User) (db : DB) :
  let db' := fst (_get_user_cart user db) in
  orders db' = orders db /\ payments db' = payments db
  /\ order_items db' = order_items db /\ cart_items db' = cart_items db
  /\ products db' = products db.
Proof.
  unfold _get_user_cart. destruct (find_cart db (user_id user)); simpl;
    repeat split.
Qed.

Lemma build_cart_snapshot_eq (user : User) (db : DB) :
  _build_cart_snapshot user db =
  (fst (_get_user_cart user db), snap_finish (snap_loop (cart_rows user db))).
Proof.
  unfold _build_cart_snapshot, bind, gets, cart_rows.
  destruct (get_user_cart_ok user db) as [cart Hc].
  destruct (_get_user_cart user db) as [db' r]. simpl in Hc. subst r.
  reflexivity.
Qed.

(** ** Snapshot builder: subtotal, currencies, clamping *)

Lemma surviving_currencies_single (rows : list (CartItem * Product)) (c : string) :
  surviving rows <> [] ->
  (forall row, In row (surviving rows) -> effective_currency row = c) ->
  add_currencies (map effective_currency (surviving rows)) [] = [c].
Proof.
  intros Hne Hall. apply one_member_list.
  - apply add_currencies_nodup. constructor.
  - destruct (surviving rows) as [|r l] eqn:E; [congruence|].
    intros Hnil.
    assert (Hin : In (effective_currency r)
                     (add_currencies (map effective_currency (r :: l)) [])).
    { apply add_currencies_in. left. simpl. left. reflexivity. }
    rewrite Hnil in Hin. exact Hin.
  - intros y Hy. apply add_currencies_in in Hy. destruct Hy as [Hy|[]].
    apply in_map_iff in Hy. destruct Hy as [r [<- Hr]]. apply Hall, Hr.
Qed.

Lemma snap_finish_single (rows : list (CartItem * Product)) (c : string) :
  surviving rows <> [] ->
  (forall row, In row (surviving rows) -> effective_currency row = c) ->
  snap_finish (snap_loop rows) =
  Ok (map snapshot_line (surviving rows), sum_of_rounded rows, c).
Proof.
  intros Hne Hall. rewrite snap_loop_eq. unfold snap_finish. simpl.
  rewrite (surviving_currencies_single rows c Hne Hall). simpl.
  destruct (surviving rows) as [|r l] eqn:E; [congruence|]. simpl.
  unfold _q2d. rewrite quantize2_fixed by apply sum_of_rounded_exp.
  reflexivity.
Qed.

Lemma snap_finish_mixed (rows : list (CartItem * Product))
  (r1 r2 : CartItem * Product) :
  In r1 (surviving rows) -> In r2 (surviving rows) ->
  effective_currency r1 <> effective_currency r2 ->
  snap_finish (snap_loop rows) = Raise (ValueError msg_mixed).
Proof.
  intros H1 H2 Hne. rewrite snap_loop_eq. unfold snap_finish. simpl.
  destruct (surviving rows) as [|r l] eqn:E; [contradiction|]. simpl map at 1.
  assert (Hlen : (1 < List.length
                        (add_currencies (map effective_currency (r :: l)) []))%nat).
  { apply (two_members_length (effective_currency r1) (effective_currency r2));
      [| |exact Hne]; apply add_currencies_in; left; apply in_map; assumption. }
  apply Nat.ltb_lt in Hlen. rewrite Hlen. reflexivity.
Qed.

(** C3: for a cart whose surviving lines are all in one currency, the
    builder returns, and the subtotal it returns is the sum of the line
    totals each rounded to 2 places; it is therefore not the exact sum
    rounded once whenever the two differ. *)
Theorem snapshot_subtotal_sums_rounded_lines (user : User) (db : DB) (c : string) :
  surviving (cart_rows user db) <> [] ->
  (forall row, In row (surviving (cart_rows user db)) ->
               effective_currency row = c) ->
  returned_subtotal (snd (_build_cart_snapshot user db))
    = Some (sum_of_rounded (cart_rows user db))
  /\ (sum_of_rounded (cart_rows user db) <> rounded_sum (cart_rows user db) ->
      returned_subtotal (snd (_build_cart_snapshot user db))
        <> Some (rounded_sum (cart_rows user db))).
Proof.
  intros Hne Hall. rewrite build_cart_snapshot_eq. simpl.
  rewrite (snap_finish_single _ c Hne Hall). simpl. split.
  - reflexivity.
  - intros Hd Heq. apply Hd. congruence.
Qed.

(** On two lines of 0.005 the builder returns 0.00, the sum of the rounded
    lines, where rounding the exact sum once would give 0.01. *)
Lemma snapshot_subtotal_sums_rounded_lines_witness :
  returned_subtotal (snd (_build_cart_snapshot Scenario.alice Scenario.db_fine))
    = Some (Scenario.d 0)
  /\ rounded_sum (cart_rows Scenario.alice Scenario.db_fine) = Scenario.d 1
  /\ returned_subtotal (snd (_build_cart_snapshot Scenario.alice Scenario.db_fine))
    <> Some (rounded_sum (cart_rows Scenario.alice Scenario.db_fine)).
Proof.
  assert (Hne : surviving (cart_rows Scenario.alice Scenario.db_fine) <> [])
    by (vm_compute; discriminate).
  assert (Hall : forall row,
             In row (surviving (cart_rows Scenario.alice Scenario.db_fine)) ->
             effective_currency row = "USD").
  { vm_compute. intros row [<-|[<-|[]]]; reflexivity. }
  destruct (snapshot_subtotal_sums_rounded_lines
              Scenario.alice Scenario.db_fine "USD" Hne Hall) as [Hsum Hnot].
  split; [exact Hsum|]. split; [reflexivity|].
  apply Hnot. vm_compute. discriminate.
Defined.

(** With prices of 2 places, as the price column stores them, every line
    total is already exact at 2 places and the two orders of rounding
    give the same subtotal. *)
Lemma two_place_prices_round_alike (rows : list (CartItem * Product)) :
  (forall row, In row rows -> Dec.dexp (price (snd row)) = -2) ->
  sum_of_rounded rows = rounded_sum rows.
Proof.
  intros Hp. unfold sum_of_rounded, rounded_sum.
  assert (Hmap : map line_rounded (surviving rows)
                 = map line_exact (surviving rows)).
  { apply map_ext_in. intros r Hr. unfold line_rounded.
    apply quantize2_fixed. unfold line_exact, Dec.mul. simpl.
    rewrite Hp; [reflexivity|]. apply filter_In in Hr. apply Hr. }
  rewrite <- Hmap. symmetry. apply quantize2_fixed.
  apply (sum_of_rounded_exp rows).
Qed.

Lemma create_order_raises (env : Env) (user : User) (db : DB) (e : Exc) :
  snd (_build_cart_snapshot user db) = Raise e ->
  _create_order_from_cart env user db = (fst (_get_user_cart user db), Raise e).
Proof.
  intros H. unfold _create_order_from_cart, bind.
  rewrite build_cart_snapshot_eq in *. simpl in H. rewrite H. reflexivity.
Qed.

(** C4: a cart whose surviving lines are in two or more currencies makes
    the builder raise the mixed-currency error; order creation raises it
    too and leaves the Order table (and the OrderItem and Payment tables)
    as they were. *)
Theorem mixed_currency_cart_creates_no_order
  (env : Env) (user : User) (db : DB) (r1 r2 : CartItem * Product) :
  In r1 (surviving (cart_rows user db)) ->
  In r2 (surviving (cart_rows user db)) ->
  effective_currency r1 <> effective_currency r2 ->
  snd (_build_cart_snapshot user db) = Raise (ValueError msg_mixed)
  /\ snd (_create_order_from_cart env user db) = Raise (ValueError msg_mixed)
  /\ orders (fst (_create_order_from_cart env user db)) = orders db
  /\ order_items (fst (_create_order_from_cart env user db)) = order_items db
  /\ payments (fst (_create_order_from_cart env user db)) = payments db.
Proof.
  intros H1 H2 Hne.
  assert (Hb : snd (_build_cart_snapshot user db) = Raise (ValueError msg_mixed)).
  { rewrite build_cart_snapshot_eq. simpl.
    apply (snap_finish_mixed _ r1 r2 H1 H2 Hne). }
  split; [exact Hb|].
  rewrite (create_order_raises env user db _ Hb). simpl.
  destruct (get_user_cart_tables user db) as (Ho & Hp & Hi & _).
  repeat split; assumption.
Qed.

Lemma mixed_currency_cart_creates_no_order_witness :
  snd (_build_cart_snapshot Scenario.alice Scenario.db_mixed)
    = Raise (ValueError msg_mixed)
  /\ snd (_create_order_from_cart Scenario.env0 Scenario.alice Scenario.db_mixed)
    = Raise (ValueError msg_mixed)
  /\ orders (fst (_create_order_from_cart Scenario.env0 Scenario.alice
                    Scenario.db_mixed)) = []
  /\ order_items (fst (_create_order_from_cart Scenario.env0 Scenario.alice
                         Scenario.db_mixed)) = []
  /\ payments (fst (_create_order_from_cart Scenario.env0 Scenario.alice
                      Scenario.db_mixed)) = [].
Proof.
  apply (mixed_currency_cart_creates_no_order
           Scenario.env0 Scenario.alice Scenario.db_mixed
           (mkCartItem 1 Scenario.pidA 1, Scenario.productA)
           (mkCartItem 1 Scenario.pidE 2, Scenario.productE)).
  - vm_compute. left. reflexivity.
  - vm_compute. right. left. reflexivity.
  - vm_compute. discriminate.
Defined.

(** C7: the snapshot holds one line per cart line whose clamped quantity
    is positive, in reading order, and drops the others; the quantity of
    a line is the requested quantity, replaced by the smaller of it and
    the stock exactly when the stock is positive (a stock of 0 never
    clamps). *)
Theorem snapshot_clamps_to_positive_stock (user : User) (db : DB) :
  acc_items (snap_loop (cart_rows user db))
    = map snapshot_line
        (filter (fun r => 0 <? snap_qty (snapshot_line r)) (cart_rows user db))
  /\ (forall r, 0 < stock (snd r) ->
        snap_qty (snapshot_line r) = Z.min (quantity (fst r)) (stock (snd r)))
  /\ (forall r, stock (snd r) <= 0 ->
        snap_qty (snapshot_line r) = quantity (fst r))
  /\ (forall r acc, snap_qty (snapshot_line r) <= 0 -> snap_step acc r = acc)
  /\ (forall db' items sub cur,
        _build_cart_snapshot user db = (db', Ok (items, sub, cur)) ->
        items = map snapshot_line
                  (filter (fun r => 0 <? snap_qty (snapshot_line r))
                          (cart_rows user db))).
Proof.
  assert (Hitems : acc_items (snap_loop (cart_rows user db))
                   = map snapshot_line (surviving (cart_rows user db))).
  { rewrite snap_loop_eq. reflexivity. }
  split; [exact Hitems|]. split; [|split; [|split]].
  - intros r Hs. simpl. unfold clamped_qty.
    destruct (Z.ltb_spec 0 (stock (snd r))); [reflexivity|lia].
  - intros r Hs. simpl. unfold clamped_qty.
    destruct (Z.ltb_spec 0 (stock (snd r))); [lia|reflexivity].
  - intros r acc Hq. rewrite snap_step_cases. unfold survives.
    simpl in Hq. destruct (Z.ltb_spec 0 (clamped_qty r)); [lia|reflexivity].
  - intros db' items sub cur Hb. rewrite build_cart_snapshot_eq in Hb.
    inversion Hb as [[Hdb Hf]]. unfold snap_finish in Hf.
    change (filter (fun r => 0 <? snap_qty (snapshot_line r)) (cart_rows user db))
      with (surviving (cart_rows user db)).
    rewrite <- Hitems.
    destruct (acc_items (snap_loop (cart_rows user db))) eqn:E;
      [discriminate|].
    destruct (1 <? List.length (acc_currencies (snap_loop (cart_rows user db))))%nat;
      [discriminate|].
    inversion Hf. reflexivity.
Qed.

Example snapshot_clamps_end_to_end :
  snd (_build_cart_snapshot Scenario.alice Scenario.db_cart)
  = Ok ([mkSnap Scenario.pidA "Product A" (Scenario.d 1000) 3 (Scenario.d 3000) "USD"],
        Scenario.d 3000, "USD").
Proof. reflexivity. Qed.

(** ** Row updates and lookups *)

Lemma find_map_keyed {A : Type} (key : A -> bool) (g : A -> A) (l : list A) :
  (forall x, key (g x) = key x) ->
  find key (map g l) = option_map g (find key l).
Proof.
  intros Hk. induction l as [|x l IH]; simpl.
  - reflexivity.
  - rewrite Hk. destruct (key x); [reflexivity|exact IH].
Qed.

Lemma pick_newer_map (g : Payment -> Payment) (order : string)
  (l : list Payment) (best : option Payment) :
  (forall p, payment_order (g p) = payment_order p) ->
  (forall p, payment_created_at (g p) = payment_created_at p) ->
  fold_left (pick_newer order) (map g l) (option_map g best)
  = option_map g (fold_left (pick_newer order) l best).
Proof.
  intros Ho Hc. revert best. induction l as [|p l IH]; intros best; simpl.
  - reflexivity.
  - rewrite <- IH. f_equal. unfold pick_newer. rewrite Ho.
    destruct (String.eqb (payment_order p) order); [|reflexivity].
    destruct best as [b|]; simpl; [|reflexivity].
    rewrite !Hc. destruct (payment_created_at b <? payment_created_at p);
      reflexivity.
Qed.

Lemma pick_newer_order (order : string) (l : list Payment)
  (best : option Payment) (p : Payment) :
  (forall b, best = Some b -> payment_order b = order) ->
  fold_left (pick_newer order) l best = Some p -> payment_order p = order.
Proof.
  revert best. induction l as [|x l IH]; intros best Hb H; simpl in H.
  - apply Hb, H.
  - apply (IH (pick_newer order best x)); [|exact H]. intros b Hb'.
    unfold pick_newer in Hb'.
    destruct (String.eqb_spec (payment_order x) order) as [E|E].
    + destruct best as [b0|].
      * destruct (payment_created_at b0 <? payment_created_at x);
          inversion Hb'; subst; auto.
      * inversion Hb'; subst; auto.
    + auto.
Qed.

Lemma latest_payment_order (db : DB) (order : string) (p : Payment) :
  latest_payment db order = Some p -> payment_order p = order.
Proof.
  apply pick_newer_order. intros b Hb. discriminate.
Qed.

(** Updating a payment by key keeps which payment of an order is the most
    recent, as long as the update leaves order and creation time alone. *)
Lemma latest_payment_update (db : DB) (pk order : string)
  (h : Payment -> Payment) :
  (forall p, payment_order (h p) = payment_order p) ->
  (forall p, payment_created_at (h p) = payment_created_at p) ->
  latest_payment (update_payment db pk h) order
  = option_map (fun p => if String.eqb (payment_pk p) pk then h p else p)
               (latest_payment db order).
Proof.
  intros Ho Hc. unfold latest_payment, update_payment. simpl.
  apply (pick_newer_map
           (fun p => if String.eqb (payment_pk p) pk then h p else p)
           order (payments db) None).
  - intros p. destruct (String.eqb (payment_pk p) pk); [apply Ho|reflexivity].
  - intros p. destruct (String.eqb (payment_pk p) pk); [apply Hc|reflexivity].
Qed.

Lemma find_order_by_code_update (db : DB) (pk code : string)
  (h : Order -> Order) :
  (forall o, order_code (h o) = order_code o) ->
  find_order_by_code (update_order db pk h) code
  = option_map (fun o => if String.eqb (order_pk o) pk then h o else o)
               (find_order_by_code db code).
Proof.
  intros Hc. unfold find_order_by_code, update_order. simpl.
  apply find_map_keyed. intros o.
  destruct (String.eqb (order_pk o) pk); [rewrite Hc|]; reflexivity.
Qed.

Lemma find_order_by_pk_update (db : DB) (pk pk' : string)
  (h : Order -> Order) :
  (forall o, order_pk (h o) = order_pk o) ->
  find_order_by_pk (update_order db pk h) pk'
  = option_map (fun o => if String.eqb (order_pk o) pk then h o else o)
               (find_order_by_pk db pk').
Proof.
  intros Hc. unfold find_order_by_pk, update_order. simpl.
  apply find_map_keyed. intros o.
  destruct (String.eqb (order_pk o) pk); [rewrite Hc|]; reflexivity.
Qed.

Lemma clear_owner_cart_tables (db : DB) (o : Order) :
  orders (clear_owner_cart db o) = orders db
  /\ payments (clear_owner_cart db o) = payments db
  /\ carts (clear_owner_cart db o) = carts db
  /\ order_items (clear_owner_cart db o) = order_items db.
Proof.
  unfold clear_owner_cart, clear_cart_of.
  destruct (order_user o) as [u|]; [|repeat split].
  destruct (find_cart db u); repeat split.
Qed.

Lemma clear_cart_of_empty (db : DB) (u : positive) :
  owner_cart_items (clear_cart_of db u) u = [].
Proof.
  unfold owner_cart_items, clear_cart_of.
  destruct (find_cart db u) as [cart|] eqn:E.
  - unfold find_cart in *. simpl. rewrite E. simpl.
    induction (cart_items db) as [|it l IH]; simpl; [reflexivity|].
    destruct (ci_cart it =? cart_pk cart) eqn:Ec; simpl; [exact IH|].
    rewrite Ec. exact IH.
  - rewrite E. reflexivity.
Qed.

(** ** The return pages *)

Lemma latest_payment_update_order (db : DB) (pk order : string)
  (h : Order -> Order) :
  latest_payment (update_order db pk h) order = latest_payment db order.
Proof. reflexivity. Qed.

Lemma latest_payment_save_order_status (db : DB) (pk s order : string) :
  latest_payment (save_order_status db pk s) order = latest_payment db order.
Proof. reflexivity. Qed.

Lemma find_order_by_code_update_payment (db : DB) (pk code : string)
  (h : Payment -> Payment) :
  find_order_by_code (update_payment db pk h) code = find_order_by_code db code.
Proof. reflexivity. Qed.

Lemma find_order_by_code_clear (db : DB) (o : Order) (code : string) :
  find_order_by_code (clear_owner_cart db o) code = find_order_by_code db code.
Proof.
  unfold find_order_by_code.
  destruct (clear_owner_cart_tables db o) as [-> _]. reflexivity.
Qed.

Lemma latest_payment_clear (db : DB) (o : Order) (order : string) :
  latest_payment (clear_owner_cart db o) order = latest_payment db order.
Proof.
  unfold latest_payment.
  destruct (clear_owner_cart_tables db o) as (_ & -> & _). reflexivity.
Qed.

Lemma latest_payment_set_status (db : DB) (order : string) (pay : Payment)
  (s : string) :
  latest_payment db order = Some pay ->
  latest_payment (save_payment_status db (payment_pk pay) s) order
  = Some (with_payment_status pay s).
Proof.
  intros H. unfold save_payment_status.
  rewrite latest_payment_update by reflexivity.
  rewrite H. simpl. rewrite String.eqb_refl. reflexivity.
Qed.

Lemma find_order_by_code_set (db : DB) (code : string) (order : Order)
  (h : Order -> Order) :
  (forall o, order_code (h o) = order_code o) ->
  find_order_by_code db code = Some order ->
  find_order_by_code (update_order db (order_pk order) h) code = Some (h order).
Proof.
  intros Hc H. rewrite find_order_by_code_update by exact Hc.
  rewrite H. simpl. rewrite String.eqb_refl. reflexivity.
Qed.

(** The database [checkout_success] leaves when the most recent payment of
    the order is still in flight. *)
Lemma checkout_success_in_flight (req : Request) (db : DB) (order : Order)
  (pay : Payment) :
  find_order_by_code db (dget (GET req) "oc") = Some order ->
  latest_payment db (order_pk order) = Some pay ->
  in_flight pay = true ->
  out_db (checkout_success req db)
  = clear_owner_cart
      (update_order (save_payment_status db (payment_pk pay) "succeeded")
                    (order_pk order) mark_paid_running)
      order.
Proof.
  intros Ho Hp Hf. unfold checkout_success. rewrite Ho, Hp, Hf. reflexivity.
Qed.

(** The cases in which [checkout_success] writes nothing. *)
Lemma checkout_success_settled (req : Request) (db : DB) :
  match find_order_by_code db (dget (GET req) "oc") with
  | Some order =>
      match latest_payment db (order_pk order) with
      | Some pay => in_flight pay = false
      | None => True
      end
  | None => True
  end ->
  out_db (checkout_success req db) = db.
Proof.
  unfold checkout_success.
  destruct (find_order_by_code db (dget (GET req) "oc")) as [order|];
    [|reflexivity].
  destruct (latest_payment db (order_pk order)) as [pay|]; [|reflexivity].
  intros ->. reflexivity.
Qed.

Lemma checkout_success_after (req : Request) (db : DB) (order : Order)
  (pay : Payment) :
  find_order_by_code db (dget (GET req) "oc") = Some order ->
  latest_payment db (order_pk order) = Some pay ->
  in_flight pay = true ->
  latest_payment (out_db (checkout_success req db)) (order_pk order)
    = Some (with_payment_status pay "succeeded")
  /\ find_order_by_code (out_db (checkout_success req db)) (dget (GET req) "oc")
    = Some (mark_paid_running order).
Proof.
  intros Ho Hp Hf. rewrite (checkout_success_in_flight req db order pay Ho Hp Hf).
  split.
  - rewrite latest_payment_clear, latest_payment_update_order.
    apply latest_payment_set_status, Hp.
  - rewrite find_order_by_code_clear.
    apply find_order_by_code_set; [reflexivity|].
    unfold save_payment_status.
    rewrite find_order_by_code_update_payment. exact Ho.
Qed.

(** C2: when the order is found and its most recent payment is processing
    or created, [checkout_success] leaves that payment succeeded, the
    order paid with processing status running, and no line in the order
    owner's persisted cart. *)
Theorem checkout_success_marks_paid_and_clears_cart
  (req : Request) (db : DB) (order : Order) (pay : Payment) :
  find_order_by_code db (dget (GET req) "oc") = Some order ->
  latest_payment db (order_pk order) = Some pay ->
  in_strs (payment_status pay) ["processing"; "created"] = true ->
  exists pay' order',
    latest_payment (out_db (checkout_success req db)) (order_pk order) = Some pay'
    /\ payment_pk pay' = payment_pk pay
    /\ payment_status pay' = "succeeded"
    /\ find_order_by_code (out_db (checkout_success req db))
                          (dget (GET req) "oc") = Some order'
    /\ order_pk order' = order_pk order
    /\ order_status order' = "paid"
    /\ order_processing_status order' = "running"
    /\ (forall u, order_user order = Some u ->
                  owner_cart_items (out_db (checkout_success req db)) u = [])
    /\ out_response (checkout_success req db) = Render "checkout/success.html".
Proof.
  intros Ho Hp Hf.
  destruct (checkout_success_after req db order pay Ho Hp Hf) as [Hl Hc].
  exists (with_payment_status pay "succeeded"), (mark_paid_running order).
  repeat split; try assumption.
  - intros u Hu.
    rewrite (checkout_success_in_flight req db order pay Ho Hp Hf).
    unfold clear_owner_cart. rewrite Hu. apply clear_cart_of_empty.
  - unfold checkout_success. rewrite Ho. reflexivity.
Qed.

(** The end-to-end scenario of the specification: the processing payment
    of the pending order becomes succeeded, the order paid and running,
    and the three units of Product A leave the cart. *)
Lemma checkout_success_marks_paid_and_clears_cart_witness :
  exists pay' order',
    latest_payment (out_db (checkout_success Scenario.get_oc Scenario.db_started))
                   Scenario.oid = Some pay'
    /\ payment_pk pay' = Scenario.pay_id
    /\ payment_status pay' = "succeeded"
    /\ find_order_by_code
         (out_db (checkout_success Scenario.get_oc Scenario.db_started))
         "GV-1A2B3C4D" = Some order'
    /\ order_pk order' = Scenario.oid
    /\ order_status order' = "paid"
    /\ order_processing_status order' = "running"
    /\ (forall u, Some 1%positive = Some u ->
          owner_cart_items
            (out_db (checkout_success Scenario.get_oc Scenario.db_started)) u = [])
    /\ out_response (checkout_success Scenario.get_oc Scenario.db_started)
       = Render "checkout/success.html".
Proof.
  apply (checkout_success_marks_paid_and_clears_cart
           Scenario.get_oc Scenario.db_started
           (Scenario.order1 "pending") (Scenario.pay1 "processing"));
    reflexivity.
Defined.

(** C10: [checkout_success] writes nothing when the order is unknown, has
    no payment, or has a most recent payment that is neither processing
    nor created; and a second visit never changes what the first left. *)
Theorem checkout_success_repeat_is_noop (req : Request) (db : DB) :
  (forall order pay,
      find_order_by_code db (dget (GET req) "oc") = Some order ->
      latest_payment db (order_pk order) = Some pay ->
      in_strs (payment_status pay) ["processing"; "created"] = false ->
      out_db (checkout_success req db) = db)
  /\ out_db (checkout_success req (out_db (checkout_success req db)))
     = out_db (checkout_success req db).
Proof.
  split.
  - intros order pay Ho Hp Hf. apply checkout_success_settled.
    rewrite Ho, Hp. exact Hf.
  - destruct (find_order_by_code db (dget (GET req) "oc")) as [order|] eqn:Ho.
    + destruct (latest_payment db (order_pk order)) as [pay|] eqn:Hp.
      * destruct (in_flight pay) eqn:Hf.
        -- destruct (checkout_success_after req db order pay Ho Hp Hf)
             as [Hl Hc].
           apply checkout_success_settled. rewrite Hc. simpl.
           simpl in Hl. rewrite Hl. reflexivity.
        -- assert (E : out_db (checkout_success req db) = db).
           { apply checkout_success_settled. rewrite Ho, Hp. exact Hf. }
           rewrite E. exact E.
      * assert (E : out_db (checkout_success req db) = db).
        { apply checkout_success_settled. rewrite Ho, Hp. exact I. }
        rewrite E. exact E.
    + assert (E : out_db (checkout_success req db) = db).
      { apply checkout_success_settled. rewrite Ho. exact I. }
      rewrite E. exact E.
Qed.

(** A first visit to the started checkout changes the database; the
    second visit, and any visit to the paid order, changes nothing. *)
Lemma checkout_success_repeat_is_noop_witness :
  out_db (checkout_success Scenario.get_oc Scenario.db_paid) = Scenario.db_paid
  /\ out_db (checkout_success Scenario.get_oc
               (out_db (checkout_success Scenario.get_oc Scenario.db_started)))
     = out_db (checkout_success Scenario.get_oc Scenario.db_started)
  /\ out_db (checkout_success Scenario.get_oc Scenario.db_started)
     <> Scenario.db_started.
Proof.
  split; [|split].
  - apply (proj1 (checkout_success_repeat_is_noop Scenario.get_oc Scenario.db_paid)
             (Scenario.order1 "paid") (Scenario.pay1 "succeeded"));
      reflexivity.
  - apply (proj2 (checkout_success_repeat_is_noop Scenario.get_oc
                    Scenario.db_started)).
  - vm_compute. discriminate.
Defined.

(** What [checkout_cancel] leaves of a found order and of its most recent
    payment. *)
Lemma checkout_cancel_after (req : Request) (db : DB) (order : Order) :
  find_order_by_code db (dget (GET req) "oc") = Some order ->
  find_order_by_code (out_db (checkout_cancel req db)) (dget (GET req) "oc")
    = Some (cancel_order order)
  /\ latest_payment (out_db (checkout_cancel req db)) (order_pk order)
    = option_map cancel_payment (latest_payment db (order_pk order)).
Proof.
  intros Ho. unfold checkout_cancel, out_db. simpl. rewrite Ho.
  unfold cancel_order, cancel_payment.
  destruct (String.eqb (order_status order) "pending") eqn:Es.
  - rewrite !latest_payment_save_order_status.
    assert (Hc : find_order_by_code
                   (save_order_status db (order_pk order) "cancelled")
                   (dget (GET req) "oc")
                 = Some (with_status order "cancelled")).
    { apply (find_order_by_code_set db _ order
               (fun o => with_status o "cancelled")); [reflexivity|exact Ho]. }
    destruct (latest_payment db (order_pk order)) as [pay|] eqn:Hp; simpl.
    + destruct (in_flight pay) eqn:Hf.
      * split.
        -- unfold save_payment_status.
           rewrite find_order_by_code_update_payment. exact Hc.
        -- apply latest_payment_set_status. exact Hp.
      * split; [exact Hc|exact Hp].
    + split; [exact Hc|exact Hp].
  - destruct (latest_payment db (order_pk order)) as [pay|] eqn:Hp; simpl.
    + destruct (in_flight pay) eqn:Hf.
      * split.
        -- unfold save_payment_status.
           rewrite find_order_by_code_update_payment. exact Ho.
        -- apply latest_payment_set_status. exact Hp.
      * split; [exact Ho|exact Hp].
    + split; [exact Ho|exact Hp].
Qed.

(** The cases in which [checkout_cancel] writes nothing. *)
Lemma checkout_cancel_settled (req : Request) (db : DB) :
  match find_order_by_code db (dget (GET req) "oc") with
  | Some order =>
      String.eqb (order_status order) "pending" = false
      /\ match latest_payment db (order_pk order) with
         | Some pay => in_flight pay = false
         | None => True
         end
  | None => True
  end ->
  out_db (checkout_cancel req db) = db.
Proof.
  unfold checkout_cancel, out_db. simpl.
  destruct (find_order_by_code db (dget (GET req) "oc")) as [order|];
    [|reflexivity].
  intros [-> Hp].
  destruct (latest_payment db (order_pk order)) as [pay|]; [|reflexivity].
  rewrite Hp. reflexivity.
Qed.

Lemma cancel_order_settled (o : Order) :
  String.eqb (order_status (cancel_order o)) "pending" = false
  /\ order_pk (cancel_order o) = order_pk o.
Proof.
  unfold cancel_order.
  destruct (String.eqb (order_status o) "pending") eqn:E; simpl; auto.
Qed.

Lemma cancel_payment_settled (p : Payment) : in_flight (cancel_payment p) = false.
Proof.
  unfold cancel_payment. destruct (in_flight p) eqn:E; [reflexivity|exact E].
Qed.

(** C9: [checkout_cancel] turns a pending order into a cancelled one and
    a most recent payment that is processing or created into a cancelled
    one; on an order that is not pending and whose most recent payment is
    not in flight it writes nothing; and calling it again never changes
    what the first call left. *)
Theorem checkout_cancel_cancels_and_is_idempotent (req : Request) (db : DB) :
  (forall order,
      find_order_by_code db (dget (GET req) "oc") = Some order ->
      order_status order = "pending" ->
      exists order',
        find_order_by_code (out_db (checkout_cancel req db))
                           (dget (GET req) "oc") = Some order'
        /\ order_pk order' = order_pk order
        /\ order_status order' = "cancelled")
  /\ (forall order pay,
      find_order_by_code db (dget (GET req) "oc") = Some order ->
      latest_payment db (order_pk order) = Some pay ->
      in_strs (payment_status pay) ["processing"; "created"] = true ->
      exists pay',
        latest_payment (out_db (checkout_cancel req db)) (order_pk order)
          = Some pay'
        /\ payment_pk pay' = payment_pk pay
        /\ payment_status pay' = "cancelled")
  /\ (forall order,
      find_order_by_code db (dget (GET req) "oc") = Some order ->
      order_status order <> "pending" ->
      (forall pay, latest_payment db (order_pk order) = Some pay ->
                   in_strs (payment_status pay) ["processing"; "created"] = false) ->
      out_db (checkout_cancel req db) = db)
  /\ out_db (checkout_cancel req (out_db (checkout_cancel req db)))
     = out_db (checkout_cancel req db).
Proof.
  split; [|split; [|split]].
  - intros order Ho Hs.
    destruct (checkout_cancel_after req db order Ho) as [Hc _].
    exists (cancel_order order). split; [exact Hc|].
    unfold cancel_order. rewrite Hs. simpl. auto.
  - intros order pay Ho Hp Hf.
    destruct (checkout_cancel_after req db order Ho) as [_ Hl].
    rewrite Hp in Hl. simpl in Hl.
    exists (cancel_payment pay). split; [exact Hl|].
    unfold cancel_payment, in_flight. rewrite Hf. simpl. auto.
  - intros order Ho Hs Hp. apply checkout_cancel_settled. rewrite Ho. split.
    + destruct (String.eqb_spec (order_status order) "pending");
        [contradiction|reflexivity].
    + destruct (latest_payment db (order_pk order)) as [pay|];
        [apply Hp; reflexivity|exact I].
  - destruct (find_order_by_code db (dget (GET req) "oc")) as [order|] eqn:Ho.
    + destruct (checkout_cancel_after req db order Ho) as [Hc Hl].
      apply checkout_cancel_settled. rewrite Hc.
      destruct (cancel_order_settled order) as [Hs Hk]. split; [exact Hs|].
      rewrite Hk, Hl.
      destruct (latest_payment db (order_pk order)) as [pay|]; simpl;
        [apply cancel_payment_settled|exact I].
    + assert (E : out_db (checkout_cancel req db) = db).
      { apply checkout_cancel_settled. rewrite Ho. exact I. }
      rewrite E. exact E.
Qed.

Lemma checkout_cancel_cancels_and_is_idempotent_witness :
  (exists order',
      find_order_by_code (out_db (checkout_cancel Scenario.get_oc Scenario.db_started))
                         "GV-1A2B3C4D" = Some order'
      /\ order_pk order' = Scenario.oid /\ order_status order' = "cancelled")
  /\ (exists pay',
      latest_payment (out_db (checkout_cancel Scenario.get_oc Scenario.db_started))
                     Scenario.oid = Some pay'
      /\ payment_pk pay' = Scenario.pay_id /\ payment_status pay' = "cancelled")
  /\ out_db (checkout_cancel Scenario.get_oc Scenario.db_paid) = Scenario.db_paid.
Proof.
  destruct (checkout_cancel_cancels_and_is_idempotent
              Scenario.get_oc Scenario.db_started) as (Ha & Hb & _ & _).
  destruct (checkout_cancel_cancels_and_is_idempotent
              Scenario.get_oc Scenario.db_paid) as (_ & _ & Hc & _).
  split; [|split].
  - apply (Ha (Scenario.order1 "pending")); reflexivity.
  - apply (Hb (Scenario.order1 "pending") (Scenario.pay1 "processing"));
      reflexivity.
  - apply (Hc (Scenario.order1 "paid")).
    + reflexivity.
    + vm_compute. discriminate.
    + intros pay Hp. vm_compute in Hp. inversion Hp. reflexivity.
Defined.

(** ** The webhook *)

Lemma find_none_all {A : Type} (f : A -> bool) (l : list A) :
  (forall x, In x l -> f x = false) -> find f l = None.
Proof.
  intros H. destruct (find f l) as [x|] eqn:E; [|reflexivity].
  apply find_some in E. destruct E as [Hin Hf]. rewrite (H x Hin) in Hf.
  discriminate.
Qed.

(** The merchant order id, if any, names a key that no order has, and no
    order carries the order code of the payload: the lookup of the
    webhook finds nothing. *)
Lemma webhook_resolve_no_match (db : DB) (payload : list (string * string)) :
  (forall mid, payload_merchant_order_id payload = Some mid ->
     exists pk, Uuid.canonical mid = Some pk
                /\ forall o, In o (orders db) -> order_pk o <> pk) ->
  (forall o, In o (orders db) ->
     payload_order_code payload <> Some (order_code o)) ->
  webhook_resolve db payload = Ok None.
Proof.
  intros Hid Hcode. unfold webhook_resolve, get_order_by_id.
  destruct (payload_merchant_order_id payload) as [mid|]; [|reflexivity].
  destruct (Hid mid eq_refl) as (pk & -> & Hpk).
  unfold find_order_by_pk. rewrite find_none_all.
  - destruct (payload_order_code payload) as [code|]; [|reflexivity].
    unfold find_order_by_code. rewrite find_none_all; [reflexivity|].
    intros o Hin.
    destruct (String.eqb_spec (order_code o) code) as [<-|]; [|reflexivity].
    exfalso. apply (Hcode o Hin). reflexivity.
  - intros o Hin.
    destruct (String.eqb_spec (order_pk o) pk) as [E|]; [|reflexivity].
    exfalso. apply (Hpk o Hin). exact E.
Qed.

Lemma webhook_debug_of_accepted (st : Settings) (payload : list (string * string)) :
  DEBUG st = true
  \/ _verify_tco_signature st payload (TWOCHECKOUT_SECRET_WORD st) = true ->
  DEBUG st = true.
Proof.
  intros [Hd|Hv]; [exact Hd|].
  unfold _verify_tco_signature in Hv. destruct (DEBUG st); [reflexivity|].
  destruct (negb (Py.truthy (TWOCHECKOUT_SECRET_WORD st))); discriminate.
Qed.

Lemma webhook_unresolved (st : Settings) (now : Z) (req : Request) (db : DB) :
  req_method req = "POST" ->
  DEBUG st = true
  \/ _verify_tco_signature st (POST req) (TWOCHECKOUT_SECRET_WORD st) = true ->
  webhook_resolve db (POST req) = Ok None ->
  two_co_webhook st now req db = (db, [], HttpResponse 200).
Proof.
  intros Hm Hacc Hr. unfold two_co_webhook, require_POST, webhook_view.
  rewrite Hm, Hr. simpl.
  unfold _verify_tco_signature.
  rewrite (webhook_debug_of_accepted st (POST req) Hacc). reflexivity.
Qed.

Lemma webhook_resolve_malformed (db : DB) (payload : list (string * string))
  (mid : string) :
  payload_merchant_order_id payload = Some mid ->
  Uuid.canonical mid = None ->
  webhook_resolve db payload = Raise (ValidationError mid).
Proof.
  intros Hid Hu. unfold webhook_resolve, get_order_by_id.
  rewrite Hid, Hu. reflexivity.
Qed.

(** The key of an order is found in any spelling [uuid.UUID] reads: in
    upper case without hyphens, in braces, as a URN. *)
Lemma webhook_resolve_respelled_key :
  Forall (fun text =>
            webhook_resolve Scenario.db_started [("merchant_order_id", text)]
            = Ok (Some (Scenario.order1 "pending")))
         ["7d9f3c1e-5a2b-4c8d-9e1f-0a1b2c3d4e5f";
          "7D9F3C1E5A2B4C8D9E1F0A1B2C3D4E5F";
          "{7d9f3c1e-5a2b-4c8d-9e1f-0a1b2c3d4e5f}";
          "urn:uuid:7D9F3C1E-5A2B-4C8D-9E1F-0A1B2C3D4E5F"].
Proof. repeat constructor. Qed.

(** C6: an accepted POST (debug mode, or a verified signature) whose
    merchant order id is not the text of a uuid is not answered at all:
    the lookup by key raises [ValidationError], which the view does not
    catch, whatever the order code of the payload is and although
    nothing was resolved; nothing is written.  Where the lookup returns
    and finds no order the answer is 200 and nothing changes; and the
    answer to a POST is 400 exactly when the signature is not verified
    and debug mode is off, in which case nothing changes either. *)
Theorem webhook_malformed_order_id_is_not_acknowledged
  (st : Settings) (now : Z) (req : Request) (db : DB) :
  req_method req = "POST" ->
  (DEBUG st = true
   \/ _verify_tco_signature st (POST req) (TWOCHECKOUT_SECRET_WORD st) = true ->
   forall mid,
     payload_merchant_order_id (POST req) = Some mid ->
     Uuid.canonical mid = None ->
     two_co_webhook st now req db = (db, [], Uncaught (ValidationError mid)))
  /\ (DEBUG st = true
      \/ _verify_tco_signature st (POST req) (TWOCHECKOUT_SECRET_WORD st) = true ->
      webhook_resolve db (POST req) = Ok None ->
      two_co_webhook st now req db = (db, [], HttpResponse 200))
  /\ (out_response (two_co_webhook st now req db) = HttpResponse 400
      <-> _verify_tco_signature st (POST req) (TWOCHECKOUT_SECRET_WORD st) = false
          /\ DEBUG st = false)
  /\ (out_response (two_co_webhook st now req db) = HttpResponse 400 ->
      out_db (two_co_webhook st now req db) = db).
Proof.
  intros Hm. split; [|split; [|split]].
  - intros Hacc mid Hid Hu.
    unfold two_co_webhook, require_POST, webhook_view.
    rewrite Hm, (webhook_resolve_malformed db (POST req) mid Hid Hu). simpl.
    unfold _verify_tco_signature.
    rewrite (webhook_debug_of_accepted st (POST req) Hacc). reflexivity.
  - intros Hacc Hr. apply webhook_unresolved; assumption.
  - unfold two_co_webhook, require_POST, webhook_view. rewrite Hm. simpl.
    unfold _verify_tco_signature.
    destruct (DEBUG st); simpl.
    + destruct (webhook_resolve db (POST req)) as [[o|]|e]; simpl;
        split; try discriminate; intros [H _]; discriminate.
    + destruct (negb (Py.truthy (TWOCHECKOUT_SECRET_WORD st))); simpl;
        split; auto.
  - unfold two_co_webhook, require_POST, webhook_view. rewrite Hm. simpl.
    destruct (negb (_verify_tco_signature st (POST req) (TWOCHECKOUT_SECRET_WORD st))
              && negb (DEBUG st))%bool; simpl; [reflexivity|].
    destruct (webhook_resolve db (POST req)) as [[o|]|e]; simpl; discriminate.
Qed.

(** In debug mode a COMPLETE notification that names an order no one has,
    by an order code in the place of the key, raises and is not
    answered; named by a uuid that no order has, it is acknowledged with
    200 and leaves the started checkout as it was; with debug off both
    get 400.  The lookup by order code is not reached either when the
    code is that of a stored order. *)
Lemma webhook_malformed_order_id_is_not_acknowledged_witness :
  two_co_webhook Scenario.st0 200 (Scenario.post_webhook_by_code "GV-FFFFFFFF")
                 Scenario.db_started
    = (Scenario.db_started, [], Uncaught (ValidationError "GV-FFFFFFFF"))
  /\ find_order_by_code Scenario.db_started "GV-FFFFFFFF" = None
  /\ two_co_webhook Scenario.st0 200 (Scenario.post_webhook_by_code "GV-1A2B3C4D")
                    Scenario.db_started
     = (Scenario.db_started, [], Uncaught (ValidationError "GV-1A2B3C4D"))
  /\ find_order_by_code Scenario.db_started "GV-1A2B3C4D"
     = Some (Scenario.order1 "pending")
  /\ two_co_webhook Scenario.st0 200 Scenario.post_webhook_unknown
                    Scenario.db_started
     = (Scenario.db_started, [], HttpResponse 200)
  /\ out_response (two_co_webhook Scenario.st_live 200
                     (Scenario.post_webhook_by_code "GV-FFFFFFFF")
                     Scenario.db_started) = HttpResponse 400.
Proof.
  split; [|split; [reflexivity|split; [|split; [reflexivity|split]]]].
  - apply (proj1 (webhook_malformed_order_id_is_not_acknowledged
                    Scenario.st0 200 (Scenario.post_webhook_by_code "GV-FFFFFFFF")
                    Scenario.db_started eq_refl)).
    + left. reflexivity.
    + reflexivity.
    + reflexivity.
  - apply (proj1 (webhook_malformed_order_id_is_not_acknowledged
                    Scenario.st0 200 (Scenario.post_webhook_by_code "GV-1A2B3C4D")
                    Scenario.db_started eq_refl)).
    + left. reflexivity.
    + reflexivity.
    + reflexivity.
  - apply (proj1 (proj2 (webhook_malformed_order_id_is_not_acknowledged
                    Scenario.st0 200 Scenario.post_webhook_unknown
                    Scenario.db_started eq_refl))).
    + left. reflexivity.
    + reflexivity.
  - apply (proj1 (proj2 (proj2 (webhook_malformed_order_id_is_not_acknowledged
                    Scenario.st_live 200
                    (Scenario.post_webhook_by_code "GV-FFFFFFFF")
                    Scenario.db_started eq_refl)))).
    split; reflexivity.
Defined.

Lemma webhook_apply_orders (now : Z) (payload : list (string * string))
  (text : string) (order : Order) (db : DB) :
  exists h : Order -> Order,
    (forall o, order_pk (h o) = order_pk o)
    /\ (forall o, order_status (h o) = webhook_status text)
    /\ orders (webhook_apply now payload text order db)
       = map (fun o => if String.eqb (order_pk o) (order_pk order) then h o else o)
             (orders db).
Proof.
  eexists. split; [|split]; cycle 2.
  - unfold webhook_apply.
    destruct (latest_payment _ (order_pk order)) as [pay|];
      [destruct (in_strs (method pay) ["stripe"; "sslcommerz"; "coin"])|];
      unfold update_payment, update_order; simpl;
      (destruct (String.eqb (webhook_status text) "paid");
       [destruct (clear_owner_cart_tables db order) as [-> _]|]; reflexivity).
  - intros o. reflexivity.
  - intros o. reflexivity.
Qed.

(** An accepted POST that resolves to an order stores, as the status of
    that order, the value [webhook_status] picks for the lower-cased
    status text of the provider. *)
Lemma webhook_writes_mapped_status (st : Settings) (now : Z) (req : Request)
  (db : DB) (order : Order) :
  req_method req = "POST" ->
  DEBUG st = true ->
  webhook_resolve db (POST req) = Ok (Some order) ->
  find_order_by_pk db (order_pk order) = Some order ->
  exists order',
    find_order_by_pk (out_db (two_co_webhook st now req db)) (order_pk order)
      = Some order'
    /\ order_status order'
       = webhook_status
           (Py.lower
              (match Py.get_or (Py.dict_get (POST req) "ORDERSTATUS")
                       (Py.get_or (Py.dict_get (POST req) "status") None) with
               | Some s => s
               | None => ""
               end))
    /\ out_response (two_co_webhook st now req db) = HttpResponse 200.
Proof.
  intros Hm Hd Hr Hf. unfold two_co_webhook, require_POST, webhook_view.
  rewrite Hm, Hr. simpl. unfold _verify_tco_signature. rewrite Hd. simpl.
  unfold out_db, out_response. simpl.
  match goal with
  | |- context [webhook_apply now ?pl ?tx order db] =>
      destruct (webhook_apply_orders now pl tx order db) as (h & Hk & Hs & Ho)
  end.
  exists (h order). split; [|split; [apply Hs|reflexivity]].
  unfold find_order_by_pk in *. rewrite Ho.
  rewrite find_map_keyed.
  - rewrite Hf. simpl. rewrite String.eqb_refl. reflexivity.
  - intros o. destruct (String.eqb (order_pk o) (order_pk order)) eqn:E;
      [rewrite Hk|]; exact E.
Qed.

Lemma webhook_status_values (text : string) :
  webhook_status text = "paid" \/ webhook_status text = "failed"
  \/ webhook_status text = "canceled" \/ webhook_status text = "pending".
Proof.
  unfold webhook_status.
  destruct (_ || _ || _ || _)%bool; [auto|].
  destruct (_ || _ || _)%bool; [auto|].
  destruct (_ || _)%bool; auto.
Qed.

(** C1: the value the webhook writes for a status text is never
    [cancelled]: the branch for the cancelled variants writes [canceled],
    which is not among the values of [Order.STATUS].  A CANCELLED
    notification for the pending order of the started checkout leaves it
    with status [canceled], where [checkout_cancel] on the same order
    leaves [cancelled]; the other three branches write the values the
    specification names. *)
Theorem webhook_cancelled_variant_stores_canceled :
  (forall text, webhook_status text <> "cancelled")
  /\ webhook_status (Py.lower "CANCELLED") = "canceled"
  /\ in_strs "canceled" Order_STATUS = false
  /\ option_map order_status
       (find_order_by_pk
          (out_db (two_co_webhook Scenario.st0 200
                     (Scenario.post_webhook "CANCELLED") Scenario.db_started))
          Scenario.oid) = Some "canceled"
  /\ option_map order_status
       (find_order_by_pk
          (out_db (checkout_cancel Scenario.get_oc Scenario.db_started)) Scenario.oid)
     = Some "cancelled"
  /\ webhook_status (Py.lower "APPROVED") = "paid"
  /\ webhook_status (Py.lower "DECLINED") = "failed"
  /\ webhook_status (Py.lower "IN_REVIEW") = "pending".
Proof.
  split.
  - intros text H.
    destruct (webhook_status_values text) as [E|[E|[E|E]]];
      rewrite E in H; discriminate.
  - repeat split; reflexivity.
Qed.

(** ** Order creation and Gateway B *)

Lemma existsb_false_find {A : Type} (f : A -> bool) (l : list A) :
  existsb f l = false -> forall x, In x l -> f x = false.
Proof.
  intros H x Hin. destruct (f x) eqn:E; [|reflexivity].
  rewrite <- H. symmetry. apply existsb_exists. exists x. split; assumption.
Qed.

(** A successful [_create_order_from_cart] appends one pending order,
    under a key and a code no stored order has, and writes no payment. *)
Lemma create_order_ok (env : Env) (user : User) (db db1 : DB) (order : Order) :
  _create_order_from_cart env user db = (db1, Ok order) ->
  orders db1 = (orders db ++ [order])%list
  /\ payments db1 = payments db
  /\ order_status order = "pending"
  /\ total order = subtotal order
  /\ (forall o, In o (orders db) ->
        order_pk o <> order_pk order /\ order_code o <> order_code order).
Proof.
  unfold _create_order_from_cart, bind. rewrite build_cart_snapshot_eq.
  destruct (get_user_cart_tables user db) as (Ho & Hp & _).
  destruct (snap_finish (snap_loop (cart_rows user db))) as [[[items sub] cur]|e];
    [|discriminate].
  unfold Order_create.
  destruct (existsb _ (orders (fst (_get_user_cart user db)))) eqn:Ex;
    [discriminate|].
  unfold OrderItem_bulk_create, modify, ret. simpl. intros H.
  inversion H; subst; clear H. simpl. rewrite Ho, Hp.
  repeat split; try reflexivity.
  - rewrite Ho in Ex. pose proof (existsb_false_find _ _ Ex o H) as Hf.
    simpl in Hf. apply orb_false_iff in Hf. destruct Hf as [Hf _].
    intros E. rewrite E, String.eqb_refl in Hf. discriminate.
  - rewrite Ho in Ex. pose proof (existsb_false_find _ _ Ex o H) as Hf.
    simpl in Hf. apply orb_false_iff in Hf. destruct Hf as [_ Hf].
    intros E. rewrite E, String.eqb_refl in Hf. discriminate.
Qed.

Lemma find_order_by_pk_fresh (l : list Order) (order : Order) :
  (forall o, In o l -> order_pk o <> order_pk order) ->
  find (fun o => String.eqb (order_pk o) (order_pk order)) (l ++ [order])%list
  = Some order.
Proof.
  induction l as [|x l IH]; intros H; simpl.
  - rewrite String.eqb_refl. reflexivity.
  - destruct (String.eqb_spec (order_pk x) (order_pk order)) as [E|E].
    + exfalso. apply (H x); [left; reflexivity|exact E].
    + apply IH. intros o Ho. apply H. right. exact Ho.
Qed.

(** C5: a Gateway B checkout whose order is created and whose total
    converts, at the configured rate, to less than 10.00 BDT is sent back
    to the checkout page with an error message; no payment is written and
    the order just created is stored with status cancelled. *)
Theorem sslcommerz_below_minimum_cancels_order
  (st : Settings) (env : Env) (req : Request) (user : User) (db db1 : DB)
  (order : Order) (amount_bdt fx_rate : Decimal) :
  req_user req = Some user ->
  requests_installed st = true ->
  SSLC_STORE_ID st <> "" ->
  SSLC_STORE_PASS st <> "" ->
  _create_order_from_cart env user db = (db1, Ok order) ->
  _to_bdt st (total order) (Py.str_or (order_currency order) "BDT")
    = Ok (amount_bdt, fx_rate) ->
  Dec.ltb amount_bdt Dec.ten2 = true ->
  out_response (pay_with_sslcommerz st env req db) = Redirect "checkout"
  /\ out_messages (pay_with_sslcommerz st env req db)
     = [(lvl_error, [PStr "Amount too small for SSLCommerz: "; PDec amount_bdt;
                     PStr " BDT (min 10.00)."])]
  /\ payments (out_db (pay_with_sslcommerz st env req db)) = payments db
  /\ find_order_by_pk db (order_pk order) = None
  /\ order_status order = "pending"
  /\ find_order_by_pk (out_db (pay_with_sslcommerz st env req db)) (order_pk order)
     = Some (with_status order "cancelled")
  /\ order_status (with_status order "cancelled") = "cancelled".
Proof.
  intros Hu Hreq Hid Hpass Hc Hbdt Hlt.
  destruct (create_order_ok env user db db1 order Hc)
    as (Ho & Hp & Hs & _ & Hfresh).
  unfold pay_with_sslcommerz, login_required, sslcommerz_view.
  rewrite Hu, Hreq. simpl.
  destruct (String.eqb_spec (SSLC_STORE_ID st) "") as [E|_]; [contradiction|].
  destruct (String.eqb_spec (SSLC_STORE_PASS st) "") as [E|_]; [contradiction|].
  simpl. rewrite Hc, Hbdt, Hlt. unfold out_response, out_messages, out_db.
  simpl. repeat split.
  - exact Hp.
  - apply find_none_all. intros o Hin.
    destruct (String.eqb_spec (order_pk o) (order_pk order)) as [E|_];
      [|reflexivity].
    destruct (Hfresh o Hin) as [Hne _]. contradiction.
  - exact Hs.
  - unfold save_order_status. rewrite find_order_by_pk_update by reflexivity.
    unfold find_order_by_pk. rewrite Ho.
    rewrite find_order_by_pk_fresh by (intros o Hin; apply (Hfresh o Hin)).
    simpl. rewrite String.eqb_refl. reflexivity.
Qed.

(** A cart worth 0.05 USD converts at 125.00 to 6.25 BDT: the checkout is
    refused, the order o-1 just created is cancelled, no payment exists. *)
Lemma sslcommerz_below_minimum_cancels_order_witness :
  out_response (pay_with_sslcommerz Scenario.st0 Scenario.env0
                  Scenario.post_checkout Scenario.db_small)
    = Redirect "checkout"
  /\ payments (out_db (pay_with_sslcommerz Scenario.st0 Scenario.env0
                         Scenario.post_checkout Scenario.db_small)) = []
  /\ option_map order_status
       (find_order_by_pk
          (out_db (pay_with_sslcommerz Scenario.st0 Scenario.env0
                     Scenario.post_checkout Scenario.db_small)) Scenario.oid)
     = Some "cancelled".
Proof.
  destruct (sslcommerz_below_minimum_cancels_order
              Scenario.st0 Scenario.env0 Scenario.post_checkout Scenario.alice
              Scenario.db_small
              (fst (_create_order_from_cart Scenario.env0 Scenario.alice
                      Scenario.db_small))
              (mkOrder Scenario.oid "GV-1A2B3C4D" (Some 1%positive) "alice@example.com"
                       "USD" (Scenario.d 5) (Scenario.d 5) "pending"
                       [mkSnap Scenario.pidS "Sticker" (Scenario.d 5) 1 (Scenario.d 5) "USD"]
                       "running" "" [] 100 100)
              (Scenario.d 625) (Scenario.d 12500))
    as (Hr & _ & Hp & _ & _ & Hf & _).
  - reflexivity.
  - reflexivity.
  - vm_compute. discriminate.
  - vm_compute. discriminate.
  - reflexivity.
  - reflexivity.
  - reflexivity.
  - split; [exact Hr|]. split; [exact Hp|].
    simpl in Hf. rewrite Hf. reflexivity.
Defined.

(** ** The customer's upload *)


Section UploadFacts.

Variable guess_type : string -> option string.
Variables (req : Request) (item_id : Z) (user : User) (db : DB).
Variables (item : OrderItem) (order : Order).

Hypothesis by_owner : req_user req = Some user.
Hypothesis is_post : req_method req = "POST".
Hypothesis item_found : find_item db item_id = Some item.
Hypothesis order_found : find_order_by_pk db (item_order item) = Some order.
Hypothesis owns : order_user order = Some (user_id user).




(** A file larger than 50 MB is refused. *)
Lemma upload_too_large (env : Env) (f : File) :
  order_status order = "paid" ->
  file_truthy (user_file item) = false ->
  picked_file req = Some f ->
  file_name f <> "" ->
  MAX_UPLOAD < file_size f ->
  user_item_upload_file guess_type env req item_id db
  = (db, [say lvl_error "File too large (max 50MB)."],
     Redirect ("my_order_detail/" ++ order_pk order)%string).
Proof.
  intros Hs He Hp Hn Hz. unfold user_item_upload_file, login_required,
    require_POST, upload_view.
  rewrite by_owner, is_post. simpl. rewrite item_found, order_found, owns.
  rewrite Pos.eqb_refl, Hs, He, Hp. simpl.
  destruct (String.eqb_spec (file_name f) "") as [E|_]; [contradiction|].
  simpl. destruct (Z.ltb_spec MAX_UPLOAD (file_size f)) as [_|H]; [|lia].
  reflexivity.
Qed.

End UploadFacts.




(* ------------------------------------------------------------------ *)
(** * Further properties of the cart, checkout and fulfillment code *)

(** ** Rows found and saved by key *)

Lemma find_app_none {A : Type} (f : A -> bool) (l : list A) (x : A) :
  find f l = None -> f x = true -> find f (l ++ [x])%list = Some x.
Proof.
  induction l as [|y l IH]; simpl; intros Hn Hx.
  - rewrite Hx. reflexivity.
  - destruct (f y); [discriminate|]. apply IH; assumption.
Qed.

Lemma filter_find_none {A : Type} (f : A -> bool) (l : list A) :
  find f l = None -> filter f l = [].
Proof.
  induction l as [|y l IH]; simpl; intros Hn; [reflexivity|].
  destruct (f y); [discriminate|]. apply IH, Hn.
Qed.

Lemma find_update_first {A : Type} (f : A -> bool) (g : A -> A) (l : list A) :
  (forall x, f (g x) = f x) ->
  find f (update_first f g l) = option_map g (find f l).
Proof.
  intros Hf. induction l as [|y l IH]; simpl; [reflexivity|].
  destruct (f y) eqn:E; simpl.
  - rewrite Hf, E. reflexivity.
  - rewrite E. exact IH.
Qed.

Lemma update_first_fixed {A : Type} (f : A -> bool) (g : A -> A) (l : list A)
  (x : A) :
  find f l = Some x -> g x = x -> update_first f g l = l.
Proof.
  induction l as [|y l IH]; simpl; intros Hx Hg; [reflexivity|].
  destruct (f y).
  - inversion Hx; subst. rewrite Hg. reflexivity.
  - f_equal. apply IH; assumption.
Qed.

Lemma filter_update_first_others {A : Type} (f h : A -> bool) (g : A -> A)
  (l : list A) :
  (forall x, f x = true -> h x = false) ->
  (forall x, f x = true -> h (g x) = false) ->
  filter h (update_first f g l) = filter h l.
Proof.
  intros H1 H2. induction l as [|y l IH]; simpl; [reflexivity|].
  destruct (f y) eqn:E; simpl.
  - rewrite (H1 y E), (H2 y E). reflexivity.
  - rewrite IH. reflexivity.
Qed.

Lemma line_of_key (c : Z) (p : string) (it : CartItem) :
  line_of c p it = true <-> line_key it = (c, p).
Proof.
  unfold line_of, line_key. rewrite andb_true_iff, Z.eqb_eq, String.eqb_eq.
  split; [intros [-> ->]; reflexivity|intros H; inversion H; auto].
Qed.

Lemma line_of_with_quantity (c : Z) (p : string) (it : CartItem) (q : Z) :
  line_of c p (with_quantity it q) = line_of c p it.
Proof. reflexivity. Qed.

Lemma with_quantity_line (c : Z) (p : string) (it : CartItem) (q : Z) :
  line_of c p it = true -> with_quantity it q = mkCartItem c p q.
Proof.
  intros H. apply line_of_key in H. unfold line_key in H. inversion H.
  reflexivity.
Qed.

Lemma keys_update_first (f : CartItem -> bool) (q : Z) (l : list CartItem) :
  map line_key (update_first f (fun it => with_quantity it q) l)
  = map line_key l.
Proof.
  induction l as [|y l IH]; simpl; [reflexivity|].
  destruct (f y); simpl; [reflexivity|rewrite IH; reflexivity].
Qed.

Lemma filter_unique_line (c : Z) (p : string) (l : list CartItem) (x : CartItem) :
  NoDup (map line_key l) ->
  find (line_of c p) l = Some x ->
  filter (line_of c p) l = [x].
Proof.
  induction l as [|y l IH]; simpl; intros Hn Hf; [discriminate|].
  inversion Hn as [|? ? Hy Hl]; subst.
  destruct (line_of c p y) eqn:E.
  - inversion Hf; subst. f_equal. apply filter_find_none.
    apply find_none_all. intros z Hz.
    destruct (line_of c p z) eqn:Ez; [|reflexivity].
    exfalso. apply Hy. apply line_of_key in E. apply line_of_key in Ez.
    rewrite E, <- Ez. apply in_map, Hz.
  - apply IH; assumption.
Qed.

Lemma NoDup_snoc {A : Type} (l : list A) (a : A) :
  NoDup l -> ~ In a l -> NoDup (l ++ [a])%list.
Proof.
  induction l as [|y l IH]; simpl; intros Hn Ha.
  - constructor; [intros []|constructor].
  - inversion Hn as [|? ? Hy Hl]; subst. constructor.
    + intros Hin. apply in_app_or in Hin. destruct Hin as [Hin|[E|[]]].
      * contradiction.
      * apply Ha. left. symmetry. exact E.
    + apply IH; [exact Hl|]. intros Hin. apply Ha. right. exact Hin.
Qed.

(** ** What [put_line] and [delete_line] leave in the cart table *)

Lemma put_line_line (db : DB) (c : Z) (p : string) (q : Z) :
  cart_lines_unique db ->
  filter (line_of c p) (cart_items (put_line db c p q)) = [mkCartItem c p q].
Proof.
  intros Hu. unfold put_line.
  destruct (find (line_of c p) (cart_items db)) as [x|] eqn:E; simpl.
  - rewrite (filter_unique_line c p _ (with_quantity x q)).
    + rewrite (with_quantity_line c p x q); [reflexivity|].
      apply find_some in E. apply E.
    + rewrite keys_update_first. exact Hu.
    + rewrite find_update_first by (intros; apply line_of_with_quantity).
      rewrite E. reflexivity.
  - rewrite filter_app, (filter_find_none _ _ E). simpl.
    unfold line_of. simpl. rewrite Z.eqb_refl, String.eqb_refl. reflexivity.
Qed.

Lemma put_line_others (db : DB) (c : Z) (p : string) (q : Z) :
  filter (fun it => negb (line_of c p it)) (cart_items (put_line db c p q))
  = filter (fun it => negb (line_of c p it)) (cart_items db).
Proof.
  unfold put_line.
  destruct (find (line_of c p) (cart_items db)) as [x|] eqn:E; simpl.
  - apply filter_update_first_others.
    + intros y Hy. rewrite Hy. reflexivity.
    + intros y Hy. rewrite line_of_with_quantity, Hy. reflexivity.
  - rewrite filter_app. simpl. unfold line_of at 2. simpl.
    rewrite Z.eqb_refl, String.eqb_refl. simpl. apply app_nil_r.
Qed.

Lemma put_line_unique (db : DB) (c : Z) (p : string) (q : Z) :
  cart_lines_unique db -> cart_lines_unique (put_line db c p q).
Proof.
  unfold cart_lines_unique, put_line. intros Hu.
  destruct (find (line_of c p) (cart_items db)) as [x|] eqn:E; simpl.
  - rewrite keys_update_first. exact Hu.
  - rewrite map_app. simpl. apply NoDup_snoc; [exact Hu|].
    intros Hin. apply in_map_iff in Hin. destruct Hin as [z [Hk Hz]].
    pose proof (find_none _ _ E z Hz) as Hf.
    change (line_key z = (c, p)) in Hk.
    apply line_of_key in Hk. rewrite Hk in Hf. discriminate.
Qed.

Lemma delete_line_gone (db : DB) (c : Z) (p : string) :
  filter (line_of c p) (cart_items (delete_line db c p)) = [].
Proof.
  unfold delete_line. simpl.
  induction (cart_items db) as [|y l IH]; simpl; [reflexivity|].
  destruct (line_of c p y) eqn:E; simpl; [exact IH|].
  rewrite E. exact IH.
Qed.

Lemma delete_line_others (db : DB) (c : Z) (p : string) :
  filter (fun it => negb (line_of c p it)) (cart_items (delete_line db c p))
  = filter (fun it => negb (line_of c p it)) (cart_items db).
Proof.
  unfold delete_line. simpl.
  induction (cart_items db) as [|y l IH]; simpl; [reflexivity|].
  destruct (line_of c p y) eqn:E; simpl; [exact IH|].
  rewrite E. simpl. rewrite IH. reflexivity.
Qed.

Lemma NoDup_map_filter {A B : Type} (k : A -> B) (f : A -> bool) (l : list A) :
  NoDup (map k l) -> NoDup (map k (filter f l)).
Proof.
  induction l as [|y l IH]; simpl; intros Hn; [constructor|].
  inversion Hn as [|? ? Hy Hl]; subst.
  destruct (f y); simpl; [|apply IH, Hl].
  constructor; [|apply IH, Hl].
  intros Hin. apply Hy. apply in_map_iff in Hin.
  destruct Hin as [z [Hk Hz]]. apply filter_In in Hz.
  rewrite <- Hk. apply in_map, Hz.
Qed.

Lemma delete_line_unique (db : DB) (c : Z) (p : string) :
  cart_lines_unique db -> cart_lines_unique (delete_line db c p).
Proof. unfold cart_lines_unique, delete_line. simpl. apply NoDup_map_filter. Qed.

(** [_get_user_cart] returns the cart the user has afterwards and leaves
    the cart lines alone. *)
Lemma get_user_cart_found (user : User) (db : DB) :
  exists cart,
    _get_user_cart user db = (fst (_get_user_cart user db), Ok cart)
    /\ find_cart (fst (_get_user_cart user db)) (user_id user) = Some cart
    /\ cart_user cart = user_id user
    /\ In cart (carts (fst (_get_user_cart user db))).
Proof.
  unfold _get_user_cart.
  destruct (find_cart db (user_id user)) as [c|] eqn:E; simpl.
  - exists c. repeat split; try assumption.
    + apply find_some in E. destruct E as [_ E]. apply Pos.eqb_eq, E.
    + apply find_some in E. apply E.
  - eexists. repeat split.
    + unfold find_cart in *. simpl. apply find_app_none; [exact E|].
      simpl. apply Pos.eqb_refl.
    + apply in_or_app. right. left. reflexivity.
Qed.

Lemma put_line_tables (db : DB) (c : Z) (p : string) (q : Z) :
  carts (put_line db c p q) = carts db
  /\ products (put_line db c p q) = products db
  /\ orders (put_line db c p q) = orders db
  /\ order_items (put_line db c p q) = order_items db
  /\ payments (put_line db c p q) = payments db.
Proof.
  unfold put_line. destruct (find (line_of c p) (cart_items db));
    repeat split.
Qed.

Lemma set_cart_items_same (db : DB) : set_cart_items db (cart_items db) = db.
Proof. destruct db; reflexivity. Qed.

Lemma put_line_twice (db : DB) (c : Z) (p : string) (q : Z) :
  put_line (put_line db c p q) c p q = put_line db c p q.
Proof.
  assert (Hf : exists x, find (line_of c p) (cart_items (put_line db c p q)) = Some x
                         /\ with_quantity x q = x).
  { unfold put_line.
    destruct (find (line_of c p) (cart_items db)) as [x|] eqn:E; simpl.
    - exists (with_quantity x q). split; [|reflexivity].
      rewrite find_update_first by (intros; apply line_of_with_quantity).
      rewrite E. reflexivity.
    - exists (mkCartItem c p q). split; [|reflexivity].
      apply find_app_none; [exact E|]. unfold line_of. simpl.
      rewrite Z.eqb_refl, String.eqb_refl. reflexivity. }
  destruct Hf as (x & Hx & Hg).
  unfold put_line at 1. rewrite Hx.
  rewrite (update_first_fixed _ _ _ x Hx Hg). apply set_cart_items_same.
Qed.

Lemma filter_twice {A : Type} (f : A -> bool) (l : list A) :
  filter f (filter f l) = filter f l.
Proof.
  induction l as [|y l IH]; simpl; [reflexivity|].
  destruct (f y) eqn:E; simpl; [rewrite E, IH; reflexivity|exact IH].
Qed.

Lemma delete_line_twice (db : DB) (c : Z) (p : string) :
  delete_line (delete_line db c p) c p = delete_line db c p.
Proof.
  unfold delete_line, set_cart_items. simpl. rewrite filter_twice.
  reflexivity.
Qed.

Lemma tracked_stock_clamp (s q : Z) :
  (if negb (s =? 0) && (0 <? s) then Z.min q s else q)
  = (if 0 <? s then Z.min q s else q).
Proof. rewrite tracked_stock_test. reflexivity. Qed.

Lemma added_qty_bounds (old : option Z) (product : Product) (qty : Z) :
  1 <= added_qty old product qty <= CART_MAX_PER_ITEM
  /\ (0 < stock product -> added_qty old product qty <= stock product).
Proof.
  unfold added_qty, CART_MAX_PER_ITEM. rewrite tracked_stock_clamp.
  destruct (Z.ltb_spec 0 (stock product)); split; lia.
Qed.

Lemma set_qty_bounds (product : Product) (qty : Z) :
  0 < qty ->
  1 <= set_qty product qty <= CART_MAX_PER_ITEM
  /\ (0 < stock product -> set_qty product qty <= stock product).
Proof.
  unfold set_qty, CART_MAX_PER_ITEM. rewrite tracked_stock_clamp.
  destruct (Z.ltb_spec 0 (stock product)); split; lia.
Qed.

Lemma add_to_db_cart_eq (user : User) (product : Product) (qty : Z) (db : DB) :
  exists cart,
    find_cart (fst (_get_user_cart user db)) (user_id user) = Some cart
    /\ fst (_add_to_db_cart user product qty db)
       = put_line (fst (_get_user_cart user db)) (cart_pk cart)
           (product_pk product)
           (added_qty
              (option_map quantity
                 (find (line_of (cart_pk cart) (product_pk product))
                       (cart_items db)))
              product qty).
Proof.
  destruct (get_user_cart_found user db) as (cart & Hg & Hf & _).
  destruct (get_user_cart_tables user db) as (_ & _ & _ & Hci & _).
  exists cart. split; [exact Hf|].
  unfold _add_to_db_cart, bind, modify. rewrite Hg. simpl. rewrite Hci.
  reflexivity.
Qed.

(** X1.  Adding to the cart, whatever quantity is asked for and whatever
    the line held before, leaves exactly one line for the product in the
    user's cart, with a quantity between 1 and 10000 that does not exceed
    a positive stock; every other line is as it was and the table keeps
    one line per cart and product. *)
Theorem add_to_db_cart_keeps_one_bounded_line
  (user : User) (product : Product) (qty : Z) (db : DB) :
  cart_lines_unique db ->
  exists cart q,
    find_cart (fst (_add_to_db_cart user product qty db)) (user_id user)
      = Some cart
    /\ filter (line_of (cart_pk cart) (product_pk product))
              (cart_items (fst (_add_to_db_cart user product qty db)))
       = [mkCartItem (cart_pk cart) (product_pk product) q]
    /\ 1 <= q <= CART_MAX_PER_ITEM
    /\ (0 < stock product -> q <= stock product)
    /\ filter (fun it => negb (line_of (cart_pk cart) (product_pk product) it))
              (cart_items (fst (_add_to_db_cart user product qty db)))
       = filter (fun it => negb (line_of (cart_pk cart) (product_pk product) it))
                (cart_items db)
    /\ cart_lines_unique (fst (_add_to_db_cart user product qty db)).
Proof.
  intros Hu.
  destruct (add_to_db_cart_eq user product qty db) as (cart & Hf & ->).
  destruct (get_user_cart_tables user db) as (_ & _ & _ & Hci & _).
  assert (Hu1 : cart_lines_unique (fst (_get_user_cart user db))).
  { unfold cart_lines_unique. rewrite Hci. exact Hu. }
  set (q := added_qty _ product qty).
  destruct (added_qty_bounds
              (option_map quantity
                 (find (line_of (cart_pk cart) (product_pk product))
                       (cart_items db))) product qty) as [Hb Hs].
  exists cart, q. split; [|split; [|split; [|split; [|split]]]].
  - unfold find_cart in *.
    destruct (put_line_tables (fst (_get_user_cart user db)) (cart_pk cart)
                (product_pk product) q) as [-> _]. exact Hf.
  - apply put_line_line, Hu1.
  - exact Hb.
  - exact Hs.
  - rewrite put_line_others, Hci. reflexivity.
  - apply put_line_unique, Hu1.
Qed.

(** Adding 99 units of Product A (stock 5) to a cart that holds 3 leaves
    one line of 5. *)
Lemma add_to_db_cart_keeps_one_bounded_line_witness :
  exists cart q,
    find_cart (fst (_add_to_db_cart Scenario.alice Scenario.productA 99
                      Scenario.db_cart)) 1%positive = Some cart
    /\ filter (line_of (cart_pk cart) Scenario.pidA)
              (cart_items (fst (_add_to_db_cart Scenario.alice Scenario.productA 99
                                  Scenario.db_cart)))
       = [mkCartItem (cart_pk cart) Scenario.pidA q]
    /\ 1 <= q <= CART_MAX_PER_ITEM
    /\ (0 < 5 -> q <= 5)
    /\ filter (fun it => negb (line_of (cart_pk cart) Scenario.pidA it))
              (cart_items (fst (_add_to_db_cart Scenario.alice Scenario.productA 99
                                  Scenario.db_cart)))
       = filter (fun it => negb (line_of (cart_pk cart) Scenario.pidA it))
                (cart_items Scenario.db_cart)
    /\ cart_lines_unique (fst (_add_to_db_cart Scenario.alice Scenario.productA 99
                                 Scenario.db_cart)).
Proof.
  apply (add_to_db_cart_keeps_one_bounded_line
           Scenario.alice Scenario.productA 99 Scenario.db_cart).
  unfold cart_lines_unique. simpl. constructor; [intros []|constructor].
Defined.

Lemma find_product_pk (db : DB) (pid : string) (product : Product) :
  find_product db pid = Some product -> product_pk product = pid.
Proof.
  unfold find_product. intros H. apply find_some in H.
  apply String.eqb_eq, H.
Qed.

Lemma set_db_cart_qty_eq (user : User) (pid : string) (qty : Z) (db : DB) :
  exists cart,
    find_cart (fst (_get_user_cart user db)) (user_id user) = Some cart
    /\ fst (_set_db_cart_qty user pid qty db)
       = match find_product db pid with
         | None => delete_line (fst (_get_user_cart user db)) (cart_pk cart) pid
         | Some product =>
             if qty <=? 0
             then delete_line (fst (_get_user_cart user db)) (cart_pk cart) pid
             else put_line (fst (_get_user_cart user db)) (cart_pk cart) pid
                           (set_qty product qty)
         end.
Proof.
  destruct (get_user_cart_found user db) as (cart & Hg & Hf & _).
  destruct (get_user_cart_tables user db) as (_ & _ & _ & _ & Hp).
  exists cart. split; [exact Hf|].
  unfold _set_db_cart_qty, bind, modify. rewrite Hg. simpl.
  unfold find_product in *. rewrite Hp.
  destruct (find (fun p => String.eqb (product_pk p) pid) (products db))
    as [product|] eqn:E; [|reflexivity].
  rewrite (find_product_pk db pid product E). reflexivity.
Qed.

(** X2.  Setting a quantity removes the line when the quantity is not
    positive or the product is unknown; otherwise it leaves exactly one
    line for the product, holding the asked quantity capped by a positive
    stock and by 10000, hence between 1 and 10000.  Other lines are as
    they were and the table keeps one line per cart and product. *)
Theorem set_db_cart_qty_sets_or_removes
  (user : User) (pid : string) (qty : Z) (db : DB) :
  cart_lines_unique db ->
  exists cart,
    find_cart (fst (_set_db_cart_qty user pid qty db)) (user_id user) = Some cart
    /\ match find_product db pid with
       | Some product =>
           if 0 <? qty then
             filter (line_of (cart_pk cart) pid)
                    (cart_items (fst (_set_db_cart_qty user pid qty db)))
             = [mkCartItem (cart_pk cart) pid
                  (Z.min (if 0 <? stock product then Z.min qty (stock product)
                          else qty) 10000)]
             /\ 1 <= Z.min (if 0 <? stock product then Z.min qty (stock product)
                            else qty) 10000 <= 10000
           else
             filter (line_of (cart_pk cart) pid)
                    (cart_items (fst (_set_db_cart_qty user pid qty db))) = []
       | None =>
           filter (line_of (cart_pk cart) pid)
                  (cart_items (fst (_set_db_cart_qty user pid qty db))) = []
       end
    /\ filter (fun it => negb (line_of (cart_pk cart) pid it))
              (cart_items (fst (_set_db_cart_qty user pid qty db)))
       = filter (fun it => negb (line_of (cart_pk cart) pid it)) (cart_items db)
    /\ cart_lines_unique (fst (_set_db_cart_qty user pid qty db)).
Proof.
  intros Hu.
  destruct (set_db_cart_qty_eq user pid qty db) as (cart & Hf & ->).
  destruct (get_user_cart_tables user db) as (_ & _ & _ & Hci & _).
  assert (Hu1 : cart_lines_unique (fst (_get_user_cart user db))).
  { unfold cart_lines_unique. rewrite Hci. exact Hu. }
  exists cart.
  destruct (find_product db pid) as [product|] eqn:Ep.
  - destruct (Z.leb_spec qty 0) as [Hq|Hq];
      destruct (Z.ltb_spec 0 qty) as [Hq'|Hq']; try lia.
    + split; [exact Hf|]. split; [apply delete_line_gone|].
      split; [rewrite delete_line_others, Hci; reflexivity|].
      apply delete_line_unique, Hu1.
    + split.
      { unfold find_cart in *.
        destruct (put_line_tables (fst (_get_user_cart user db)) (cart_pk cart)
                    pid (set_qty product qty)) as [-> _]. exact Hf. }
      split.
      { assert (Hs : set_qty product qty
                     = Z.min (if 0 <? stock product
                              then Z.min qty (stock product) else qty) 10000).
        { unfold set_qty, CART_MAX_PER_ITEM. rewrite tracked_stock_clamp.
          reflexivity. }
        rewrite <- Hs. split; [apply put_line_line, Hu1|].
        apply (set_qty_bounds product qty Hq'). }
      split; [rewrite put_line_others, Hci; reflexivity|].
      apply put_line_unique, Hu1.
  - split; [exact Hf|]. split; [apply delete_line_gone|].
    split; [rewrite delete_line_others, Hci; reflexivity|].
    apply delete_line_unique, Hu1.
Qed.

Lemma set_db_cart_qty_sets_or_removes_witness :
  exists cart,
    find_cart (fst (_set_db_cart_qty Scenario.alice Scenario.pidA 99
                      Scenario.db_cart)) 1%positive = Some cart
    /\ (filter (line_of (cart_pk cart) Scenario.pidA)
               (cart_items (fst (_set_db_cart_qty Scenario.alice Scenario.pidA 99
                                   Scenario.db_cart)))
        = [mkCartItem (cart_pk cart) Scenario.pidA 5]
        /\ 1 <= 5 <= 10000)
    /\ filter (fun it => negb (line_of (cart_pk cart) Scenario.pidA it))
              (cart_items (fst (_set_db_cart_qty Scenario.alice Scenario.pidA 99
                                  Scenario.db_cart)))
       = filter (fun it => negb (line_of (cart_pk cart) Scenario.pidA it))
                (cart_items Scenario.db_cart)
    /\ cart_lines_unique (fst (_set_db_cart_qty Scenario.alice Scenario.pidA 99
                                 Scenario.db_cart)).
Proof.
  apply (set_db_cart_qty_sets_or_removes
           Scenario.alice Scenario.pidA 99 Scenario.db_cart).
  unfold cart_lines_unique. simpl. constructor; [intros []|constructor].
Defined.

Lemma get_user_cart_again (user : User) (db : DB) (cart : Cart) :
  find_cart db (user_id user) = Some cart ->
  _get_user_cart user db = (db, Ok cart).
Proof. intros H. unfold _get_user_cart. rewrite H. reflexivity. Qed.

(** X3.  Setting the same quantity twice leaves the database the first
    call left. *)
Theorem set_db_cart_qty_idempotent
  (user : User) (pid : string) (qty : Z) (db : DB) :
  fst (_set_db_cart_qty user pid qty (fst (_set_db_cart_qty user pid qty db)))
  = fst (_set_db_cart_qty user pid qty db).
Proof.
  destruct (set_db_cart_qty_eq user pid qty db) as (cart & Hf & E1).
  destruct (get_user_cart_tables user db) as (_ & _ & _ & _ & Hp).
  set (db1 := fst (_get_user_cart user db)) in *.
  set (db2 := fst (_set_db_cart_qty user pid qty db)) in *.
  assert (Hc2 : find_cart db2 (user_id user) = Some cart
                /\ find_product db2 pid = find_product db pid).
  { rewrite E1. unfold find_cart, find_product in *.
    destruct (find (fun p => String.eqb (product_pk p) pid) (products db))
      eqn:Ep; [destruct (qty <=? 0)|]; simpl;
      try (destruct (put_line_tables db1 (cart_pk cart) pid
                       (set_qty p qty)) as (-> & -> & _));
      rewrite ?Hp, ?Ep; split; auto. }
  destruct Hc2 as [Hc2 Hp2].
  destruct (set_db_cart_qty_eq user pid qty db2) as (cart' & Hf' & E2).
  rewrite (get_user_cart_again user db2 cart Hc2) in Hf', E2. simpl in Hf', E2.
  rewrite Hc2 in Hf'. inversion Hf'; subst cart'. rewrite E2, Hp2, E1.
  destruct (find_product db pid) as [product|].
  - destruct (qty <=? 0); [apply delete_line_twice|apply put_line_twice].
  - apply delete_line_twice.
Qed.

(** X4.  A positive quantity set for an active product reaches the order
    snapshot as stored: the snapshot built from the cart right after
    holds a line for the product whose quantity is the stored one, with
    no further clamping. *)
Theorem set_quantity_reaches_snapshot
  (user : User) (pid : string) (qty : Z) (db : DB) (product : Product) :
  cart_lines_unique db ->
  find_product db pid = Some product ->
  is_active product = true ->
  0 < qty ->
  exists line,
    In line (acc_items (snap_loop
               (cart_rows user (fst (_set_db_cart_qty user pid qty db)))))
    /\ snap_product_id line = pid
    /\ snap_qty line
       = Z.min (if 0 <? stock product then Z.min qty (stock product) else qty)
               10000.
Proof.
  intros Hu Hp Ha Hq.
  destruct (set_db_cart_qty_eq user pid qty db) as (cart & Hf & E).
  rewrite Hp in E. destruct (Z.leb_spec qty 0) as [Hq'|_]; [lia|].
  destruct (get_user_cart_tables user db) as (_ & _ & _ & Hci & Hpr).
  set (db1 := fst (_get_user_cart user db)) in *.
  set (q := set_qty product qty) in *.
  assert (Hu1 : cart_lines_unique db1).
  { unfold cart_lines_unique. rewrite Hci. exact Hu. }
  destruct (put_line_tables db1 (cart_pk cart) pid q) as (Hc & Hpp & _).
  assert (Hin : In (mkCartItem (cart_pk cart) pid q)
                   (cart_items (put_line db1 (cart_pk cart) pid q))).
  { pose proof (put_line_line db1 (cart_pk cart) pid q Hu1) as Hl.
    assert (Hi : In (mkCartItem (cart_pk cart) pid q)
                    [mkCartItem (cart_pk cart) pid q]) by (left; reflexivity).
    rewrite <- Hl in Hi. apply filter_In in Hi. apply Hi. }
  assert (Hq2 : q = Z.min (if 0 <? stock product then Z.min qty (stock product)
                           else qty) 10000).
  { unfold q, set_qty, CART_MAX_PER_ITEM. rewrite tracked_stock_clamp.
    reflexivity. }
  destruct (set_qty_bounds product qty Hq) as [Hb Hs]. fold q in Hb, Hs.
  assert (Hclamp : clamped_qty (mkCartItem (cart_pk cart) pid q, product) = q).
  { unfold clamped_qty. simpl.
    destruct (Z.ltb_spec 0 (stock product)) as [H|H]; [|reflexivity].
    apply Z.min_l, Hs, H. }
  exists (snapshot_line (mkCartItem (cart_pk cart) pid q, product)).
  split; [|split].
  - rewrite E, snap_loop_eq. simpl. apply in_map. apply filter_In. split.
    + unfold cart_rows.
      rewrite (get_user_cart_again user (put_line db1 (cart_pk cart) pid q) cart).
      * unfold items_qs. apply in_flat_map.
        exists (mkCartItem (cart_pk cart) pid q). split; [exact Hin|].
        simpl. rewrite Z.eqb_refl. unfold find_product in *.
        rewrite Hpp, Hpr, Hp, Ha. left. reflexivity.
      * unfold find_cart in *. rewrite Hc. exact Hf.
    + unfold survives. rewrite Hclamp. apply Z.ltb_lt.
      apply Z.lt_le_trans with 1; [reflexivity|apply Hb].
  - simpl. apply (find_product_pk db pid product Hp).
  - simpl. rewrite Hclamp. exact Hq2.
Qed.

Lemma set_quantity_reaches_snapshot_witness :
  exists line,
    In line (acc_items (snap_loop
               (cart_rows Scenario.alice
                  (fst (_set_db_cart_qty Scenario.alice Scenario.pidA 99
                          Scenario.db_cart)))))
    /\ snap_product_id line = Scenario.pidA
    /\ snap_qty line = 5.
Proof.
  apply (set_quantity_reaches_snapshot
           Scenario.alice Scenario.pidA 99 Scenario.db_cart Scenario.productA).
  - unfold cart_lines_unique. simpl. constructor; [intros []|constructor].
  - reflexivity.
  - reflexivity.
  - lia.
Defined.

Lemma next_pk_above (used : list Z) (z : Z) : In z used -> z < next_pk used.
Proof.
  unfold next_pk. induction used as [|y l IH]; intros H; [contradiction|].
  change (fold_right Z.max 0 (y :: l)) with (Z.max y (fold_right Z.max 0 l)).
  destruct H as [->|H]; [lia|]. specialize (IH H). lia.
Qed.

Lemma filter_out_then_in {A : Type} (f : A -> bool) (l : list A) :
  filter f (filter (fun x => negb (f x)) l) = [].
Proof.
  induction l as [|y l IH]; simpl; [reflexivity|].
  destruct (f y) eqn:E; simpl; [exact IH|]. rewrite E. exact IH.
Qed.

(** X5.  Clearing a user's cart removes exactly the lines of that user's
    cart: a count taken right after is 0, and the lines that remain are
    the lines of the other carts, unchanged. *)
Theorem clear_user_db_cart_empties_only_that_cart (user : User) (db : DB) :
  lines_in_carts db ->
  snd (_db_cart_count user (fst (_clear_user_db_cart user db))) = Ok 0
  /\ (forall it,
        In it (cart_items (fst (_clear_user_db_cart user db)))
        <-> In it (cart_items db)
            /\ (forall cart, find_cart db (user_id user) = Some cart ->
                             ci_cart it <> cart_pk cart)).
Proof.
  intros Hfk. unfold _clear_user_db_cart.
  destruct (find_cart db (user_id user)) as [cart|] eqn:Ef; simpl.
  - split.
    + unfold _db_cart_count, bind, gets.
      rewrite (get_user_cart_again user _ cart) by exact Ef. simpl.
      rewrite (filter_out_then_in (fun it => ci_cart it =? cart_pk cart)).
      reflexivity.
    + intros it. rewrite filter_In, negb_true_iff, Z.eqb_neq. split.
      * intros [Hi Hn]. split; [exact Hi|]. intros c Hc. inversion Hc; subst.
        exact Hn.
      * intros [Hi Hn]. split; [exact Hi|]. apply Hn. reflexivity.
  - split.
    + unfold _db_cart_count, bind, gets, _get_user_cart. rewrite Ef. simpl.
      rewrite (filter_find_none _ (cart_items db)); [reflexivity|].
      apply find_none_all. intros it Hi. apply Z.eqb_neq.
      destruct (Hfk it Hi) as (c & Hc & Hk).
      pose proof (next_pk_above (map cart_pk (carts db)) (cart_pk c)
                    (in_map cart_pk _ _ Hc)) as Hlt.
      lia.
    + intros it. split; [intros Hi; split; [exact Hi|discriminate]|intros [Hi _]; exact Hi].
Qed.

Lemma clear_user_db_cart_empties_only_that_cart_witness :
  snd (_db_cart_count Scenario.alice
         (fst (_clear_user_db_cart Scenario.alice Scenario.db_mixed))) = Ok 0
  /\ snd (_db_cart_count Scenario.alice Scenario.db_mixed) = Ok 3.
Proof.
  split; [|reflexivity].
  apply (clear_user_db_cart_empties_only_that_cart Scenario.alice Scenario.db_mixed).
  intros it Hi. exists (mkCart 1 1). split; [left; reflexivity|].
  destruct Hi as [<-|[<-|[]]]; reflexivity.
Defined.

(** ** The cart page and the payment-choice page against the snapshot *)

Lemma checkout_step_snap (a : SnapAcc) (row : CartItem * Product) :
  checkout_step (mkCoAcc (map to_checkout (acc_items a)) (acc_subtotal a)
                         (acc_currencies a)) row
  = mkCoAcc (map to_checkout (acc_items (snap_step a row)))
            (acc_subtotal (snap_step a row))
            (acc_currencies (snap_step a row)).
Proof.
  destruct row as [it p]. unfold checkout_step, snap_step. simpl.
  destruct (_ <=? 0); simpl; [reflexivity|].
  rewrite map_app. reflexivity.
Qed.

Lemma checkout_fold_snap (rows : list (CartItem * Product)) (a : SnapAcc) :
  fold_left checkout_step rows
    (mkCoAcc (map to_checkout (acc_items a)) (acc_subtotal a) (acc_currencies a))
  = mkCoAcc (map to_checkout (acc_items (fold_left snap_step rows a)))
            (acc_subtotal (fold_left snap_step rows a))
            (acc_currencies (fold_left snap_step rows a)).
Proof.
  revert a. induction rows as [|row rows IH]; intros a; simpl; [reflexivity|].
  rewrite checkout_step_snap. apply IH.
Qed.

Lemma cart_rows_eq (user : User) (db : DB) (cart : Cart) :
  _get_user_cart user db = (fst (_get_user_cart user db), Ok cart) ->
  cart_rows user db = items_qs (fst (_get_user_cart user db)) cart.
Proof. intros H. unfold cart_rows. rewrite H. reflexivity. Qed.

Lemma checkout_view_unfold (req : Request) (user : User) (db : DB) :
  req_user req = Some user ->
  checkout_view req db
  = let db1 := fst (_get_user_cart user db) in
    let a := snap_loop (cart_rows user db) in
    match acc_items a with
    | [] => (db1, [say lvl_info "Your cart is empty."], Goto "cart_view")
    | _ :: _ =>
        if (1 <? List.length (acc_currencies a))%nat then
          (db1,
           [say lvl_error
              "Mixed currency cart isn't supported. Please keep one currency."],
           Goto "cart_view")
        else
          (db1, [],
           ChoosePayment (map to_checkout (acc_items a)) (_q2d (acc_subtotal a))
                         (hd "USD" (acc_currencies a)) (_cart_count req db1))
    end.
Proof.
  intros Hu. unfold checkout_view, cart_rows. rewrite Hu.
  destruct (get_user_cart_ok user db) as [cart Hc].
  destruct (_get_user_cart user db) as [db1 r]. simpl in Hc. subst r.
  cbv beta iota zeta. simpl fst.
  destruct (items_qs db1 cart) as [|r rows] eqn:Er; [reflexivity|].
  change (mkCoAcc [] Dec.zero2 []) with
    (mkCoAcc (map to_checkout (acc_items snap_init)) (acc_subtotal snap_init)
             (acc_currencies snap_init)).
  rewrite checkout_fold_snap. unfold snap_loop.
  cbv beta iota zeta. unfold coa_items, coa_currencies, coa_subtotal.
  destruct (acc_items (fold_left snap_step (r :: rows) snap_init)); reflexivity.
Qed.

(** X6.  The payment-choice page and order creation agree: when the
    snapshot builder returns, [checkout_view] renders the page with the
    builder's lines, subtotal and currency; when the builder raises
    (empty or mixed-currency cart), [checkout_view] sends the user back
    to the cart with a message and offers no payment. *)
Theorem checkout_view_agrees_with_snapshot (req : Request) (user : User) (db : DB) :
  req_user req = Some user ->
  (forall items sub cur,
      snd (_build_cart_snapshot user db) = Ok (items, sub, cur) ->
      checkout_view req db
      = (fst (_get_user_cart user db), [],
         ChoosePayment (map to_checkout items) sub cur
                       (_cart_count req (fst (_get_user_cart user db)))))
  /\ (forall e,
      snd (_build_cart_snapshot user db) = Raise e ->
      exists m,
        checkout_view req db = (fst (_get_user_cart user db), [m], Goto "cart_view")).
Proof.
  intros Hu. rewrite (checkout_view_unfold req user db Hu).
  rewrite build_cart_snapshot_eq. cbv beta iota zeta. simpl snd.
  unfold snap_finish.
  destruct (acc_items (snap_loop (cart_rows user db))) as [|x xs].
  - split; [discriminate|]. intros e _. eexists. reflexivity.
  - destruct (1 <? List.length (acc_currencies (snap_loop (cart_rows user db))))%nat.
    + split; [discriminate|]. intros e _. eexists. reflexivity.
    + split; [|discriminate]. intros items sub cur H. inversion H; subst.
      reflexivity.
Qed.

(** The end-to-end cart is offered for payment at 30.00 USD; the cart in
    two currencies is sent back to the cart page. *)
Lemma checkout_view_agrees_with_snapshot_witness :
  checkout_view Scenario.post_checkout Scenario.db_cart
  = (Scenario.db_cart, [],
     ChoosePayment
       [mkCheckoutItem Scenario.pidA "Product A" 3 (Scenario.d 1000)
                       (Scenario.d 3000) "USD"]
       (Scenario.d 3000) "USD" 3)
  /\ exists m,
       checkout_view Scenario.post_checkout Scenario.db_mixed
       = (Scenario.db_mixed, [m], Goto "cart_view").
Proof.
  split.
  - apply (proj1 (checkout_view_agrees_with_snapshot
                    Scenario.post_checkout Scenario.alice Scenario.db_cart
                    eq_refl)
             [mkSnap Scenario.pidA "Product A" (Scenario.d 1000) 3
                     (Scenario.d 3000) "USD"] (Scenario.d 3000) "USD").
    reflexivity.
  - apply (proj2 (checkout_view_agrees_with_snapshot
                    Scenario.post_checkout Scenario.alice Scenario.db_mixed
                    eq_refl) (ValueError msg_mixed)).
    reflexivity.
Defined.

Lemma cart_step_cases (acc : list CartLine * Decimal) (row : CartItem * Product) :
  cart_step acc row
  = if survives row
    then ((fst acc ++ [to_cart_line row])%list,
          Dec.add (snd acc) (line_rounded row))
    else acc.
Proof.
  destruct row as [it p]. unfold cart_step, survives, to_cart_line,
    line_rounded, line_exact, clamped_qty, _q2d. simpl.
  rewrite tracked_stock_test.
  set (q := if 0 <? stock p then Z.min (quantity it) (stock p) else quantity it).
  destruct (Z.leb_spec q 0) as [H|H]; destruct (Z.ltb_spec 0 q) as [H'|H'];
    try lia; reflexivity.
Qed.

Lemma cart_fold_snap (rows : list (CartItem * Product))
  (acc : list CartLine * Decimal) :
  fold_left cart_step rows acc
  = ((fst acc ++ map to_cart_line (surviving rows))%list,
     fold_left Dec.add (map line_rounded (surviving rows)) (snd acc)).
Proof.
  revert acc. induction rows as [|row rows IH]; intros acc; simpl.
  - rewrite app_nil_r. destruct acc; reflexivity.
  - rewrite IH, cart_step_cases. unfold surviving. simpl.
    destruct (survives row); simpl; [|reflexivity].
    rewrite <- app_assoc. reflexivity.
Qed.

(** X7.  For a logged-in user the cart page shows the lines the snapshot
    builder would take, with the same quantities and line totals, and a
    subtotal equal to the sum of the rounded line totals; whenever order
    creation's snapshot returns on the same cart, its subtotal is the one
    on the cart page.  The session is not touched. *)
Theorem cart_view_shows_snapshot_amounts
  (Raw : Type) (raw_int : Raw -> option Z)
  (req : Request) (user : User) (db : DB) (s : SessionCart Raw) :
  req_user req = Some user ->
  exists items count,
    cart_view Raw raw_int req db s
    = (fst (_get_user_cart user db), s,
       CartPage items (sum_of_rounded (cart_rows user db)) count)
    /\ map cl_qty items
       = map snap_qty (acc_items (snap_loop (cart_rows user db)))
    /\ map cl_line_total items
       = map snap_line_total (acc_items (snap_loop (cart_rows user db)))
    /\ count = fold_left Z.add (map cl_qty items) 0
    /\ (forall its sub cur,
          snd (_build_cart_snapshot user db) = Ok (its, sub, cur) ->
          sub = sum_of_rounded (cart_rows user db)).
Proof.
  intros Hu.
  destruct (get_user_cart_found user db) as (cart & Hg & _).
  pose proof (cart_rows_eq user db cart Hg) as Hrows.
  exists (map to_cart_line (surviving (cart_rows user db))).
  eexists. split; [|split; [|split; [|split]]].
  - unfold cart_view. rewrite Hu, Hg, <- Hrows, cart_fold_snap. simpl.
    unfold _q2d. fold (dsum (map line_rounded (surviving (cart_rows user db)))).
    fold (sum_of_rounded (cart_rows user db)).
    rewrite quantize2_fixed by apply sum_of_rounded_exp. reflexivity.
  - rewrite snap_loop_eq. simpl. rewrite !map_map. reflexivity.
  - rewrite snap_loop_eq. simpl. rewrite !map_map. reflexivity.
  - reflexivity.
  - intros its sub cur H. rewrite build_cart_snapshot_eq in H. simpl in H.
    rewrite snap_loop_eq in H. unfold snap_finish in H. simpl in H.
    destruct (map snapshot_line (surviving (cart_rows user db)));
      [discriminate|].
    destruct (1 <? _)%nat; [discriminate|]. inversion H.
    unfold _q2d. apply quantize2_fixed, sum_of_rounded_exp.
Qed.

Lemma cart_view_shows_snapshot_amounts_witness :
  exists items count,
    cart_view Z (fun q => Some q) Scenario.post_checkout Scenario.db_cart
              (IntCart [])
    = (Scenario.db_cart, IntCart [], CartPage items (Scenario.d 3000) count)
    /\ map cl_qty items = [3]
    /\ map cl_line_total items = [Scenario.d 3000]
    /\ count = fold_left Z.add (map cl_qty items) 0
    /\ (forall its sub cur,
          snd (_build_cart_snapshot Scenario.alice Scenario.db_cart)
            = Ok (its, sub, cur) ->
          sub = Scenario.d 3000).
Proof.
  apply (cart_view_shows_snapshot_amounts Z (fun q => Some q)
           Scenario.post_checkout Scenario.alice Scenario.db_cart (IntCart [])).
  reflexivity.
Defined.

(** ** Bounds kept by the cart operations *)

Lemma in_update_first {A : Type} (f : A -> bool) (g : A -> A) (l : list A)
  (y : A) :
  In y (update_first f g l) ->
  In y l \/ exists x, In x l /\ f x = true /\ y = g x.
Proof.
  induction l as [|z l IH]; simpl; intros H; [contradiction|].
  destruct (f z) eqn:E.
  - destruct H as [<-|H].
    + right. exists z. auto.
    + left. right. exact H.
  - destruct H as [<-|H]; [left; left; reflexivity|].
    destruct (IH H) as [Hl|(x & Hx & Hf & Hy)].
    + left. right. exact Hl.
    + right. exists x. auto.
Qed.

Lemma line_of_product (c : Z) (p : string) (it : CartItem) :
  line_of c p it = true -> ci_product it = p.
Proof. intros H. apply line_of_key in H. inversion H. reflexivity. Qed.

Lemma put_line_bounded (db : DB) (c : Z) (p : string) (q : Z) (prod : Product) :
  lines_bounded db ->
  find_product db p = Some prod ->
  1 <= q <= CART_MAX_PER_ITEM ->
  (0 < stock prod -> q <= stock prod) ->
  lines_bounded (put_line db c p q).
Proof.
  intros Hb Hp Hq Hs it p' Hin Hf.
  destruct (put_line_tables db c p q) as (_ & Hpr & _).
  unfold find_product in Hf. rewrite Hpr in Hf. fold (find_product db (ci_product it)) in Hf.
  unfold put_line in Hin.
  destruct (find (line_of c p) (cart_items db)) as [x|] eqn:E; simpl in Hin.
  - apply in_update_first in Hin.
    destruct Hin as [Hin|(z & Hz & Hl & ->)]; [apply (Hb it p' Hin Hf)|].
    simpl in *. rewrite (line_of_product c p z Hl), Hp in Hf.
    inversion Hf; subst. split; assumption.
  - apply in_app_or in Hin. destruct Hin as [Hin|[<-|[]]];
      [apply (Hb it p' Hin Hf)|].
    simpl in *. rewrite Hp in Hf. inversion Hf; subst. split; assumption.
Qed.

Lemma delete_line_bounded (db : DB) (c : Z) (p : string) :
  lines_bounded db -> lines_bounded (delete_line db c p).
Proof.
  intros Hb it p' Hin Hf. unfold delete_line in Hin. simpl in Hin.
  apply filter_In in Hin. apply (Hb it p' (proj1 Hin) Hf).
Qed.

Lemma get_user_cart_bounded (user : User) (db : DB) :
  lines_bounded db -> lines_bounded (fst (_get_user_cart user db)).
Proof.
  intros Hb it p Hin Hf.
  destruct (get_user_cart_tables user db) as (_ & _ & _ & Hci & Hpr).
  rewrite Hci in Hin. unfold find_product in Hf. rewrite Hpr in Hf.
  apply (Hb it p Hin Hf).
Qed.

Lemma add_to_db_cart_bounded (user : User) (product : Product) (qty : Z)
  (db : DB) :
  lines_bounded db ->
  find_product db (product_pk product) = Some product ->
  lines_bounded (fst (_add_to_db_cart user product qty db)).
Proof.
  intros Hb Hp.
  destruct (add_to_db_cart_eq user product qty db) as (cart & _ & ->).
  destruct (get_user_cart_tables user db) as (_ & _ & _ & _ & Hpr).
  destruct (added_qty_bounds
              (option_map quantity
                 (find (line_of (cart_pk cart) (product_pk product))
                       (cart_items db))) product qty) as [H1 H2].
  apply (put_line_bounded _ _ _ _ product).
  - apply get_user_cart_bounded, Hb.
  - unfold find_product in *. rewrite Hpr. exact Hp.
  - exact H1.
  - exact H2.
Qed.

Lemma set_db_cart_qty_bounded (user : User) (pid : string) (qty : Z) (db : DB) :
  lines_bounded db -> lines_bounded (fst (_set_db_cart_qty user pid qty db)).
Proof.
  intros Hb.
  destruct (set_db_cart_qty_eq user pid qty db) as (cart & _ & ->).
  destruct (get_user_cart_tables user db) as (_ & _ & _ & _ & Hpr).
  pose proof (get_user_cart_bounded user db Hb) as Hb1.
  destruct (find_product db pid) as [product|] eqn:Ep;
    [|apply delete_line_bounded, Hb1].
  destruct (Z.leb_spec qty 0) as [Hq|Hq]; [apply delete_line_bounded, Hb1|].
  destruct (set_qty_bounds product qty Hq) as [H1 H2].
  apply (put_line_bounded _ _ _ _ product); try assumption.
  unfold find_product in *. rewrite Hpr. exact Ep.
Qed.

Lemma merge_step_bounded (user : User) (db : DB) (entry : string * Z) :
  lines_bounded db -> lines_bounded (merge_step user db entry).
Proof.
  intros Hb. unfold merge_step.
  destruct (find_product db (fst entry)) as [product|] eqn:Ep; [|exact Hb].
  destruct (is_active product); [|exact Hb].
  apply add_to_db_cart_bounded; [exact Hb|].
  rewrite (find_product_pk db (fst entry) product Ep). exact Ep.
Qed.

Lemma merge_fold_bounded (user : User) (l : list (string * Z)) (db : DB) :
  lines_bounded db -> lines_bounded (fold_left (merge_step user) l db).
Proof.
  revert db. induction l as [|e l IH]; intros db Hb; simpl; [exact Hb|].
  apply IH, merge_step_bounded, Hb.
Qed.

(** X8.  The three ways a stored cart changes keep every line of a stored
    product between 1 and 10000 units and within a positive stock:
    adding a stored product, setting a quantity, and merging a session
    cart at login. *)
Theorem cart_operations_keep_lines_bounded (db : DB) :
  lines_bounded db ->
  (forall user product qty,
      find_product db (product_pk product) = Some product ->
      lines_bounded (fst (_add_to_db_cart user product qty db)))
  /\ (forall user pid qty,
      lines_bounded (fst (_set_db_cart_qty user pid qty db)))
  /\ (forall (Raw : Type) (raw_int : Raw -> option Z) user (s : SessionCart Raw),
      lines_bounded (fst (_merge_session_cart_into_db Raw raw_int user db s))).
Proof.
  intros Hb. split; [|split].
  - intros user product qty Hp. apply add_to_db_cart_bounded; assumption.
  - intros user pid qty. apply set_db_cart_qty_bounded, Hb.
  - intros Raw raw_int user s. unfold _merge_session_cart_into_db.
    destruct (session_cart_of Raw raw_int s) as [|e l] eqn:E; [exact Hb|].
    exact (merge_fold_bounded user (e :: l) db Hb).
Qed.

Lemma db_cart_bounded : lines_bounded Scenario.db_cart.
Proof.
  intros it p [<-|[]] Hf. vm_compute in Hf. inversion Hf; subst.
  unfold CART_MAX_PER_ITEM. simpl. lia.
Qed.

(** Merging a session cart of 7 units of Product A (stock 5) into the
    cart of 3 leaves 5, within the bounds. *)
Lemma cart_operations_keep_lines_bounded_witness :
  lines_bounded
    (fst (_merge_session_cart_into_db Z (fun q => Some q) Scenario.alice
            Scenario.db_cart (IntCart [(Scenario.pidA, 7)])))
  /\ cart_items
       (fst (_merge_session_cart_into_db Z (fun q => Some q) Scenario.alice
               Scenario.db_cart (IntCart [(Scenario.pidA, 7)])))
     = [mkCartItem 1 Scenario.pidA 5].
Proof.
  split; [|reflexivity].
  apply (proj2 (proj2 (cart_operations_keep_lines_bounded
                         Scenario.db_cart db_cart_bounded))).
Defined.

Lemma filter_all {A : Type} (f : A -> bool) (l : list A) :
  (forall x, In x l -> f x = true) -> filter f l = l.
Proof.
  induction l as [|y l IH]; simpl; intros H; [reflexivity|].
  rewrite (H y (or_introl eq_refl)). f_equal. apply IH.
  intros x Hx. apply H. right. exact Hx.
Qed.

Lemma cart_rows_in (user : User) (db : DB) (row : CartItem * Product) :
  In row (cart_rows user db) ->
  In (fst row) (cart_items db)
  /\ find_product db (ci_product (fst row)) = Some (snd row)
  /\ is_active (snd row) = true.
Proof.
  destruct (get_user_cart_found user db) as (cart & Hg & _).
  destruct (get_user_cart_tables user db) as (_ & _ & _ & Hci & Hpr).
  rewrite (cart_rows_eq user db cart Hg). unfold items_qs. intros H.
  apply in_flat_map in H. destruct H as (it & Hit & Hin).
  rewrite Hci in Hit. unfold find_product in *. rewrite Hpr in Hin.
  destruct (ci_cart it =? cart_pk cart); [|contradiction].
  destruct (find _ (products db)) as [p|] eqn:Ep; [|contradiction].
  destruct (is_active p) eqn:Ea; [|contradiction].
  destruct Hin as [<-|[]]. simpl. auto.
Qed.

(** X9.  On a cart whose lines are within the bounds the snapshot builder
    clamps nothing and drops nothing: the snapshot holds one line per
    cart line of an active product, with the stored quantity. *)
Theorem bounded_cart_snapshot_takes_stored_quantities (user : User) (db : DB) :
  lines_bounded db ->
  acc_items (snap_loop (cart_rows user db))
    = map snapshot_line (cart_rows user db)
  /\ map snap_qty (acc_items (snap_loop (cart_rows user db)))
    = map (fun row => quantity (fst row)) (cart_rows user db).
Proof.
  intros Hb.
  assert (Hrow : forall row, In row (cart_rows user db) ->
                   clamped_qty row = quantity (fst row) /\ survives row = true).
  { intros row Hin. destruct (cart_rows_in user db row Hin) as (Hi & Hf & _).
    destruct (Hb (fst row) (snd row) Hi Hf) as [H1 H2].
    assert (Hc : clamped_qty row = quantity (fst row)).
    { unfold clamped_qty.
      destruct (Z.ltb_spec 0 (stock (snd row))) as [H|H]; [|reflexivity].
      apply Z.min_l, H2, H. }
    split; [exact Hc|]. unfold survives. rewrite Hc. apply Z.ltb_lt. lia. }
  rewrite snap_loop_eq. simpl. unfold surviving.
  rewrite (filter_all survives) by (intros x Hx; apply (Hrow x Hx)).
  split; [reflexivity|]. rewrite map_map. apply map_ext_in.
  intros row Hin. simpl. apply (Hrow row Hin).
Qed.

Lemma bounded_cart_snapshot_takes_stored_quantities_witness :
  acc_items (snap_loop (cart_rows Scenario.alice Scenario.db_cart))
    = map snapshot_line (cart_rows Scenario.alice Scenario.db_cart)
  /\ map snap_qty (acc_items (snap_loop (cart_rows Scenario.alice Scenario.db_cart)))
    = [3].
Proof.
  apply (bounded_cart_snapshot_takes_stored_quantities
           Scenario.alice Scenario.db_cart db_cart_bounded).
Defined.

(** ** The session cart *)

Lemma dict_set_in {V : Type} (d : list (string * V)) (k : string) (v : V)
  (k' : string) (v' : V) :
  In (k', v') (Py.dict_set d k v) -> (k' = k /\ v' = v) \/ In (k', v') d.
Proof.
  induction d as [|[a b] d IH]; simpl; intros H.
  - destruct H as [H|[]]. inversion H. auto.
  - destruct (String.eqb_spec a k) as [->|Hne]; simpl in H.
    + destruct H as [H|H]; [inversion H; auto|right; right; exact H].
    + destruct H as [H|H]; [right; left; exact H|].
      destruct (IH H) as [E|E]; auto.
Qed.

Lemma dict_set_keys_new {V : Type} (d : list (string * V)) (k : string) (v : V) :
  ~ In k (map fst d) -> Py.dict_set d k v = (d ++ [(k, v)])%list.
Proof.
  induction d as [|[a b] d IH]; simpl; intros H; [reflexivity|].
  destruct (String.eqb_spec a k) as [->|Hne]; [exfalso; apply H; auto|].
  rewrite IH; [reflexivity|]. intros Hin. apply H. right. exact Hin.
Qed.

Lemma dict_set_keys_nodup {V : Type} (d : list (string * V)) (k : string) (v : V) :
  NoDup (map fst d) -> NoDup (map fst (Py.dict_set d k v)).
Proof.
  induction d as [|[a b] d IH]; simpl; intros Hn.
  - constructor; [intros []|constructor].
  - destruct (String.eqb_spec a k) as [->|Hne]; simpl; [exact Hn|].
    inversion Hn as [|? ? Ha Hd]; subst. constructor; [|apply IH, Hd].
    intros Hin. apply in_map_iff in Hin. destruct Hin as ([k' v'] & Hk & Hin).
    simpl in Hk. subst k'. apply dict_set_in in Hin.
    destruct Hin as [[E _]|Hin]; [congruence|].
    apply Ha. apply in_map_iff. exists (a, v'). auto.
Qed.

Lemma keep_positive_inv {V : Type} (to_int : V -> option Z)
  (raw : list (string * V)) (acc : list (string * Z)) :
  (forall k q, In (k, q) acc -> 0 < q) ->
  NoDup (map fst acc) ->
  (forall k q, In (k, q) (keep_positive to_int raw acc) -> 0 < q)
  /\ NoDup (map fst (keep_positive to_int raw acc)).
Proof.
  revert acc. induction raw as [|[k v] raw IH]; intros acc Hp Hn; simpl.
  - split; assumption.
  - destruct (to_int v) as [q|]; [|apply IH; assumption].
    destruct (Z.ltb_spec 0 q) as [Hq|Hq]; [|apply IH; assumption].
    apply IH.
    + intros k' q' Hin. apply dict_set_in in Hin.
      destruct Hin as [[_ ->]|Hin]; [exact Hq|apply (Hp k' q' Hin)].
    + apply dict_set_keys_nodup, Hn.
Qed.

Lemma keep_positive_append {V : Type} (to_int : V -> option Z)
  (raw : list (string * V)) (acc : list (string * Z)) :
  NoDup (map fst raw) ->
  (forall k, In k (map fst raw) -> ~ In k (map fst acc)) ->
  keep_positive to_int raw acc = (acc ++ positives to_int raw)%list.
Proof.
  revert acc. induction raw as [|[k v] raw IH]; intros acc Hn Hd; simpl.
  - rewrite app_nil_r. reflexivity.
  - inversion Hn as [|? ? Hk Hr]; subst.
    assert (Hd' : forall k', In k' (map fst raw) -> ~ In k' (map fst acc)).
    { intros k' Hk'. apply Hd. right. exact Hk'. }
    destruct (to_int v) as [q|]; [|apply IH; assumption].
    destruct (0 <? q); [|apply IH; assumption].
    rewrite dict_set_keys_new by (apply Hd; left; reflexivity).
    rewrite IH; [rewrite <- app_assoc; reflexivity|exact Hr|].
    intros k' Hk' Hin. rewrite map_app in Hin. apply in_app_or in Hin.
    destruct Hin as [Hin|[E|[]]]; [apply (Hd' k' Hk' Hin)|].
    simpl in E. subst k'. contradiction.
Qed.

Lemma positives_of_positive (d : list (string * Z)) :
  (forall k q, In (k, q) d -> 0 < q) ->
  positives (fun q => Some q) d = d.
Proof.
  induction d as [|[k q] d IH]; intros Hp; simpl; [reflexivity|].
  assert (Hq : 0 < q) by (apply (Hp k q); left; reflexivity).
  apply Z.ltb_lt in Hq. rewrite Hq. simpl. f_equal. apply IH.
  intros k' q' Hin. apply (Hp k' q'). right. exact Hin.
Qed.

Lemma session_cart_of_inv (Raw : Type) (raw_int : Raw -> option Z)
  (s : SessionCart Raw) :
  (forall k q, In (k, q) (session_cart_of Raw raw_int s) -> 0 < q)
  /\ NoDup (map fst (session_cart_of Raw raw_int s)).
Proof.
  destruct s as [d|d|]; simpl.
  - apply keep_positive_inv; [intros k q []|constructor].
  - apply keep_positive_inv; [intros k q []|constructor].
  - split; [intros k q []|constructor].
Qed.

(** X10.  Whatever the session holds, the cart [_get_session_cart]
    returns has distinct keys and only positive quantities, and reading
    the session again right after returns the same cart. *)
Theorem get_session_cart_cleans_and_is_stable
  (Raw : Type) (raw_int : Raw -> option Z) (s : SessionCart Raw) :
  (forall k q, In (k, q) (snd (_get_session_cart Raw raw_int s)) -> 0 < q)
  /\ NoDup (map fst (snd (_get_session_cart Raw raw_int s)))
  /\ _get_session_cart Raw raw_int (fst (_get_session_cart Raw raw_int s))
     = _get_session_cart Raw raw_int s.
Proof.
  destruct (session_cart_of_inv Raw raw_int s) as [Hp Hn].
  split; [exact Hp|]. split; [exact Hn|].
  unfold _get_session_cart. simpl.
  rewrite keep_positive_append; [|exact Hn|intros k _ []].
  simpl. rewrite positives_of_positive by exact Hp. reflexivity.
Qed.

Lemma fold_add_shift (l : list Z) (a : Z) :
  fold_left Z.add l a = a + fold_left Z.add l 0.
Proof.
  revert a. induction l as [|x l IH]; intros a; simpl; [lia|].
  rewrite IH, (IH x). lia.
Qed.

Lemma count_positive_sum {V : Type} (to_int : V -> option Z)
  (raw : list (string * V)) (c : Z) :
  count_positive to_int raw c
  = c + fold_left Z.add (map snd (positives to_int raw)) 0.
Proof.
  revert c. induction raw as [|[k v] raw IH]; intros c; simpl; [lia|].
  destruct (to_int v) as [q|]; [|apply IH].
  destruct (0 <? q); [|apply IH].
  simpl. rewrite IH, (fold_add_shift _ q). lia.
Qed.

(** X11.  For a session dict the count the context processor puts in the
    page header is the total of the quantities of the cart
    [_get_session_cart] returns. *)
Theorem context_count_is_session_cart_total
  (Raw : Type) (raw_int : Raw -> option Z) (s : SessionCart Raw) :
  dict_keys_distinct s ->
  context_cart_count Raw raw_int s
  = fold_left Z.add (map snd (snd (_get_session_cart Raw raw_int s))) 0.
Proof.
  intros Hd. destruct s as [d|d|]; simpl in *.
  - rewrite count_positive_sum, keep_positive_append;
      [reflexivity|exact Hd|intros k _ []].
  - rewrite count_positive_sum, keep_positive_append;
      [reflexivity|exact Hd|intros k _ []].
  - reflexivity.
Qed.

(** A session dict with a negative and a positive entry counts the
    positive one. *)
Lemma context_count_is_session_cart_total_witness :
  context_cart_count Z (fun q => Some q)
    (IntCart [(Scenario.pidA, -2); (Scenario.pidE, 4)]) = 4
  /\ snd (_get_session_cart Z (fun q => Some q)
            (IntCart [(Scenario.pidA, -2); (Scenario.pidE, 4)]))
     = [(Scenario.pidE, 4)].
Proof.
  split; [|reflexivity].
  rewrite (context_count_is_session_cart_total Z (fun q => Some q)
             (IntCart [(Scenario.pidA, -2); (Scenario.pidE, 4)])).
  - reflexivity.
  - simpl. constructor.
    + intros [H|[]]. vm_compute in H. discriminate.
    + constructor; [intros []|constructor].
Defined.

Lemma dict_get_set {V : Type} (d : list (string * V)) (k : string) (v : V) :
  Py.dict_get (Py.dict_set d k v) k = Some v.
Proof.
  induction d as [|[a b] d IH]; simpl.
  - rewrite String.eqb_refl. reflexivity.
  - destruct (String.eqb a k) eqn:E; simpl; rewrite E; [reflexivity|exact IH].
Qed.

Lemma dict_get_set_other {V : Type} (d : list (string * V)) (k k' : string)
  (v : V) :
  k' <> k -> Py.dict_get (Py.dict_set d k v) k' = Py.dict_get d k'.
Proof.
  intros Hne. induction d as [|[a b] d IH]; simpl.
  - destruct (String.eqb_spec k k'); [congruence|reflexivity].
  - destruct (String.eqb_spec a k) as [->|Ha]; simpl.
    + destruct (String.eqb_spec k k'); [congruence|reflexivity].
    + destruct (String.eqb a k'); [reflexivity|exact IH].
Qed.

Lemma dict_get_pop {V : Type} (d : list (string * V)) (k : string) :
  Py.dict_get (dict_pop d k) k = None.
Proof.
  unfold dict_pop. induction d as [|[a b] d IH]; simpl; [reflexivity|].
  destruct (String.eqb a k) eqn:E; simpl; [exact IH|]. rewrite E. exact IH.
Qed.

Lemma dict_get_pop_other {V : Type} (d : list (string * V)) (k k' : string) :
  k' <> k -> Py.dict_get (dict_pop d k) k' = Py.dict_get d k'.
Proof.
  intros Hne. unfold dict_pop. induction d as [|[a b] d IH]; simpl; [reflexivity|].
  destruct (String.eqb_spec a k) as [->|Ha]; simpl.
  - destruct (String.eqb_spec k k'); [congruence|exact IH].
  - destruct (String.eqb a k'); [reflexivity|exact IH].
Qed.

Lemma parse_int_bounds (py_int : string -> option Z) (v : option string)
  (default min_v max_v : Z) :
  min_v <= max_v ->
  min_v <= _parse_int py_int v default min_v max_v <= max_v.
Proof. intros H. unfold _parse_int. lia. Qed.

Lemma guest_set_entry (db : DB) (cart : list (string * Z)) (pid : string)
  (qty : Z) :
  qty <= CART_MAX_PER_ITEM ->
  match Py.dict_get (guest_set db cart pid qty) pid with
  | None => True
  | Some q =>
      1 <= q <= CART_MAX_PER_ITEM
      /\ exists p, find_product db pid = Some p /\ (0 < stock p -> q <= stock p)
  end
  /\ (forall k, k <> pid ->
        Py.dict_get (guest_set db cart pid qty) k = Py.dict_get cart k).
Proof.
  intros Hq. unfold guest_set.
  destruct (Z.leb_spec qty 0) as [H0|H0].
  - rewrite dict_get_pop. split; [exact I|].
    intros k Hk. apply dict_get_pop_other, Hk.
  - destruct (find_product db pid) as [p|] eqn:Ep.
    + rewrite tracked_stock_clamp.
      set (q := if 0 <? stock p then Z.min qty (stock p) else qty).
      assert (Hb : 1 <= q <= CART_MAX_PER_ITEM /\ (0 < stock p -> q <= stock p)).
      { unfold q. destruct (Z.ltb_spec 0 (stock p)); split; lia. }
      destruct (Z.ltb_spec 0 q) as [Hp|Hp]; [|lia].
      rewrite dict_get_set. split.
      * split; [apply Hb|]. exists p. split; [reflexivity|apply Hb].
      * intros k Hk. apply dict_get_set_other, Hk.
    + rewrite dict_get_pop. split; [exact I|].
      intros k Hk. apply dict_get_pop_other, Hk.
Qed.

(** X12.  A POST to [cart_update_view] by a logged-in user never writes
    the session, and one by a guest never writes the database.  For a
    guest, [remove] leaves no entry for the product, and [set] leaves
    either no entry or an entry between 1 and 10000 for a stored product
    that does not exceed its positive stock, whatever quantity text was
    posted; the entries of the other products are those of the cleaned
    cart. *)
Theorem cart_update_view_scopes_and_bounds
  (Raw : Type) (raw_int : Raw -> option Z) (py_int : string -> option Z)
  (req : Request) (pid : string) (db : DB) (s : SessionCart Raw) :
  req_method req = "POST" ->
  (forall u, req_user req = Some u ->
     snd (fst (cart_update_view Raw raw_int py_int req pid db s)) = s)
  /\ (req_user req = None ->
      fst (fst (cart_update_view Raw raw_int py_int req pid db s)) = db)
  /\ (req_user req = None ->
      Py.lower (dget (POST req) "action") = "remove" ->
      exists c,
        snd (fst (cart_update_view Raw raw_int py_int req pid db s)) = IntCart c
        /\ Py.dict_get c pid = None
        /\ (forall k, k <> pid ->
              Py.dict_get c k = Py.dict_get (session_cart_of Raw raw_int s) k))
  /\ (req_user req = None ->
      Py.lower (dget (POST req) "action") = "set" ->
      exists c,
        snd (fst (cart_update_view Raw raw_int py_int req pid db s)) = IntCart c
        /\ match Py.dict_get c pid with
           | None => True
           | Some q =>
               1 <= q <= 10000
               /\ exists p, find_product db pid = Some p
                            /\ (0 < stock p -> q <= stock p)
           end
        /\ (forall k, k <> pid ->
              Py.dict_get c k = Py.dict_get (session_cart_of Raw raw_int s) k)).
Proof.
  intros Hm. unfold cart_update_view. rewrite Hm. simpl.
  split; [|split; [|split]].
  - intros u Hu. rewrite Hu.
    destruct (String.eqb _ "remove").
    + destruct (_get_user_cart u db) as [db1 [c|e]]; reflexivity.
    + destruct (String.eqb _ "set"); reflexivity.
  - intros Hu. rewrite Hu.
    destruct (String.eqb _ "remove"); [reflexivity|].
    destruct (String.eqb _ "set"); reflexivity.
  - intros Hu Ha. rewrite Hu, Ha. simpl. eexists. split; [reflexivity|].
    split; [apply dict_get_pop|]. intros k Hk. apply dict_get_pop_other, Hk.
  - intros Hu Ha. rewrite Hu, Ha. simpl. eexists. split; [reflexivity|].
    apply guest_set_entry.
    apply (parse_int_bounds py_int _ 1 0 CART_MAX_PER_ITEM).
    unfold CART_MAX_PER_ITEM. lia.
Qed.

(** A guest who posts a quantity of 99 for Product A (stock 5) ends with
    5 in the session cart and an untouched database. *)
Lemma cart_update_view_scopes_and_bounds_witness :
  cart_update_view Z (fun q => Some q) (fun _ => Some 99)
    (mkRequest "POST" None [] [("action", "set"); ("qty", "99")] [])
    Scenario.pidA Scenario.db_cart (IntCart [])
  = (Scenario.db_cart, IntCart [(Scenario.pidA, 5)], Redirect "/cart/")
  /\ fst (fst (cart_update_view Z (fun q => Some q) (fun _ => Some 99)
                 (mkRequest "POST" None [] [("action", "set"); ("qty", "99")] [])
                 Scenario.pidA Scenario.db_cart (IntCart [])))
     = Scenario.db_cart.
Proof.
  split; [reflexivity|].
  apply (proj1 (proj2 (cart_update_view_scopes_and_bounds
                         Z (fun q => Some q) (fun _ => Some 99)
                         (mkRequest "POST" None []
                            [("action", "set"); ("qty", "99")] [])
                         Scenario.pidA Scenario.db_cart (IntCart []) eq_refl))).
  reflexivity.
Defined.

(** ** Gateway A *)

Lemma existsb_false_all {A : Type} (f : A -> bool) (l : list A) :
  existsb f l = false <-> (forall x, In x l -> f x = false).
Proof.
  split.
  - apply existsb_false_find.
  - intros H. induction l as [|y l IH]; simpl; [reflexivity|].
    rewrite (H y (or_introl eq_refl)). simpl. apply IH.
    intros x Hx. apply H. right. exact Hx.
Qed.

Lemma pick_newer_none (order : string) (l : list Payment) :
  (forall p, In p l -> payment_order p <> order) ->
  fold_left (pick_newer order) l None = None.
Proof.
  induction l as [|p l IH]; intros H; simpl; [reflexivity|].
  unfold pick_newer at 2.
  destruct (String.eqb_spec (payment_order p) order) as [E|_].
  - exfalso. apply (H p); [left; reflexivity|exact E].
  - apply IH. intros q Hq. apply H. right. exact Hq.
Qed.

Lemma latest_payment_first (db : DB) (pay : Payment) :
  (forall p, In p (payments db) -> payment_order p <> payment_order pay) ->
  latest_payment (set_payments db (payments db ++ [pay])%list) (payment_order pay)
  = Some pay.
Proof.
  intros H. unfold latest_payment. simpl. rewrite fold_left_app.
  rewrite (pick_newer_none _ _ H). simpl. unfold pick_newer.
  rewrite String.eqb_refl. reflexivity.
Qed.

Lemma create_order_found (env : Env) (user : User) (db db1 : DB) (order : Order) :
  _create_order_from_cart env user db = (db1, Ok order) ->
  find_order_by_code db1 (order_code order) = Some order
  /\ find_order_by_pk db1 (order_pk order) = Some order
  /\ order_user order = Some (user_id user)
  /\ order_processing_status order = "running"
  /\ carts db1 = carts (fst (_get_user_cart user db))
  /\ cart_items db1 = cart_items db.
Proof.
  intros Hc. destruct (create_order_ok env user db db1 order Hc)
    as (Ho & _ & _ & _ & Hfresh).
  split; [|split].
  - unfold find_order_by_code. rewrite Ho. apply find_app_none.
    + apply find_none_all. intros o Hin.
      destruct (String.eqb_spec (order_code o) (order_code order)) as [E|_];
        [|reflexivity].
      destruct (Hfresh o Hin) as [_ Hne]. contradiction.
    + apply String.eqb_refl.
  - unfold find_order_by_pk. rewrite Ho. apply find_order_by_pk_fresh.
    intros o Hin. apply (Hfresh o Hin).
  - revert Hc. unfold _create_order_from_cart, bind.
    rewrite build_cart_snapshot_eq.
    destruct (get_user_cart_tables user db) as (_ & _ & _ & Hci & _).
    destruct (snap_finish (snap_loop (cart_rows user db)))
      as [[[items sub] cur]|e]; [|discriminate].
    unfold Order_create. destruct (existsb _ _); [discriminate|].
    unfold OrderItem_bulk_create, modify, ret. simpl. intros H.
    inversion H; subst; clear H. simpl. rewrite Hci. repeat split.
Qed.

Section GatewayA.

Variable urlencode : list (string * string) -> string.
Variable decimal_str : Decimal -> string.

Lemma tco_view_ok (ts : TcoSettings) (env : Env) (user : User) (db db1 : DB)
  (order : Order) :
  TWOCHECKOUT_BUY_LINK ts <> "" ->
  _create_order_from_cart env user db = (db1, Ok order) ->
  (forall p, In p (payments db) -> payment_pk p <> env_payment_pk env) ->
  tco_view urlencode decimal_str ts env user db
  = (set_payments db1
       (payments db1 ++
          [mkPayment (env_payment_pk env) (order_pk order) "stripe" "processing"
             (total order) (order_currency order) ""
             [("start_params", JDict (tco_params decimal_str ts order));
              ("provider", JStr "2checkout")]
             (env_now env) (env_now env)])%list,
     [],
     Redirect (TWOCHECKOUT_BUY_LINK ts ++ "?"
               ++ urlencode (tco_params decimal_str ts order))%string).
Proof.
  intros Hl Hc Hpk. unfold tco_view.
  destruct (String.eqb_spec (TWOCHECKOUT_BUY_LINK ts) "") as [E|_];
    [contradiction|].
  rewrite Hc. unfold Payment_create.
  destruct (create_order_ok env user db db1 order Hc) as (_ & Hp & _).
  rewrite Hp. rewrite (proj2 (existsb_false_all _ _)); [reflexivity|].
  intros p Hin. simpl.
  destruct (String.eqb_spec (payment_pk p) (env_payment_pk env)) as [E|_];
    [|reflexivity].
  exfalso. apply (Hpk p Hin E).
Qed.

(** X13.  Gateway A writes neither an order nor a payment when its buy
    link is not configured, or when the cart is refused (empty, or in
    two currencies): the user is sent back with an error message. *)
Theorem tco_refusals_create_nothing
  (ts : TcoSettings) (env : Env) (req : Request) (user : User) (db : DB) :
  req_user req = Some user ->
  (TWOCHECKOUT_BUY_LINK ts = "" ->
   pay_with_2checkout urlencode decimal_str ts env req db
   = (db, [say lvl_error "2Checkout buy link is not configured."],
      Redirect "checkout"))
  /\ (forall m,
      TWOCHECKOUT_BUY_LINK ts <> "" ->
      snd (_build_cart_snapshot user db) = Raise (ValueError m) ->
      out_response (pay_with_2checkout urlencode decimal_str ts env req db)
        = Redirect "cart_view"
      /\ out_messages (pay_with_2checkout urlencode decimal_str ts env req db)
        = [say lvl_error m]
      /\ orders (out_db (pay_with_2checkout urlencode decimal_str ts env req db))
        = orders db
      /\ payments (out_db (pay_with_2checkout urlencode decimal_str ts env req db))
        = payments db).
Proof.
  intros Hu. unfold pay_with_2checkout, login_required. rewrite Hu. split.
  - intros Hl. unfold tco_view. rewrite Hl. reflexivity.
  - intros m Hl Hb. unfold tco_view.
    destruct (String.eqb_spec (TWOCHECKOUT_BUY_LINK ts) "") as [E|_];
      [contradiction|].
    rewrite (create_order_raises env user db _ Hb).
    destruct (get_user_cart_tables user db) as (Ho & Hp & _).
    unfold out_response, out_messages, out_db. simpl. auto.
Qed.

(** X14.  When Gateway A starts a payment it creates one pending order
    and one payment for it: method [stripe] (one of the methods the
    webhook updates), status processing, amount and currency those of the
    order; this payment is the most recent one of the order, the order is
    found by its code, and the user is sent to the buy link. *)
Theorem tco_starts_processing_payment
  (ts : TcoSettings) (env : Env) (req : Request) (user : User) (db db1 : DB)
  (order : Order) :
  req_user req = Some user ->
  TWOCHECKOUT_BUY_LINK ts <> "" ->
  _create_order_from_cart env user db = (db1, Ok order) ->
  (forall p, In p (payments db) -> payment_pk p <> env_payment_pk env) ->
  payments_in_orders db ->
  exists pay,
    payments (out_db (pay_with_2checkout urlencode decimal_str ts env req db))
      = (payments db ++ [pay])%list
    /\ orders (out_db (pay_with_2checkout urlencode decimal_str ts env req db))
      = (orders db ++ [order])%list
    /\ order_status order = "pending"
    /\ payment_order pay = order_pk order
    /\ method pay = "stripe"
    /\ in_strs (method pay) ["stripe"; "sslcommerz"; "coin"] = true
    /\ payment_status pay = "processing"
    /\ amount pay = total order
    /\ payment_currency pay = order_currency order
    /\ latest_payment
         (out_db (pay_with_2checkout urlencode decimal_str ts env req db))
         (order_pk order) = Some pay
    /\ find_order_by_code
         (out_db (pay_with_2checkout urlencode decimal_str ts env req db))
         (order_code order) = Some order
    /\ out_response (pay_with_2checkout urlencode decimal_str ts env req db)
       = Redirect (TWOCHECKOUT_BUY_LINK ts ++ "?"
                   ++ urlencode (tco_params decimal_str ts order))%string.
Proof.
  intros Hu Hl Hc Hpk Hfk.
  destruct (create_order_ok env user db db1 order Hc)
    as (Ho & Hp & Hs & _ & Hfresh).
  destruct (create_order_found env user db db1 order Hc) as (Hcode & _).
  unfold pay_with_2checkout, login_required. rewrite Hu.
  rewrite (tco_view_ok ts env user db db1 order Hl Hc Hpk).
  unfold out_db, out_response. simpl.
  eexists. split; [rewrite Hp; reflexivity|].
  split; [exact Ho|]. split; [exact Hs|].
  repeat (split; [reflexivity|]).
  split; [|split; [exact Hcode|reflexivity]].
  match goal with
  | |- latest_payment (set_payments db1 (payments db1 ++ [?pay])%list) _ = _ =>
      apply (latest_payment_first db1 pay)
  end.
  rewrite Hp. intros p Hin E. simpl in E.
  destruct (Hfk p Hin) as (o & Hoin & Hk).
  destruct (Hfresh o Hoin) as [Hne _]. congruence.
Qed.

(** X15.  The redirect back from Gateway A completes the checkout: after
    [pay_with_2checkout] started a payment, [checkout_success] with the
    code of the new order leaves the order paid and running, its payment
    succeeded and the user's cart without lines. *)
Theorem tco_then_success_completes_checkout
  (ts : TcoSettings) (env : Env) (req back : Request) (user : User)
  (db db1 : DB) (order : Order) :
  req_user req = Some user ->
  TWOCHECKOUT_BUY_LINK ts <> "" ->
  _create_order_from_cart env user db = (db1, Ok order) ->
  (forall p, In p (payments db) -> payment_pk p <> env_payment_pk env) ->
  payments_in_orders db ->
  dget (GET back) "oc" = order_code order ->
  exists pay' order',
    latest_payment
      (out_db (checkout_success back
                 (out_db (pay_with_2checkout urlencode decimal_str ts env req db))))
      (order_pk order) = Some pay'
    /\ payment_pk pay' = env_payment_pk env
    /\ payment_status pay' = "succeeded"
    /\ find_order_by_code
         (out_db (checkout_success back
                    (out_db (pay_with_2checkout urlencode decimal_str ts env req db))))
         (order_code order) = Some order'
    /\ order_pk order' = order_pk order
    /\ order_status order' = "paid"
    /\ order_processing_status order' = "running"
    /\ total order' = total order
    /\ owner_cart_items
         (out_db (checkout_success back
                    (out_db (pay_with_2checkout urlencode decimal_str ts env req db))))
         (user_id user) = [].
Proof.
  intros Hu Hl Hc Hpk Hfk Hoc.
  destruct (create_order_ok env user db db1 order Hc)
    as (Ho & Hp & Hs & _ & Hfresh).
  destruct (create_order_found env user db db1 order Hc)
    as (Hcode & _ & Howner & _).
  unfold pay_with_2checkout, login_required. rewrite Hu.
  rewrite (tco_view_ok ts env user db db1 order Hl Hc Hpk).
  unfold out_db at 2 4 6. simpl fst.
  set (pay := mkPayment (env_payment_pk env) (order_pk order) "stripe"
                "processing" (total order) (order_currency order) ""
                [("start_params", JDict (tco_params decimal_str ts order));
                 ("provider", JStr "2checkout")] (env_now env) (env_now env)).
  set (dbA := set_payments db1 (payments db1 ++ [pay])%list).
  assert (HcodeA : find_order_by_code dbA (dget (GET back) "oc") = Some order).
  { rewrite Hoc. exact Hcode. }
  assert (HlatA : latest_payment dbA (order_pk order) = Some pay).
  { apply (latest_payment_first db1 pay). rewrite Hp. intros p Hin E.
    simpl in E. destruct (Hfk p Hin) as (o & Hoin & Hk).
    destruct (Hfresh o Hoin) as [Hne _]. congruence. }
  destruct (checkout_success_after back dbA order pay HcodeA HlatA eq_refl)
    as [Hl' Hc'].
  exists (with_payment_status pay "succeeded"), (mark_paid_running order).
  split; [exact Hl'|]. split; [reflexivity|]. split; [reflexivity|].
  split; [rewrite <- Hoc; exact Hc'|].
  repeat (split; [reflexivity|]).
  rewrite (checkout_success_in_flight back dbA order pay HcodeA HlatA eq_refl).
  unfold clear_owner_cart. rewrite Howner. apply clear_cart_of_empty.
Qed.

(** X16.  The cancel page undoes a started Gateway A checkout: after
    [pay_with_2checkout], [checkout_cancel] with the code of the new
    order leaves the order cancelled and its payment cancelled. *)
Theorem tco_then_cancel_cancels_checkout
  (ts : TcoSettings) (env : Env) (req back : Request) (user : User)
  (db db1 : DB) (order : Order) :
  req_user req = Some user ->
  TWOCHECKOUT_BUY_LINK ts <> "" ->
  _create_order_from_cart env user db = (db1, Ok order) ->
  (forall p, In p (payments db) -> payment_pk p <> env_payment_pk env) ->
  payments_in_orders db ->
  dget (GET back) "oc" = order_code order ->
  exists pay' order',
    latest_payment
      (out_db (checkout_cancel back
                 (out_db (pay_with_2checkout urlencode decimal_str ts env req db))))
      (order_pk order) = Some pay'
    /\ payment_pk pay' = env_payment_pk env
    /\ payment_status pay' = "cancelled"
    /\ find_order_by_code
         (out_db (checkout_cancel back
                    (out_db (pay_with_2checkout urlencode decimal_str ts env req db))))
         (order_code order) = Some order'
    /\ order_pk order' = order_pk order
    /\ order_status order' = "cancelled".
Proof.
  intros Hu Hl Hc Hpk Hfk Hoc.
  destruct (create_order_ok env user db db1 order Hc)
    as (Ho & Hp & Hs & _ & Hfresh).
  destruct (create_order_found env user db db1 order Hc) as (Hcode & _).
  unfold pay_with_2checkout, login_required. rewrite Hu.
  rewrite (tco_view_ok ts env user db db1 order Hl Hc Hpk).
  unfold out_db at 2 4. simpl fst.
  set (pay := mkPayment (env_payment_pk env) (order_pk order) "stripe"
                "processing" (total order) (order_currency order) ""
                [("start_params", JDict (tco_params decimal_str ts order));
                 ("provider", JStr "2checkout")] (env_now env) (env_now env)).
  set (dbA := set_payments db1 (payments db1 ++ [pay])%list).
  assert (HcodeA : find_order_by_code dbA (dget (GET back) "oc") = Some order).
  { rewrite Hoc. exact Hcode. }
  assert (HlatA : latest_payment dbA (order_pk order) = Some pay).
  { apply (latest_payment_first db1 pay). rewrite Hp. intros p Hin E.
    simpl in E. destruct (Hfk p Hin) as (o & Hoin & Hk).
    destruct (Hfresh o Hoin) as [Hne _]. congruence. }
  destruct (checkout_cancel_after back dbA order HcodeA) as [Hc' Hl'].
  rewrite HlatA in Hl'. simpl in Hl'.
  exists (cancel_payment pay), (cancel_order order).
  split; [exact Hl'|]. split; [reflexivity|]. split; [reflexivity|].
  split; [rewrite <- Hoc; exact Hc'|].
  unfold cancel_order. rewrite Hs. simpl. split; reflexivity.
Qed.

End GatewayA.

Lemma tco_refusals_create_nothing_witness :
  pay_with_2checkout Cases.plain_urlencode Cases.cents_str
    (mkTcoSettings "" "" "http://127.0.0.1:8000/") Scenario.env0
    Scenario.post_checkout Scenario.db_cart
  = (Scenario.db_cart, [say lvl_error "2Checkout buy link is not configured."],
     Redirect "checkout")
  /\ orders (out_db (pay_with_2checkout Cases.plain_urlencode Cases.cents_str
                       Cases.ts0 Scenario.env0 Scenario.post_checkout
                       Scenario.db_mixed)) = [].
Proof.
  split.
  - apply (proj1 (tco_refusals_create_nothing
                    Cases.plain_urlencode Cases.cents_str
                    (mkTcoSettings "" "" "http://127.0.0.1:8000/") Scenario.env0
                    Scenario.post_checkout Scenario.alice Scenario.db_cart
                    eq_refl)).
    reflexivity.
  - apply (proj2 (tco_refusals_create_nothing
                    Cases.plain_urlencode Cases.cents_str
                    Cases.ts0 Scenario.env0
                    Scenario.post_checkout Scenario.alice Scenario.db_mixed
                    eq_refl) msg_mixed).
    + vm_compute. discriminate.
    + reflexivity.
Defined.

Lemma db_cart_payment_fresh :
  forall p, In p (payments Scenario.db_cart) -> payment_pk p <> Scenario.pay_id.
Proof. intros p []. Qed.

Lemma db_cart_payments_in_orders : payments_in_orders Scenario.db_cart.
Proof. intros p []. Qed.

(** The end-to-end scenario of the specification: 3 x Product A through
    Gateway A gives a pending order of 30.00 and a processing payment of
    30.00 USD. *)
Lemma tco_starts_processing_payment_witness :
  exists pay,
    payments (out_db (pay_with_2checkout Cases.plain_urlencode Cases.cents_str
                        Cases.ts0 Scenario.env0 Scenario.post_checkout
                        Scenario.db_cart)) = [pay]
    /\ payment_status pay = "processing"
    /\ amount pay = Scenario.d 3000
    /\ payment_currency pay = "USD"
    /\ orders (out_db (pay_with_2checkout Cases.plain_urlencode Cases.cents_str
                         Cases.ts0 Scenario.env0 Scenario.post_checkout
                         Scenario.db_cart)) = [Cases.order_cart].
Proof.
  destruct (tco_starts_processing_payment
              Cases.plain_urlencode Cases.cents_str Cases.ts0 Scenario.env0
              Scenario.post_checkout Scenario.alice Scenario.db_cart
              (fst (_create_order_from_cart Scenario.env0 Scenario.alice
                      Scenario.db_cart))
              Cases.order_cart eq_refl)
    as (pay & Hp & Ho & _ & _ & _ & _ & Hs & Ha & Hc & _).
  - vm_compute. discriminate.
  - reflexivity.
  - exact db_cart_payment_fresh.
  - exact db_cart_payments_in_orders.
  - exists pay. repeat split; assumption.
Defined.

Lemma tco_then_success_completes_checkout_witness :
  exists pay' order',
    latest_payment
      (out_db (checkout_success Scenario.get_oc
                 (out_db (pay_with_2checkout Cases.plain_urlencode Cases.cents_str
                            Cases.ts0 Scenario.env0 Scenario.post_checkout
                            Scenario.db_cart))))
      Scenario.oid = Some pay'
    /\ payment_status pay' = "succeeded"
    /\ find_order_by_code
         (out_db (checkout_success Scenario.get_oc
                    (out_db (pay_with_2checkout Cases.plain_urlencode
                               Cases.cents_str Cases.ts0 Scenario.env0
                               Scenario.post_checkout Scenario.db_cart))))
         "GV-1A2B3C4D" = Some order'
    /\ order_status order' = "paid"
    /\ order_processing_status order' = "running"
    /\ total order' = Scenario.d 3000
    /\ owner_cart_items
         (out_db (checkout_success Scenario.get_oc
                    (out_db (pay_with_2checkout Cases.plain_urlencode
                               Cases.cents_str Cases.ts0 Scenario.env0
                               Scenario.post_checkout Scenario.db_cart))))
         1%positive = [].
Proof.
  destruct (tco_then_success_completes_checkout
              Cases.plain_urlencode Cases.cents_str Cases.ts0 Scenario.env0
              Scenario.post_checkout Scenario.get_oc Scenario.alice
              Scenario.db_cart
              (fst (_create_order_from_cart Scenario.env0 Scenario.alice
                      Scenario.db_cart))
              Cases.order_cart eq_refl)
    as (pay' & order' & H1 & _ & H3 & H4 & _ & H6 & H7 & H8 & H9).
  - vm_compute. discriminate.
  - reflexivity.
  - exact db_cart_payment_fresh.
  - exact db_cart_payments_in_orders.
  - reflexivity.
  - exists pay', order'. repeat split; assumption.
Defined.

Lemma tco_then_cancel_cancels_checkout_witness :
  exists pay' order',
    latest_payment
      (out_db (checkout_cancel Scenario.get_oc
                 (out_db (pay_with_2checkout Cases.plain_urlencode Cases.cents_str
                            Cases.ts0 Scenario.env0 Scenario.post_checkout
                            Scenario.db_cart))))
      Scenario.oid = Some pay'
    /\ payment_status pay' = "cancelled"
    /\ find_order_by_code
         (out_db (checkout_cancel Scenario.get_oc
                    (out_db (pay_with_2checkout Cases.plain_urlencode
                               Cases.cents_str Cases.ts0 Scenario.env0
                               Scenario.post_checkout Scenario.db_cart))))
         "GV-1A2B3C4D" = Some order'
    /\ order_status order' = "cancelled".
Proof.
  destruct (tco_then_cancel_cancels_checkout
              Cases.plain_urlencode Cases.cents_str Cases.ts0 Scenario.env0
              Scenario.post_checkout Scenario.get_oc Scenario.alice
              Scenario.db_cart
              (fst (_create_order_from_cart Scenario.env0 Scenario.alice
                      Scenario.db_cart))
              Cases.order_cart eq_refl)
    as (pay' & order' & H1 & _ & H3 & H4 & _ & H6).
  - vm_compute. discriminate.
  - reflexivity.
  - exact db_cart_payment_fresh.
  - exact db_cart_payments_in_orders.
  - reflexivity.
  - exists pay', order'. repeat split; assumption.
Defined.

(** ** Gateway B: the other ways out of [pay_with_sslcommerz] *)

Lemma sslcommerz_after_order (st : Settings) (env : Env) (req : Request)
  (user : User) (db db1 : DB) (order : Order) :
  req_user req = Some user ->
  requests_installed st = true ->
  SSLC_STORE_ID st <> "" ->
  SSLC_STORE_PASS st <> "" ->
  _create_order_from_cart env user db = (db1, Ok order) ->
  pay_with_sslcommerz st env req db
  = match _to_bdt st (total order) (Py.str_or (order_currency order) "BDT") with
    | Raise (ValueError m) =>
        (save_order_status db1 (order_pk order) "cancelled",
         [say lvl_error m], Redirect "checkout")
    | Raise e => (db1, [], Uncaught e)
    | Ok (amount_bdt, fx_rate) =>
        if Dec.ltb amount_bdt Dec.ten2 then
          (save_order_status db1 (order_pk order) "cancelled",
           [(lvl_error,
             [PStr "Amount too small for SSLCommerz: "; PDec amount_bdt;
              PStr " BDT (min 10.00)."])],
           Redirect "checkout")
        else
          match env_gateway env with
          | None =>
              (db1, [say lvl_error "SSLCommerz error. Please try again later."],
               Redirect "checkout")
          | Some data =>
              if String.eqb (strip (dget data "GatewayPageURL")) ""
                 || negb (String.eqb (Py.upper (dget data "status")) "SUCCESS")
              then
                (db1,
                 [say lvl_error
                    ("SSLCommerz init failed: "
                     ++ Py.str_or
                          (Py.str_or (dget data "failedreason")
                             (Py.str_or (dget data "desc") (dget data "error")))
                          "Could not get gateway URL from SSLCommerz.")%string],
                 Redirect "checkout")
              else
                match Payment_create
                        (mkPayment (env_payment_pk env) (order_pk order)
                           "sslcommerz" "processing" amount_bdt "BDT"
                           ("GV" ++ env_tran_hex env)%string
                           [("init_response", JDict data);
                            ("original_total", JDecStr (_q2d (total order)));
                            ("original_currency", JStr (order_currency order));
                            ("fx_rate_to_bdt", JDecStr fx_rate);
                            ("charged_bdt", JDecStr amount_bdt);
                            ("sandbox", JBool (SSLC_SANDBOX st))]
                           (env_now env) (env_now env)) db1 with
                | (db2, Ok _) =>
                    (db2, [], Redirect (strip (dget data "GatewayPageURL")))
                | (db2, Raise e) => (db2, [], Uncaught e)
                end
          end
    end.
Proof.
  intros Hu Hreq Hid Hpass Hc.
  unfold pay_with_sslcommerz, login_required, sslcommerz_view.
  rewrite Hu, Hreq. simpl.
  destruct (String.eqb_spec (SSLC_STORE_ID st) "") as [E|_]; [contradiction|].
  destruct (String.eqb_spec (SSLC_STORE_PASS st) "") as [E|_]; [contradiction|].
  simpl. rewrite Hc. reflexivity.
Qed.

Lemma cancelled_after_order (env : Env) (user : User) (db db1 : DB)
  (order : Order) :
  _create_order_from_cart env user db = (db1, Ok order) ->
  find_order_by_pk (save_order_status db1 (order_pk order) "cancelled")
                   (order_pk order)
  = Some (with_status order "cancelled")
  /\ payments (save_order_status db1 (order_pk order) "cancelled") = payments db.
Proof.
  intros Hc.
  destruct (create_order_ok env user db db1 order Hc) as (_ & Hp & _).
  destruct (create_order_found env user db db1 order Hc) as (_ & Hpk & _).
  split; [|exact Hp].
  unfold save_order_status. rewrite find_order_by_pk_update by reflexivity.
  rewrite Hpk. simpl. rewrite String.eqb_refl. reflexivity.
Qed.

(** X17.  Gateway B cancels the order it just created when the currency
    has no rate: the order is stored as cancelled, no payment is
    written, and the error names the currency.  The rate table holds
    USD, EUR and GBP only, so an order in INR, one of the four currencies
    a product can have, always ends this way. *)
Theorem sslcommerz_unsupported_currency_cancels_order
  (st : Settings) (env : Env) (req : Request) (user : User) (db db1 : DB)
  (order : Order) :
  req_user req = Some user ->
  requests_installed st = true ->
  SSLC_STORE_ID st <> "" ->
  SSLC_STORE_PASS st <> "" ->
  _create_order_from_cart env user db = (db1, Ok order) ->
  (forall m,
      _to_bdt st (total order) (Py.str_or (order_currency order) "BDT")
        = Raise (ValueError m) ->
      out_response (pay_with_sslcommerz st env req db) = Redirect "checkout"
      /\ out_messages (pay_with_sslcommerz st env req db) = [say lvl_error m]
      /\ payments (out_db (pay_with_sslcommerz st env req db)) = payments db
      /\ find_order_by_pk (out_db (pay_with_sslcommerz st env req db))
                          (order_pk order)
         = Some (with_status order "cancelled"))
  /\ (order_currency order = "INR" ->
      _to_bdt st (total order) (Py.str_or (order_currency order) "BDT")
      = Raise (ValueError
                 "Currency INR is not supported for SSLCommerz without a rate.")).
Proof.
  intros Hu Hreq Hid Hpass Hc. split.
  - intros m Hb.
    rewrite (sslcommerz_after_order st env req user db db1 order
               Hu Hreq Hid Hpass Hc), Hb.
    destruct (cancelled_after_order env user db db1 order Hc) as [Hf Hp].
    unfold out_response, out_messages, out_db. simpl. auto.
  - intros Hcur. rewrite Hcur. reflexivity.
Qed.



Lemma sslcommerz_unsupported_currency_cancels_order_witness :
  out_response (pay_with_sslcommerz Scenario.st0 Scenario.env0
                  Scenario.post_checkout Cases.db_inr) = Redirect "checkout"
  /\ payments (out_db (pay_with_sslcommerz Scenario.st0 Scenario.env0
                         Scenario.post_checkout Cases.db_inr)) = []
  /\ option_map order_status
       (find_order_by_pk
          (out_db (pay_with_sslcommerz Scenario.st0 Scenario.env0
                     Scenario.post_checkout Cases.db_inr)) Scenario.oid)
     = Some "cancelled".
Proof.
  destruct (sslcommerz_unsupported_currency_cancels_order
              Scenario.st0 Scenario.env0 Scenario.post_checkout Scenario.alice
              Cases.db_inr
              (fst (_create_order_from_cart Scenario.env0 Scenario.alice
                      Cases.db_inr))
              Cases.order_inr_cart eq_refl eq_refl) as [Hcancel Hinr].
  - vm_compute. discriminate.
  - vm_compute. discriminate.
  - reflexivity.
  - destruct (Hcancel _ (Hinr eq_refl)) as (Hr & _ & Hp & Hf).
    split; [exact Hr|]. split; [exact Hp|].
    simpl in Hf. rewrite Hf. reflexivity.
Defined.



(** ** The webhook on a resolved order *)

Lemma carts_clear_cart_of (db : DB) (u : positive) :
  carts (clear_cart_of db u) = carts db.
Proof. unfold clear_cart_of. destruct (find_cart db u); reflexivity. Qed.

Lemma webhook_apply_tables (now : Z) (payload : list (string * string))
  (text : string) (order : Order) (db : DB) :
  let db1 := if String.eqb (webhook_status text) "paid"
             then clear_owner_cart db order else db in
  carts (webhook_apply now payload text order db) = carts db
  /\ cart_items (webhook_apply now payload text order db) = cart_items db1
  /\ products (webhook_apply now payload text order db) = products db
  /\ order_items (webhook_apply now payload text order db) = order_items db.
Proof.
  unfold webhook_apply. cbv zeta.
  destruct (clear_owner_cart_tables db order) as (_ & _ & Hc & Hi).
  assert (Hpr : products (clear_owner_cart db order) = products db).
  { unfold clear_owner_cart, clear_cart_of.
    destruct (order_user order) as [u|]; [|reflexivity].
    destruct (find_cart db u); reflexivity. }
  destruct (latest_payment _ (order_pk order)) as [pay|];
    [destruct (in_strs (method pay) ["stripe"; "sslcommerz"; "coin"])|];
    unfold update_payment, update_order; simpl;
    destruct (String.eqb (webhook_status text) "paid"); auto.
Qed.

Lemma webhook_apply_latest (now : Z) (payload : list (string * string))
  (text : string) (order : Order) (db : DB) (pay : Payment) :
  latest_payment db (order_pk order) = Some pay ->
  in_strs (method pay) ["stripe"; "sslcommerz"; "coin"] = true ->
  exists pay',
    latest_payment (webhook_apply now payload text order db) (order_pk order)
      = Some pay'
    /\ payment_pk pay' = payment_pk pay
    /\ payment_status pay' = webhook_payment_status (webhook_status text)
    /\ amount pay' = amount pay
    /\ method pay' = method pay.
Proof.
  intros Hl Hm. unfold webhook_apply. cbv zeta.
  rewrite latest_payment_update_order.
  assert (Hl1 : latest_payment
                  (if String.eqb (webhook_status text) "paid"
                   then clear_owner_cart db order else db) (order_pk order)
                = Some pay).
  { destruct (String.eqb (webhook_status text) "paid");
      [rewrite latest_payment_clear|]; exact Hl. }
  rewrite Hl1, Hm.
  rewrite latest_payment_update by reflexivity.
  rewrite latest_payment_update_order, Hl1. simpl.
  rewrite String.eqb_refl. eexists. split; [reflexivity|].
  repeat split.
Qed.

Lemma webhook_apply_unlisted_method (now : Z) (payload : list (string * string))
  (text : string) (order : Order) (db : DB) :
  match latest_payment db (order_pk order) with
  | Some pay => in_strs (method pay) ["stripe"; "sslcommerz"; "coin"] = false
  | None => True
  end ->
  payments (webhook_apply now payload text order db) = payments db.
Proof.
  intros H. unfold webhook_apply. cbv zeta.
  rewrite latest_payment_update_order.
  assert (Hl1 : latest_payment
                  (if String.eqb (webhook_status text) "paid"
                   then clear_owner_cart db order else db) (order_pk order)
                = latest_payment db (order_pk order)).
  { destruct (String.eqb (webhook_status text) "paid");
      [rewrite latest_payment_clear|]; reflexivity. }
  rewrite Hl1.
  assert (Hp : payments (if String.eqb (webhook_status text) "paid"
                         then clear_owner_cart db order else db) = payments db).
  { destruct (String.eqb (webhook_status text) "paid"); [|reflexivity].
    apply (clear_owner_cart_tables db order). }
  destruct (latest_payment db (order_pk order)) as [pay|];
    [rewrite H|]; unfold update_order; simpl; exact Hp.
Qed.

Lemma webhook_accepted (st : Settings) (now : Z) (req : Request) (db : DB)
  (order : Order) :
  req_method req = "POST" ->
  DEBUG st = true ->
  webhook_resolve db (POST req) = Ok (Some order) ->
  two_co_webhook st now req db
  = (webhook_apply now (POST req)
       (Py.lower
          (match Py.get_or (Py.dict_get (POST req) "ORDERSTATUS")
                   (Py.get_or (Py.dict_get (POST req) "status") None) with
           | Some s => s
           | None => ""
           end)) order db,
     [], HttpResponse 200).
Proof.
  intros Hm Hd Hr. unfold two_co_webhook, require_POST, webhook_view.
  rewrite Hm, Hr. simpl. unfold _verify_tco_signature. rewrite Hd. reflexivity.
Qed.

Lemma webhook_order_status (now : Z) (payload : list (string * string))
  (text : string) (order : Order) (db : DB) :
  find_order_by_pk db (order_pk order) = Some order ->
  exists order',
    find_order_by_pk (webhook_apply now payload text order db) (order_pk order)
      = Some order'
    /\ order_status order' = webhook_status text
    /\ total order' = total order
    /\ order_code order' = order_code order.
Proof.
  intros Hf. unfold webhook_apply. cbv zeta.
  set (db1 := if String.eqb (webhook_status text) "paid"
              then clear_owner_cart db order else db).
  assert (Ho1 : find_order_by_pk db1 (order_pk order) = Some order).
  { unfold db1, find_order_by_pk in *.
    destruct (String.eqb (webhook_status text) "paid"); [|exact Hf].
    destruct (clear_owner_cart_tables db order) as (-> & _). exact Hf. }
  match goal with
  | |- context [update_order db1 (order_pk order) ?h] =>
      assert (Ho2 : find_order_by_pk (update_order db1 (order_pk order) h)
                                     (order_pk order) = Some (h order))
  end.
  { rewrite find_order_by_pk_update by reflexivity. rewrite Ho1. simpl.
    rewrite String.eqb_refl. reflexivity. }
  eexists. split.
  - destruct (latest_payment _ (order_pk order)) as [pay|];
      [destruct (in_strs (method pay) ["stripe"; "sslcommerz"; "coin"])|];
      exact Ho2.
  - repeat split.
Qed.

(** X20.  An accepted webhook whose status text means paid (it contains
    approved, complete or paid, or is success) stores the resolved order
    as paid, empties the persisted cart of the order's user, and marks
    the order's most recent payment succeeded when its method is stripe,
    sslcommerz or coin; the answer is 200. *)
Theorem webhook_paid_settles_order_and_cart
  (st : Settings) (now : Z) (req : Request) (db : DB) (order : Order) :
  req_method req = "POST" ->
  DEBUG st = true ->
  webhook_resolve db (POST req) = Ok (Some order) ->
  find_order_by_pk db (order_pk order) = Some order ->
  webhook_status
    (Py.lower
       (match Py.get_or (Py.dict_get (POST req) "ORDERSTATUS")
                (Py.get_or (Py.dict_get (POST req) "status") None) with
        | Some s => s
        | None => ""
        end)) = "paid" ->
  (exists order',
      find_order_by_pk (out_db (two_co_webhook st now req db)) (order_pk order)
        = Some order'
      /\ order_status order' = "paid"
      /\ total order' = total order)
  /\ (forall u, order_user order = Some u ->
        owner_cart_items (out_db (two_co_webhook st now req db)) u = [])
  /\ (forall pay,
        latest_payment db (order_pk order) = Some pay ->
        in_strs (method pay) ["stripe"; "sslcommerz"; "coin"] = true ->
        exists pay',
          latest_payment (out_db (two_co_webhook st now req db)) (order_pk order)
            = Some pay'
          /\ payment_pk pay' = payment_pk pay
          /\ payment_status pay' = "succeeded")
  /\ out_response (two_co_webhook st now req db) = HttpResponse 200.
Proof.
  intros Hm Hd Hr Hf Hpaid.
  rewrite (webhook_accepted st now req db order Hm Hd Hr).
  unfold out_db, out_response. simpl.
  set (text := Py.lower _) in *.
  split; [|split; [|split; [|reflexivity]]].
  - destruct (webhook_order_status now (POST req) text order db Hf)
      as (o' & Ho & Hs & Ht & _).
    exists o'. rewrite Hpaid in Hs. auto.
  - intros u Hu.
    destruct (webhook_apply_tables now (POST req) text order db)
      as (Hc & Hi & _).
    unfold owner_cart_items, find_cart. rewrite Hc, Hi, Hpaid. simpl.
    unfold clear_owner_cart. rewrite Hu.
    pose proof (clear_cart_of_empty db u) as He.
    unfold owner_cart_items, find_cart in He.
    rewrite carts_clear_cart_of in He. exact He.
  - intros pay Hl Ha.
    destruct (webhook_apply_latest now (POST req) text order db pay Hl Ha)
      as (pay' & Hl' & Hk & Hs & _).
    exists pay'. rewrite Hpaid in Hs. auto.
Qed.

Lemma webhook_payment_status_values (s : string) :
  In (webhook_payment_status s) ["succeeded"; "cancelled"; "processing"]
  /\ In (webhook_payment_status s) Payment_STATUS.
Proof.
  unfold webhook_payment_status, Payment_STATUS.
  destruct (String.eqb s "paid"); [simpl; auto 10|].
  destruct (in_strs s ["failed"; "canceled"]); simpl; auto 10.
Qed.

(** X21.  The webhook applies no transition rule: for an accepted POST
    that resolves to an order, whatever the order's status was, the
    stored status becomes the value mapped from the status text (paid,
    failed, canceled or pending), and the most recent payment, when its
    method is stripe, sslcommerz or coin, gets succeeded, cancelled or
    processing accordingly (a provider failure is stored as cancelled);
    a payment with another method is left alone. *)
Theorem webhook_overwrites_any_status
  (st : Settings) (now : Z) (req : Request) (db : DB) (order : Order) :
  req_method req = "POST" ->
  DEBUG st = true ->
  webhook_resolve db (POST req) = Ok (Some order) ->
  find_order_by_pk db (order_pk order) = Some order ->
  exists text,
    text = Py.lower
             (match Py.get_or (Py.dict_get (POST req) "ORDERSTATUS")
                      (Py.get_or (Py.dict_get (POST req) "status") None) with
              | Some s => s
              | None => ""
              end)
    /\ (exists order',
          find_order_by_pk (out_db (two_co_webhook st now req db)) (order_pk order)
            = Some order'
          /\ order_status order' = webhook_status text
          /\ In (order_status order') ["paid"; "failed"; "canceled"; "pending"])
    /\ (forall pay,
          latest_payment db (order_pk order) = Some pay ->
          in_strs (method pay) ["stripe"; "sslcommerz"; "coin"] = true ->
          exists pay',
            latest_payment (out_db (two_co_webhook st now req db)) (order_pk order)
              = Some pay'
            /\ payment_pk pay' = payment_pk pay
            /\ payment_status pay' = webhook_payment_status (webhook_status text)
            /\ In (payment_status pay') ["succeeded"; "cancelled"; "processing"])
    /\ (match latest_payment db (order_pk order) with
        | Some pay => in_strs (method pay) ["stripe"; "sslcommerz"; "coin"] = false
        | None => True
        end ->
        payments (out_db (two_co_webhook st now req db)) = payments db).
Proof.
  intros Hm Hd Hr Hf.
  rewrite (webhook_accepted st now req db order Hm Hd Hr).
  unfold out_db. simpl. eexists. split; [reflexivity|].
  set (text := Py.lower _).
  split; [|split].
  - destruct (webhook_order_status now (POST req) text order db Hf)
      as (o' & Ho & Hs & _).
    exists o'. split; [exact Ho|]. split; [exact Hs|]. rewrite Hs.
    destruct (webhook_status_values text) as [E|[E|[E|E]]]; rewrite E;
      simpl; auto.
  - intros pay Hl Ha.
    destruct (webhook_apply_latest now (POST req) text order db pay Hl Ha)
      as (pay' & Hl' & Hk & Hs & _).
    exists pay'. split; [exact Hl'|]. split; [exact Hk|]. split; [exact Hs|].
    rewrite Hs. apply webhook_payment_status_values.
  - apply webhook_apply_unlisted_method.
Qed.

Lemma webhook_apply_rows (now : Z) (payload : list (string * string))
  (text : string) (order : Order) (db : DB) :
  map order_pk (orders (webhook_apply now payload text order db))
    = map order_pk (orders db)
  /\ map total (orders (webhook_apply now payload text order db))
    = map total (orders db)
  /\ map payment_pk (payments (webhook_apply now payload text order db))
    = map payment_pk (payments db)
  /\ map amount (payments (webhook_apply now payload text order db))
    = map amount (payments db)
  /\ (forall o, In o (orders db) -> order_pk o <> order_pk order ->
        In o (orders (webhook_apply now payload text order db))).
Proof.
  unfold webhook_apply. cbv zeta.
  set (db1 := if String.eqb (webhook_status text) "paid"
              then clear_owner_cart db order else db).
  assert (H1 : orders db1 = orders db /\ payments db1 = payments db).
  { unfold db1. destruct (String.eqb (webhook_status text) "paid");
      [|split; reflexivity].
    destruct (clear_owner_cart_tables db order) as (Ho & Hp & _).
    split; assumption. }
  destruct H1 as [Ho Hp].
  assert (Hkeep : forall (f : Order -> Order) (A : Type) (k : Order -> A),
             (forall o, k (f o) = k o) ->
             map k (map (fun o => if String.eqb (order_pk o) (order_pk order)
                                  then f o else o) (orders db))
             = map k (orders db)).
  { intros f A k Hk. rewrite map_map. apply map_ext. intros o.
    destruct (String.eqb (order_pk o) (order_pk order)); [apply Hk|reflexivity]. }
  assert (Hpkeep : forall pk (f : Payment -> Payment) (A : Type)
                          (k : Payment -> A),
             (forall p, k (f p) = k p) ->
             map k (map (fun p => if String.eqb (payment_pk p) pk
                                  then f p else p) (payments db))
             = map k (payments db)).
  { intros pk f A k Hk. rewrite map_map. apply map_ext. intros p.
    destruct (String.eqb (payment_pk p) pk); [apply Hk|reflexivity]. }
  assert (Hin : forall (f : Order -> Order) o,
             In o (orders db) -> order_pk o <> order_pk order ->
             In o (map (fun o => if String.eqb (order_pk o) (order_pk order)
                                 then f o else o) (orders db))).
  { intros f o Hi Hne. apply in_map_iff. exists o. split; [|exact Hi].
    destruct (String.eqb_spec (order_pk o) (order_pk order));
      [contradiction|reflexivity]. }
  destruct (latest_payment _ (order_pk order)) as [pay|];
    [destruct (in_strs (method pay) ["stripe"; "sslcommerz"; "coin"])|];
    unfold update_payment, update_order; simpl; rewrite ?Ho, ?Hp;
    (split; [apply Hkeep; reflexivity|]);
    (split; [apply Hkeep; reflexivity|]);
    (split; [try (apply Hpkeep; reflexivity); reflexivity|]);
    (split; [try (apply Hpkeep; reflexivity); reflexivity|]);
    apply Hin.
Qed.

(** X22.  Whatever is posted, the webhook creates and deletes no order
    and no payment and changes no amount: the keys and totals of the
    orders and the keys and amounts of the payments are those of before,
    order items, products and carts are untouched, and every order other
    than the resolved one is stored as it was. *)
Theorem webhook_keeps_rows_and_amounts
  (st : Settings) (now : Z) (req : Request) (db : DB) :
  map order_pk (orders (out_db (two_co_webhook st now req db)))
    = map order_pk (orders db)
  /\ map total (orders (out_db (two_co_webhook st now req db)))
    = map total (orders db)
  /\ map payment_pk (payments (out_db (two_co_webhook st now req db)))
    = map payment_pk (payments db)
  /\ map amount (payments (out_db (two_co_webhook st now req db)))
    = map amount (payments db)
  /\ order_items (out_db (two_co_webhook st now req db)) = order_items db
  /\ products (out_db (two_co_webhook st now req db)) = products db
  /\ carts (out_db (two_co_webhook st now req db)) = carts db
  /\ (forall o, In o (orders db) ->
        (forall r, webhook_resolve db (POST req) = Ok (Some r) ->
                   order_pk o <> order_pk r) ->
        In o (orders (out_db (two_co_webhook st now req db)))).
Proof.
  unfold two_co_webhook, require_POST, webhook_view.
  destruct (String.eqb (req_method req) "POST");
    [|unfold out_db; simpl; repeat split; auto].
  destruct (negb (_verify_tco_signature st (POST req) (TWOCHECKOUT_SECRET_WORD st))
            && negb (DEBUG st))%bool;
    [unfold out_db; simpl; repeat split; auto|].
  destruct (webhook_resolve db (POST req)) as [[order|]|e];
    [|unfold out_db; simpl; repeat split; auto
     |unfold out_db; simpl; repeat split; auto].
  unfold out_db. simpl.
  set (text := Py.lower _).
  destruct (webhook_apply_rows now (POST req) text order db)
    as (H1 & H2 & H3 & H4 & H5).
  destruct (webhook_apply_tables now (POST req) text order db)
    as (Hc & _ & Hpr & Hi).
  repeat (split; [assumption|]).
  intros o Hin Hne. apply H5; [exact Hin|]. apply Hne. reflexivity.
Qed.

Lemma webhook_paid_settles_order_and_cart_witness :
  (exists order',
      find_order_by_pk
        (out_db (two_co_webhook Scenario.st0 200 (Scenario.post_webhook "COMPLETE")
                   Scenario.db_started)) Scenario.oid = Some order'
      /\ order_status order' = "paid"
      /\ total order' = Scenario.d 3000)
  /\ owner_cart_items
       (out_db (two_co_webhook Scenario.st0 200 (Scenario.post_webhook "COMPLETE")
                  Scenario.db_started)) 1%positive = []
  /\ (exists pay',
        latest_payment
          (out_db (two_co_webhook Scenario.st0 200
                     (Scenario.post_webhook "COMPLETE") Scenario.db_started))
          Scenario.oid = Some pay'
        /\ payment_pk pay' = Scenario.pay_id
        /\ payment_status pay' = "succeeded").
Proof.
  destruct (webhook_paid_settles_order_and_cart
              Scenario.st0 200 (Scenario.post_webhook "COMPLETE")
              Scenario.db_started (Scenario.order1 "pending")
              eq_refl eq_refl eq_refl eq_refl eq_refl)
    as (Ho & Hc & Hp & _).
  split; [exact Ho|]. split; [apply (Hc 1%positive eq_refl)|].
  apply (Hp (Scenario.pay1 "processing")); reflexivity.
Defined.

(** A paid order whose provider then reports IN_REVIEW goes back to
    pending and its succeeded payment back to processing. *)
Lemma webhook_overwrites_any_status_witness :
  option_map order_status
    (find_order_by_pk
       (out_db (two_co_webhook Scenario.st0 200 (Scenario.post_webhook "IN_REVIEW")
                  Scenario.db_paid)) Scenario.oid) = Some "pending"
  /\ option_map payment_status
       (latest_payment
          (out_db (two_co_webhook Scenario.st0 200
                     (Scenario.post_webhook "IN_REVIEW") Scenario.db_paid))
          Scenario.oid) = Some "processing".
Proof.
  destruct (webhook_overwrites_any_status
              Scenario.st0 200 (Scenario.post_webhook "IN_REVIEW")
              Scenario.db_paid (Scenario.order1 "paid")
              eq_refl eq_refl eq_refl eq_refl)
    as (text & Ht & (o' & Ho & Hs & _) & Hp & _).
  destruct (Hp (Scenario.pay1 "succeeded") eq_refl eq_refl)
    as (p' & Hl & _ & Hps & _).
  simpl in Ho, Hl. rewrite Ho, Hl. simpl. rewrite Hs, Hps, Ht.
  split; reflexivity.
Defined.

(** ** Staff actions and downloads *)

Lemma find_item_update (db : DB) (pk id : Z) (h : OrderItem -> OrderItem) :
  (forall i, item_pk (h i) = item_pk i) ->
  find_item (update_item db pk h) id
  = option_map (fun i => if item_pk i =? pk then h i else i) (find_item db id).
Proof.
  intros Hk. unfold find_item, update_item. simpl. apply find_map_keyed.
  intros i. destruct (item_pk i =? pk); [rewrite Hk|]; reflexivity.
Qed.

Lemma find_item_pk (db : DB) (id : Z) (item : OrderItem) :
  find_item db id = Some item -> item_pk item = id.
Proof.
  unfold find_item. intros H. apply find_some in H. apply Z.eqb_eq, H.
Qed.

Lemma staff_view_runs (req : Request) (u : User) (view : DB -> Outcome) (db : DB) :
  req_user req = Some u -> is_staff u = true -> req_method req = "POST" ->
  staff_member_required req (fun _ => require_POST req view) db = view db.
Proof.
  intros Hu Hs Hm. unfold staff_member_required, require_POST.
  rewrite Hu, Hs, Hm. reflexivity.
Qed.



Section DownloadFacts.

Variable can_open : File -> bool.

Lemma download_field_served (field : OrderItem -> option File) (missing : string)
  (req : Request) (item_id : Z) (db : DB) (f : File) :
  download_field can_open field missing req item_id db = FileResponse f ->
  exists u item order,
    req_user req = Some u
    /\ find_item db item_id = Some item
    /\ find_order_by_pk db (item_order item) = Some order
    /\ (is_staff u = true \/ order_user order = Some (user_id u))
    /\ field item = Some f
    /\ can_open f = true.
Proof.
  unfold download_field. intros H.
  destruct (req_user req) as [u|] eqn:Eu; [|discriminate].
  destruct (find_item db item_id) as [item|] eqn:Ei; [|discriminate].
  destruct (find_order_by_pk db (item_order item)) as [order|] eqn:Eo;
    [|discriminate].
  assert (Hauth : is_staff u = true \/ order_user order = Some (user_id u)).
  { destruct (is_staff u); [left; reflexivity|]. right.
    destruct (order_user order) as [o|]; [|discriminate].
    destruct (Pos.eqb_spec o (user_id u)) as [E|_];
      [rewrite E; reflexivity|discriminate]. }
  destruct (negb (is_staff u
                  || match order_user order with
                     | Some o => Pos.eqb o (user_id u)
                     | None => false
                     end)); [discriminate|].
  destruct (field item) as [g|] eqn:Ef; [|discriminate].
  destruct (negb (String.eqb (file_name g) "")); [|discriminate].
  destruct (can_open g) eqn:Ec; [|discriminate].
  inversion H; subst. exists u, item, order. repeat split; auto.
Qed.

Lemma download_field_stranger (field : OrderItem -> option File) (missing : string)
  (req : Request) (item_id : Z) (db : DB) (u : User) :
  req_user req = Some u ->
  is_staff u = false ->
  (forall item order,
      find_item db item_id = Some item ->
      find_order_by_pk db (item_order item) = Some order ->
      order_user order <> Some (user_id u)) ->
  download_field can_open field missing req item_id db = NoFile [] Http404.
Proof.
  intros Hu Hs Hn. unfold download_field. rewrite Hu, Hs.
  destruct (find_item db item_id) as [item|]; [|reflexivity].
  destruct (find_order_by_pk db (item_order item)) as [order|] eqn:Eo;
    [|reflexivity].
  specialize (Hn item order eq_refl Eo).
  destruct (order_user order) as [o|]; [|reflexivity].
  destruct (Pos.eqb_spec o (user_id u)) as [->|_]; [|reflexivity].
  exfalso. apply Hn. reflexivity.
Qed.

(** X24.  A download view answers with a file only to a logged-in user
    who is staff or owns the order of the item, and the file is the one
    stored in the item's field; a logged-in user who is neither gets the
    same 404 as for an item that does not exist, with no message.  This
    holds for the delivery file and for the customer's file. *)
Theorem downloads_only_for_owner_or_staff (req : Request) (item_id : Z) (db : DB) :
  (forall f,
      item_file_download can_open req item_id db = FileResponse f ->
      exists u item order,
        req_user req = Some u
        /\ find_item db item_id = Some item
        /\ find_order_by_pk db (item_order item) = Some order
        /\ (is_staff u = true \/ order_user order = Some (user_id u))
        /\ delivery_file item = Some f
        /\ can_open f = true)
  /\ (forall f,
      item_user_file_download can_open req item_id db = FileResponse f ->
      exists u item order,
        req_user req = Some u
        /\ find_item db item_id = Some item
        /\ find_order_by_pk db (item_order item) = Some order
        /\ (is_staff u = true \/ order_user order = Some (user_id u))
        /\ user_file item = Some f
        /\ can_open f = true)
  /\ (forall u,
      req_user req = Some u ->
      is_staff u = false ->
      (forall item order,
          find_item db item_id = Some item ->
          find_order_by_pk db (item_order item) = Some order ->
          order_user order <> Some (user_id u)) ->
      item_file_download can_open req item_id db = NoFile [] Http404
      /\ item_user_file_download can_open req item_id db = NoFile [] Http404).
Proof.
  split; [|split].
  - intros f. apply download_field_served.
  - intros f. apply download_field_served.
  - intros u Hu Hs Hn. split; apply (download_field_stranger _ _ _ _ _ u);
      assumption.
Qed.

End DownloadFacts.

(** The owner and staff get the delivery file; another customer gets the
    404 of a missing item. *)
Lemma downloads_only_for_owner_or_staff_witness :
  item_file_download (fun _ => true) (Cases.get_by Scenario.alice) 1
    Cases.db_delivered = FileResponse Cases.stored_file
  /\ item_file_download (fun _ => true) (Cases.get_by Cases.staff) 1
       Cases.db_delivered = FileResponse Cases.stored_file
  /\ item_file_download (fun _ => true) (Cases.get_by Cases.bob) 1
       Cases.db_delivered = NoFile [] Http404
  /\ item_file_download (fun _ => true) (Cases.get_by Cases.bob) 7
       Cases.db_delivered = NoFile [] Http404.
Proof.
  split; [reflexivity|]. split; [reflexivity|]. split; [|reflexivity].
  apply (proj2 (proj2 (downloads_only_for_owner_or_staff
                         (fun _ => true) (Cases.get_by Cases.bob) 1
                         Cases.db_delivered)) Cases.bob eq_refl eq_refl).
  intros item order Hi Ho. vm_compute in Hi. inversion Hi; subst.
  vm_compute in Ho. inversion Ho; subst. vm_compute. discriminate.
Defined.

Lemma unique_item (l : list OrderItem) (id : Z) (item : OrderItem) :
  NoDup (map item_pk l) ->
  find (fun i => item_pk i =? id) l = Some item ->
  forall i, In i l -> item_pk i = id -> i = item.
Proof.
  induction l as [|y l IH]; simpl; intros Hn Hf i Hin Hk; [contradiction|].
  inversion Hn as [|? ? Hy Hl]; subst.
  destruct (Z.eqb_spec (item_pk y) (item_pk i)) as [E|E].
  - inversion Hf; subst. destruct Hin as [H|H]; [symmetry; exact H|].
    exfalso. apply Hy. rewrite E. apply in_map, H.
  - destruct Hin as [H|H]; [subst; contradiction|].
    apply (IH Hl Hf i H eq_refl).
Qed.

Lemma set_order_items_same (db : DB) : set_order_items db (order_items db) = db.
Proof. destruct db; reflexivity. Qed.

Lemma with_item_processing_same (i : OrderItem) :
  with_item_processing i (item_processing_status i) = i.
Proof. destruct i; reflexivity. Qed.

Lemma update_item_restore (db : DB) (id : Z) (item : OrderItem) (s : string) :
  NoDup (map item_pk (order_items db)) ->
  find_item db id = Some item ->
  update_item
    (update_item db (item_pk item) (fun i => with_item_processing i s))
    (item_pk item)
    (fun i => with_item_processing i (item_processing_status item))
  = db.
Proof.
  intros Hn Hi.
  assert (Hmap : map (fun i => if item_pk i =? item_pk item
                              then with_item_processing i
                                     (item_processing_status item) else i)
                   (map (fun i => if item_pk i =? item_pk item
                                  then with_item_processing i s else i)
                        (order_items db))
                 = order_items db).
  { rewrite map_map. rewrite <- (map_id (order_items db)) at 2.
    apply map_ext_in. intros i Hin.
    destruct (Z.eqb_spec (item_pk i) (item_pk item)) as [E|E].
    - simpl. rewrite E, Z.eqb_refl.
      assert (Heq : i = item).
      { apply (unique_item (order_items db) id item Hn Hi i Hin).
        rewrite E. apply (find_item_pk db id item Hi). }
      subst i. destruct item; reflexivity.
    - destruct (Z.eqb_spec (item_pk i) (item_pk item)); [contradiction|].
      reflexivity. }
  unfold update_item, set_order_items. simpl. rewrite Hmap.
  destruct db; reflexivity.
Qed.

Lemma toggled_twice (s : string) :
  s = "running" \/ s = "complete" -> toggled (toggled s) = s.
Proof. intros [->| ->]; reflexivity. Qed.

(** X25.  Staff can toggle an item between running and complete only on
    a paid order: on any other order the toggle changes nothing, and on
    a paid order it stores the other status, so that toggling twice
    restores the database. *)
Theorem staff_item_toggle_is_an_involution_on_paid_orders
  (req : Request) (item_id : Z) (staff : User) (db : DB)
  (item : OrderItem) (order : Order) :
  req_user req = Some staff ->
  is_staff staff = true ->
  req_method req = "POST" ->
  find_item db item_id = Some item ->
  find_order_by_pk db (item_order item) = Some order ->
  NoDup (map item_pk (order_items db)) ->
  (order_status order <> "paid" ->
   out_db (staff_item_toggle_processing req item_id db) = db)
  /\ (order_status order = "paid" ->
      (exists item',
          find_item (out_db (staff_item_toggle_processing req item_id db)) item_id
            = Some item'
          /\ item_processing_status item'
             = (if String.eqb (item_processing_status item) "running"
                then "complete" else "running")
          /\ delivery_file item' = delivery_file item
          /\ user_file item' = user_file item)
      /\ (item_processing_status item = "running"
          \/ item_processing_status item = "complete" ->
          out_db (staff_item_toggle_processing req item_id
                    (out_db (staff_item_toggle_processing req item_id db)))
          = db)).
Proof.
  intros Hu Hs Hm Hi Ho Hn. split.
  - intros Hne. unfold staff_item_toggle_processing.
    rewrite (staff_view_runs req staff _ db Hu Hs Hm), Hi, Ho.
    destruct (String.eqb_spec (order_status order) "paid");
      [contradiction|reflexivity].
  - intros Hpaid.
    assert (Hstep : forall d it,
               find_item d item_id = Some it ->
               find_order_by_pk d (item_order it) = Some order ->
               out_db (staff_item_toggle_processing req item_id d)
               = update_item d (item_pk it)
                   (fun i => with_item_processing i
                               (toggled (item_processing_status it)))).
    { intros d it Hdi Hdo. unfold staff_item_toggle_processing.
      rewrite (staff_view_runs req staff _ d Hu Hs Hm), Hdi, Hdo, Hpaid.
      reflexivity. }
    rewrite (Hstep db item Hi Ho).
    set (s1 := toggled (item_processing_status item)).
    assert (Hi1 : find_item (update_item db (item_pk item)
                               (fun i => with_item_processing i s1)) item_id
                  = Some (with_item_processing item s1)).
    { rewrite find_item_update by reflexivity. rewrite Hi. simpl.
      rewrite Z.eqb_refl. reflexivity. }
    split.
    + exists (with_item_processing item s1). split; [exact Hi1|].
      repeat split.
    + intros Hrc. rewrite (Hstep _ (with_item_processing item s1) Hi1 Ho).
      simpl item_pk. simpl item_processing_status. unfold s1.
      rewrite (toggled_twice _ Hrc).
      apply (update_item_restore db item_id item _ Hn Hi).
Qed.

Lemma staff_item_toggle_is_an_involution_on_paid_orders_witness :
  option_map item_processing_status
    (find_item (out_db (staff_item_toggle_processing (Cases.post_by Cases.staff) 1
                          Scenario.db_paid)) 1) = Some "complete"
  /\ out_db (staff_item_toggle_processing (Cases.post_by Cases.staff) 1
               (out_db (staff_item_toggle_processing (Cases.post_by Cases.staff) 1
                          Scenario.db_paid))) = Scenario.db_paid
  /\ out_db (staff_item_toggle_processing (Cases.post_by Cases.staff) 1
               Scenario.db_started) = Scenario.db_started.
Proof.
  assert (Hn : NoDup (map item_pk (order_items Scenario.db_paid))).
  { simpl. constructor; [intros []|constructor]. }
  destruct (staff_item_toggle_is_an_involution_on_paid_orders
              (Cases.post_by Cases.staff) 1 Cases.staff Scenario.db_paid
              (Scenario.item1 None) (Scenario.order1 "paid")
              eq_refl eq_refl eq_refl eq_refl eq_refl Hn) as [_ Hpaid].
  destruct (Hpaid eq_refl) as [(i' & Hi & Hs & _) Htwice].
  split; [rewrite Hi; simpl; rewrite Hs; reflexivity|].
  split; [apply Htwice; left; reflexivity|].
  apply (proj1 (staff_item_toggle_is_an_involution_on_paid_orders
                  (Cases.post_by Cases.staff) 1 Cases.staff Scenario.db_started
                  (Scenario.item1 None) (Scenario.order1 "pending")
                  eq_refl eq_refl eq_refl eq_refl eq_refl Hn)).
  vm_compute. discriminate.
Defined.

Section StaffUploadFacts.

Variable guess_type : string -> option string.
Variable can_open : File -> bool.


End StaffUploadFacts.


(* ------------------------------------------------------------------ *)
(** ** Order lists *)

Lemma In_insert_newest (x o : Order) (l : list Order) :
  In x (insert_newest o l) <-> x = o \/ In x l.
Proof.
  induction l as [|y r IH]; simpl.
  - split; [intros [E|[]]; left; symmetry; exact E
           |intros [E|[]]; left; symmetry; exact E].
  - destruct (order_created_at y <? order_created_at o); simpl.
    + split; [intros [E|H]; [left; symmetry; exact E|right; exact H]
             |intros [E|H]; [left; symmetry; exact E|right; exact H]].
    + rewrite IH. tauto.
Qed.

Lemma In_fold_insert_newest (x : Order) (l acc : list Order) :
  In x (fold_left (fun acc o => insert_newest o acc) l acc)
  <-> In x l \/ In x acc.
Proof.
  revert acc. induction l as [|y r IH]; intros acc; simpl.
  - tauto.
  - rewrite IH, In_insert_newest. split.
    + intros [H|[E|H]]; [left; right; exact H|left; left; symmetry; exact E
                        |right; exact H].
    + intros [[E|H]|H]; [right; left; symmetry; exact E|left; exact H
                        |right; right; exact H].
Qed.

Lemma In_newest_first (x : Order) (l : list Order) :
  In x (newest_first l) <-> In x l.
Proof.
  unfold newest_first. rewrite In_fold_insert_newest. simpl. tauto.
Qed.

Lemma admin_orders_qs_filtered (sp : string) (db : DB) (o : Order) :
  In o (admin_orders_qs sp db) ->
  In o (orders db)
  /\ (in_strs (if String.eqb (strip (Py.lower sp)) "canceled" then "cancelled"
               else strip (Py.lower sp))
              ["new"; "pending"; "paid"; "failed"; "cancelled"] = true ->
      order_status o
      = (if String.eqb (strip (Py.lower sp)) "canceled" then "cancelled"
         else strip (Py.lower sp))).
Proof.
  unfold admin_orders_qs. cbv zeta.
  set (status := if String.eqb (strip (Py.lower sp)) "canceled" then "cancelled"
                 else strip (Py.lower sp)).
  destruct (in_strs status _) eqn:E.
  - intros H. apply filter_In in H. destruct H as [H Hs].
    apply (proj1 (In_newest_first _ _)) in H. split; [exact H|].
    intros _. apply String.eqb_eq. exact Hs.
  - intros H. apply (proj1 (In_newest_first _ _)) in H.
    split; [exact H|discriminate].
Qed.

Lemma webhook_order_owner (now : Z) (payload : list (string * string))
  (text : string) (order : Order) (db : DB) :
  find_order_by_pk db (order_pk order) = Some order ->
  exists order',
    find_order_by_pk (webhook_apply now payload text order db) (order_pk order)
      = Some order'
    /\ order_status order' = webhook_status text
    /\ order_user order' = order_user order.
Proof.
  intros Hf. unfold webhook_apply. cbv zeta.
  set (db1 := if String.eqb (webhook_status text) "paid"
              then clear_owner_cart db order else db).
  assert (Ho1 : find_order_by_pk db1 (order_pk order) = Some order).
  { unfold db1, find_order_by_pk in *.
    destruct (String.eqb (webhook_status text) "paid"); [|exact Hf].
    destruct (clear_owner_cart_tables db order) as (-> & _). exact Hf. }
  match goal with
  | |- context [update_order db1 (order_pk order) ?h] =>
      assert (Ho2 : find_order_by_pk (update_order db1 (order_pk order) h)
                                     (order_pk order) = Some (h order))
  end.
  { rewrite find_order_by_pk_update by reflexivity. rewrite Ho1. simpl.
    rewrite String.eqb_refl. reflexivity. }
  eexists. split.
  - destruct (latest_payment _ (order_pk order)) as [pay|];
      [destruct (in_strs (method pay) ["stripe"; "sslcommerz"; "coin"])|];
      exact Ho2.
  - split; reflexivity.
Qed.

(** X27.  An order that an accepted webhook stored as canceled (one l)
    is listed for its owner under the filter canceled of the customer's
    order list and not under cancelled; in the staff list it appears
    only without a status filter: none of the tabs new, pending, paid,
    failed, cancelled shows it, and the filter value canceled is turned
    into cancelled and misses it as well. *)
Theorem webhook_cancellation_is_missing_from_staff_tabs
  (st : Settings) (now : Z) (req : Request) (db : DB) (order : Order)
  (owner : User) :
  req_method req = "POST" ->
  DEBUG st = true ->
  webhook_resolve db (POST req) = Ok (Some order) ->
  find_order_by_pk db (order_pk order) = Some order ->
  order_user order = Some (user_id owner) ->
  webhook_status
    (Py.lower (match Py.get_or (Py.dict_get (POST req) "ORDERSTATUS")
                       (Py.get_or (Py.dict_get (POST req) "status") None) with
               | Some s => s
               | None => ""
               end)) = "canceled" ->
  exists order',
    find_order_by_pk (out_db (two_co_webhook st now req db)) (order_pk order)
      = Some order'
    /\ order_status order' = "canceled"
    /\ In order' (my_orders_qs owner "canceled"
                    (out_db (two_co_webhook st now req db)))
    /\ ~ In order' (my_orders_qs owner "cancelled"
                      (out_db (two_co_webhook st now req db)))
    /\ In order' (admin_orders_qs "" (out_db (two_co_webhook st now req db)))
    /\ (forall tab,
          In tab ["new"; "pending"; "paid"; "failed"; "cancelled"; "canceled"] ->
          ~ In order' (admin_orders_qs tab
                         (out_db (two_co_webhook st now req db)))).
Proof.
  intros Hm Hd Hr Hf Hu Hc.
  rewrite (webhook_accepted st now req db order Hm Hd Hr).
  unfold out_db. cbn [fst].
  set (text := Py.lower _) in *.
  destruct (webhook_order_owner now (POST req) text order db Hf)
    as (o' & Ho & Hs & Hw).
  set (db' := webhook_apply now (POST req) text order db) in *.
  rewrite Hc in Hs. rewrite Hu in Hw.
  assert (Hin : In o' (orders db')).
  { unfold find_order_by_pk in Ho. apply find_some in Ho. exact (proj1 Ho). }
  exists o'. split; [exact Ho|]. split; [exact Hs|].
  split; [|split; [|split]].
  - unfold my_orders_qs. cbv zeta.
    replace (in_strs (Py.lower "canceled")
               ["new"; "pending"; "paid"; "failed"; "canceled"; "cancelled"])
      with true by reflexivity.
    apply filter_In. split.
    + apply In_newest_first. apply filter_In. split; [exact Hin|].
      rewrite Hw. apply Pos.eqb_refl.
    + rewrite Hs. reflexivity.
  - unfold my_orders_qs. cbv zeta.
    replace (in_strs (Py.lower "cancelled")
               ["new"; "pending"; "paid"; "failed"; "canceled"; "cancelled"])
      with true by reflexivity.
    intros H. apply filter_In in H. destruct H as [_ H].
    rewrite Hs in H. discriminate H.
  - unfold admin_orders_qs. cbv zeta.
    replace (strip (Py.lower "")) with "" by reflexivity.
    cbn. apply In_newest_first. exact Hin.
  - intros tab Ht H.
    destruct (admin_orders_qs_filtered tab db' o' H) as [_ Hst].
    rewrite Hs in Hst.
    destruct Ht as [<-|[<-|[<-|[<-|[<-|[<-|[]]]]]]];
      (assert (E : "canceled" = "cancelled"
                   \/ "canceled" = "new" \/ "canceled" = "pending"
                   \/ "canceled" = "paid" \/ "canceled" = "failed");
       [first [left; apply Hst; reflexivity
              |right; left; apply Hst; reflexivity
              |right; right; left; apply Hst; reflexivity
              |right; right; right; left; apply Hst; reflexivity
              |right; right; right; right; apply Hst; reflexivity]
       |destruct E as [E|[E|[E|[E|E]]]]; discriminate E]).
Qed.

Lemma webhook_cancellation_is_missing_from_staff_tabs_witness :
  exists order',
    In order' (my_orders_qs Scenario.alice "canceled"
                 (out_db (two_co_webhook Scenario.st0 200
                            (Scenario.post_webhook "CANCELLED") Scenario.db_started)))
    /\ ~ In order' (admin_orders_qs "cancelled"
                      (out_db (two_co_webhook Scenario.st0 200
                                 (Scenario.post_webhook "CANCELLED")
                                 Scenario.db_started))).
Proof.
  destruct (webhook_cancellation_is_missing_from_staff_tabs
              Scenario.st0 200 (Scenario.post_webhook "CANCELLED")
              Scenario.db_started (Scenario.order1 "pending") Scenario.alice
              eq_refl eq_refl eq_refl eq_refl eq_refl eq_refl)
    as (o' & _ & _ & Hmine & _ & _ & Htabs).
  exists o'. split; [exact Hmine|].
  apply Htabs. simpl. tauto.
Defined.

(* ------------------------------------------------------------------ *)
(** ** Prices written by [Product.save] *)

Lemma saved_price_exp (p : Product) :
  (exists p0, p = Product_save p0) -> Dec.dexp (price p) = -2.
Proof.
  intros [p0 ->]. unfold Product_save. simpl. apply quantize2_exp.
Qed.

Lemma find_product_in (db : DB) (pid : string) (p : Product) :
  find_product db pid = Some p -> In p (products db).
Proof.
  unfold find_product. intros H. apply find_some in H. exact (proj1 H).
Qed.

(** X28.  When every product row was written by [Product.save], the
    snapshot loses nothing to rounding: for a cart in one currency each
    line carries the stored price as its unit price and quantity times
    that price as its line total, and the subtotal returned is also the
    exact sum rounded once. *)
Theorem saved_prices_make_snapshot_exact (user : User) (db : DB) (c : string) :
  (forall p, In p (products db) -> exists p0, p = Product_save p0) ->
  surviving (cart_rows user db) <> [] ->
  (forall row, In row (surviving (cart_rows user db)) ->
               effective_currency row = c) ->
  snd (_build_cart_snapshot user db)
  = Ok (map snapshot_line (surviving (cart_rows user db)),
        rounded_sum (cart_rows user db), c)
  /\ (forall row, In row (surviving (cart_rows user db)) ->
        snap_unit_price (snapshot_line row) = price (snd row)
        /\ snap_line_total (snapshot_line row)
           = Dec.mul (Dec.of_int (snap_qty (snapshot_line row))) (price (snd row))).
Proof.
  intros Hsaved Hne Hall.
  assert (Hexp : forall row, In row (cart_rows user db) ->
                             Dec.dexp (price (snd row)) = -2).
  { intros row Hr. apply saved_price_exp, Hsaved.
    destruct (cart_rows_in user db row Hr) as (_ & Hp & _).
    exact (find_product_in db _ _ Hp). }
  split.
  - rewrite build_cart_snapshot_eq. simpl.
    rewrite (snap_finish_single _ c Hne Hall).
    rewrite (two_place_prices_round_alike _ Hexp). reflexivity.
  - intros row Hr. apply filter_In in Hr. destruct Hr as [Hr _].
    unfold snapshot_line. simpl. split.
    + apply quantize2_fixed, Hexp, Hr.
    + unfold line_rounded. apply quantize2_fixed. unfold line_exact, Dec.mul.
      simpl. rewrite (Hexp row Hr). reflexivity.
Qed.

Lemma saved_prices_make_snapshot_exact_witness :
  snd (_build_cart_snapshot Scenario.alice Scenario.db_cart)
  = Ok (map snapshot_line (surviving (cart_rows Scenario.alice Scenario.db_cart)),
        rounded_sum (cart_rows Scenario.alice Scenario.db_cart), "USD").
Proof.
  apply (saved_prices_make_snapshot_exact Scenario.alice Scenario.db_cart "USD").
  - simpl. intros p [<-|[<-|[<-|[]]]];
      [exists Scenario.productA|exists Scenario.productE
      |exists Scenario.productS]; reflexivity.
  - vm_compute. discriminate.
  - vm_compute. intros row [<-|[]]. reflexivity.
Defined.

(* ------------------------------------------------------------------ *)
(** ** Merging the guest cart at login *)

Lemma filter_narrow {A : Type} (f g : A -> bool) (l : list A) :
  (forall x, f x = true -> g x = true) ->
  filter f (filter g l) = filter f l.
Proof.
  intros H. induction l as [|x r IH]; simpl; [reflexivity|].
  destruct (g x) eqn:Eg; simpl.
  - rewrite IH. reflexivity.
  - destruct (f x) eqn:Ef; [|exact IH].
    rewrite (H x Ef) in Eg. discriminate Eg.
Qed.

Lemma find_filter_head {A : Type} (f : A -> bool) (l : list A) :
  find f l = hd_error (filter f l).
Proof.
  induction l as [|x r IH]; simpl; [reflexivity|].
  destruct (f x); [reflexivity|exact IH].
Qed.

Lemma put_line_other_key (db : DB) (c c0 : Z) (p p0 : string) (q : Z) :
  c <> c0 \/ p <> p0 ->
  filter (line_of c p) (cart_items (put_line db c0 p0 q))
  = filter (line_of c p) (cart_items db).
Proof.
  intros Hk.
  assert (Hn : forall it, line_of c p it = true ->
                          negb (line_of c0 p0 it) = true).
  { intros it H. unfold line_of in *. apply andb_true_iff in H.
    destruct H as [Hc Hp]. apply Z.eqb_eq in Hc. apply String.eqb_eq in Hp.
    apply negb_true_iff, andb_false_iff.
    destruct Hk as [Hk|Hk].
    - left. apply Z.eqb_neq. congruence.
    - right. apply String.eqb_neq. congruence. }
  rewrite <- (filter_narrow _ _ (cart_items (put_line db c0 p0 q)) Hn).
  rewrite <- (filter_narrow _ _ (cart_items db) Hn).
  rewrite put_line_others. reflexivity.
Qed.

Lemma merge_step_effect (user : User) (cart : Cart) (db : DB)
  (k : string) (v : Z) :
  cart_lines_unique db ->
  find_cart db (user_id user) = Some cart ->
  cart_lines_unique (merge_step user db (k, v))
  /\ find_cart (merge_step user db (k, v)) (user_id user) = Some cart
  /\ products (merge_step user db (k, v)) = products db
  /\ orders (merge_step user db (k, v)) = orders db
  /\ order_items (merge_step user db (k, v)) = order_items db
  /\ payments (merge_step user db (k, v)) = payments db
  /\ (forall c p, c <> cart_pk cart \/ p <> k ->
        filter (line_of c p) (cart_items (merge_step user db (k, v)))
        = filter (line_of c p) (cart_items db))
  /\ match find_product db k with
     | Some product =>
         if is_active product
         then filter (line_of (cart_pk cart) k)
                     (cart_items (merge_step user db (k, v)))
              = [mkCartItem (cart_pk cart) k
                   (added_qty
                      (option_map quantity
                         (find (line_of (cart_pk cart) k) (cart_items db)))
                      product v)]
         else merge_step user db (k, v) = db
     | None => merge_step user db (k, v) = db
     end.
Proof.
  intros Hu Hc. unfold merge_step. cbn [fst snd].
  destruct (find_product db k) as [product|] eqn:Ep;
    [destruct (is_active product) eqn:Ea|];
    try (repeat split; auto; fail).
  destruct (add_to_db_cart_eq user product v db) as (c' & Hc' & Heq).
  rewrite (get_user_cart_again user db cart Hc) in Hc', Heq.
  cbn [fst] in Hc', Heq. rewrite Hc in Hc'. injection Hc' as <-.
  rewrite (find_product_pk db k product Ep) in Heq. rewrite Heq.
  destruct (put_line_tables db (cart_pk cart) k
              (added_qty
                 (option_map quantity
                    (find (line_of (cart_pk cart) k) (cart_items db)))
                 product v)) as (Hcarts & Hprod & Hord & Hoi & Hpay).
  split; [apply put_line_unique, Hu|].
  split; [unfold find_cart in *; rewrite Hcarts; exact Hc|].
  split; [exact Hprod|]. split; [exact Hord|]. split; [exact Hoi|].
  split; [exact Hpay|]. split.
  - intros c p Hk. apply put_line_other_key, Hk.
  - apply put_line_line, Hu.
Qed.

Lemma merge_fold_effect (user : User) (cart : Cart) (l : list (string * Z)) :
  forall db,
  cart_lines_unique db ->
  find_cart db (user_id user) = Some cart ->
  NoDup (map fst l) ->
  products (fold_left (merge_step user) l db) = products db
  /\ orders (fold_left (merge_step user) l db) = orders db
  /\ order_items (fold_left (merge_step user) l db) = order_items db
  /\ payments (fold_left (merge_step user) l db) = payments db
  /\ (forall c p,
        c <> cart_pk cart \/ ~ In p (map fst l)
        \/ match find_product db p with
           | Some product => is_active product = false
           | None => True
           end ->
        filter (line_of c p) (cart_items (fold_left (merge_step user) l db))
        = filter (line_of c p) (cart_items db))
  /\ (forall p q product,
        In (p, q) l ->
        find_product db p = Some product ->
        is_active product = true ->
        filter (line_of (cart_pk cart) p)
               (cart_items (fold_left (merge_step user) l db))
        = [mkCartItem (cart_pk cart) p
             (added_qty
                (option_map quantity
                   (find (line_of (cart_pk cart) p) (cart_items db)))
                product q)]).
Proof.
  induction l as [|[k v] r IH]; intros db Hu Hc Hnd.
  - simpl. repeat split; auto. intros p q product [].
  - simpl fold_left. simpl in Hnd. inversion Hnd as [|? ? Hk Hr]; subst.
    destruct (merge_step_effect user cart db k v Hu Hc)
      as (Hu1 & Hc1 & Hp1 & Ho1 & Hi1 & Hy1 & Hoth1 & Hline1).
    destruct (IH (merge_step user db (k, v)) Hu1 Hc1 Hr)
      as (Hp2 & Ho2 & Hi2 & Hy2 & Hoth2 & Hline2).
    assert (Hfp : forall p, find_product (merge_step user db (k, v)) p
                            = find_product db p).
    { intros p. unfold find_product. rewrite Hp1. reflexivity. }
    split; [congruence|]. split; [congruence|]. split; [congruence|].
    split; [congruence|]. split.
    + intros c p Hcond.
      rewrite Hoth2.
      * destruct Hcond as [Hcc|[Hin|Hinact]].
        -- apply Hoth1. left. exact Hcc.
        -- apply Hoth1. right. intros ->. apply Hin. left. reflexivity.
        -- destruct (String.eqb_spec p k) as [->|Hne].
           ++ destruct (find_product db k) as [product|];
                [rewrite Hinact in Hline1|]; rewrite Hline1; reflexivity.
           ++ apply Hoth1. right. exact Hne.
      * rewrite Hfp. destruct Hcond as [Hcc|[Hin|Hinact]].
        -- left. exact Hcc.
        -- right. left. intros H. apply Hin. right. exact H.
        -- right. right. exact Hinact.
    + intros p q product Hin Hfind Hact. destruct Hin as [E|Hin].
      * injection E as <- <-.
        rewrite Hoth2 by (right; left; exact Hk).
        rewrite Hfind, Hact in Hline1. exact Hline1.
      * assert (Hne : p <> k).
        { intros ->. apply Hk. apply in_map_iff. exists (k, q).
          split; [reflexivity|exact Hin]. }
        rewrite (Hline2 p q product Hin) by (rewrite ?Hfp; assumption).
        rewrite !find_filter_head.
        rewrite (Hoth1 (cart_pk cart) p) by (right; exact Hne).
        reflexivity.
Qed.

Lemma get_user_cart_fixed (user : User) (db : DB) :
  fst (_get_user_cart user (fst (_get_user_cart user db)))
  = fst (_get_user_cart user db).
Proof.
  destruct (get_user_cart_found user db) as (cart & _ & Hf & _).
  rewrite (get_user_cart_again user _ cart Hf). reflexivity.
Qed.

Lemma merge_step_get_cart (user : User) (db : DB) (e : string * Z) :
  merge_step user (fst (_get_user_cart user db)) e
  = fst (_get_user_cart user (merge_step user db e)).
Proof.
  destruct (get_user_cart_tables user db) as (_ & _ & _ & Hci & Hpr).
  unfold merge_step. unfold find_product at 1. rewrite Hpr.
  fold (find_product db (fst e)).
  destruct (find_product db (fst e)) as [product|];
    [destruct (is_active product)|]; try reflexivity.
  destruct (add_to_db_cart_eq user product (snd e) db) as (c1 & Hc1 & E1).
  destruct (add_to_db_cart_eq user product (snd e)
              (fst (_get_user_cart user db))) as (c2 & Hc2 & E2).
  rewrite get_user_cart_fixed in Hc2, E2. rewrite Hc1 in Hc2.
  injection Hc2 as <-. rewrite Hci in E2. rewrite E2, E1.
  symmetry.
  match goal with
  | |- fst (_get_user_cart user ?d) = _ =>
      assert (Hf : find_cart d (user_id user) = Some c1)
  end.
  { unfold find_cart in *.
    rewrite (proj1 (put_line_tables _ _ _ _)). exact Hc1. }
  rewrite (get_user_cart_again user _ c1 Hf). reflexivity.
Qed.

Lemma merge_fold_get_cart (user : User) (l : list (string * Z)) :
  forall db,
  fold_left (merge_step user) l (fst (_get_user_cart user db))
  = fst (_get_user_cart user (fold_left (merge_step user) l db)).
Proof.
  induction l as [|e r IH]; intros db; simpl; [reflexivity|].
  rewrite merge_step_get_cart. apply IH.
Qed.

(** X29.  Logging in loses nothing of the guest cart: every entry of the
    cleaned session cart whose product is stored and active ends as the
    one line of the user's stored cart for that product, with the
    session quantity added to the stored one and clamped to the stock
    and to 1..10000; every other line, of this cart or of another, stays
    as it was, as do products, orders, order items and payments; and
    the session cart is empty afterwards. *)
Theorem merge_adds_guest_cart_to_stored_cart
  (Raw : Type) (raw_int : Raw -> option Z) (user : User) (db : DB)
  (s : SessionCart Raw) (cart : Cart) :
  cart_lines_unique db ->
  find_cart (fst (_get_user_cart user db)) (user_id user) = Some cart ->
  session_cart_of Raw raw_int
    (snd (_merge_session_cart_into_db Raw raw_int user db s)) = []
  /\ products (fst (_merge_session_cart_into_db Raw raw_int user db s))
     = products db
  /\ orders (fst (_merge_session_cart_into_db Raw raw_int user db s))
     = orders db
  /\ order_items (fst (_merge_session_cart_into_db Raw raw_int user db s))
     = order_items db
  /\ payments (fst (_merge_session_cart_into_db Raw raw_int user db s))
     = payments db
  /\ (forall p q product,
        In (p, q) (session_cart_of Raw raw_int s) ->
        find_product db p = Some product ->
        is_active product = true ->
        filter (line_of (cart_pk cart) p)
               (cart_items (fst (_merge_session_cart_into_db Raw raw_int user db s)))
        = [mkCartItem (cart_pk cart) p
             (added_qty
                (option_map quantity
                   (find (line_of (cart_pk cart) p) (cart_items db)))
                product q)])
  /\ (forall c p,
        c <> cart_pk cart
        \/ ~ In p (map fst (session_cart_of Raw raw_int s))
        \/ match find_product db p with
           | Some product => is_active product = false
           | None => True
           end ->
        filter (line_of c p)
               (cart_items (fst (_merge_session_cart_into_db Raw raw_int user db s)))
        = filter (line_of c p) (cart_items db)).
Proof.
  intros Hu Hc.
  destruct (session_cart_of_inv Raw raw_int s) as [_ Hnd].
  destruct (get_user_cart_tables user db) as (Ho0 & Hy0 & Hi0 & Hci0 & Hp0).
  assert (Hu0 : cart_lines_unique (fst (_get_user_cart user db))).
  { unfold cart_lines_unique. rewrite Hci0. exact Hu. }
  destruct (merge_fold_effect user cart (session_cart_of Raw raw_int s)
              (fst (_get_user_cart user db)) Hu0 Hc Hnd)
    as (Hp & Ho & Hi & Hy & Hoth & Hline).
  rewrite merge_fold_get_cart in Hp, Ho, Hi, Hy, Hoth, Hline.
  destruct (get_user_cart_tables user
              (fold_left (merge_step user) (session_cart_of Raw raw_int s) db))
    as (Ho1 & Hy1 & Hi1 & Hci1 & Hp1).
  rewrite Hp1 in Hp. rewrite Ho1 in Ho. rewrite Hi1 in Hi. rewrite Hy1 in Hy.
  assert (Hfp : forall p, find_product (fst (_get_user_cart user db)) p
                          = find_product db p).
  { intros p. unfold find_product. rewrite Hp0. reflexivity. }
  unfold _merge_session_cart_into_db. cbv zeta.
  destruct (session_cart_of Raw raw_int s) as [|e l] eqn:Es.
  - cbn [fst snd]. split; [reflexivity|]. repeat split; auto.
    intros p q product [].
  - cbn [fst snd]. split; [reflexivity|].
    split; [congruence|]. split; [congruence|]. split; [congruence|].
    split; [congruence|]. split.
    + intros p q product Hin Hf Ha.
      rewrite <- Hci1, <- Hci0. apply Hline; [exact Hin| |exact Ha].
      rewrite Hfp. exact Hf.
    + intros c p Hcond. rewrite <- Hci1, <- Hci0. apply Hoth.
      rewrite Hfp. exact Hcond.
Qed.

(** Alice logs in with a guest cart of 1 Product A and 4 stickers over a
    stored cart of 3 Product A: the stored cart ends with 4 and 4. *)
Lemma merge_adds_guest_cart_to_stored_cart_witness :
  filter (line_of 1 Scenario.pidA)
    (cart_items
       (fst (_merge_session_cart_into_db Z (fun q => Some q) Scenario.alice
               Scenario.db_cart
               (IntCart [(Scenario.pidA, 1); (Scenario.pidS, 4)]))))
  = [mkCartItem 1 Scenario.pidA 4]
  /\ filter (line_of 1 Scenario.pidS)
       (cart_items
          (fst (_merge_session_cart_into_db Z (fun q => Some q) Scenario.alice
                  Scenario.db_cart
                  (IntCart [(Scenario.pidA, 1); (Scenario.pidS, 4)]))))
     = [mkCartItem 1 Scenario.pidS 4].
Proof.
  assert (Hu : cart_lines_unique Scenario.db_cart).
  { unfold cart_lines_unique. simpl. constructor; [intros []|constructor]. }
  destruct (merge_adds_guest_cart_to_stored_cart Z (fun q => Some q)
              Scenario.alice Scenario.db_cart
              (IntCart [(Scenario.pidA, 1); (Scenario.pidS, 4)])
              (mkCart 1 1) Hu eq_refl)
    as (_ & _ & _ & _ & _ & Hline & _).
  split.
  - apply (Hline Scenario.pidA 1 Scenario.productA); [|reflexivity|reflexivity].
    vm_compute. left. reflexivity.
  - apply (Hline Scenario.pidS 4 Scenario.productS); [|reflexivity|reflexivity].
    vm_compute. right. left. reflexivity.
Defined.

Section StaffDeleteFacts.

Variable can_open : File -> bool.

(** X30.  Removing a delivery file does not reopen the item: after a
    staff POST to [staff_item_delete_file] on an item that holds a
    delivery file the item has none, keeps its processing status (a
    completed item stays complete) and its customer file, and the
    owner's download is answered with the message that no file is
    attached and a redirect to the order.  On an item without a delivery
    file nothing is written. *)
Theorem staff_delete_file_keeps_processing_status
  (req get : Request) (item_id : Z) (staff owner : User) (db : DB)
  (item : OrderItem) (order : Order) :
  req_user req = Some staff ->
  is_staff staff = true ->
  req_method req = "POST" ->
  find_item db item_id = Some item ->
  find_order_by_pk db (item_order item) = Some order ->
  (file_truthy (delivery_file item) = false ->
   staff_item_delete_file req item_id db
   = (db, [say lvl_info "No file to remove."], admin_detail (item_order item)))
  /\ (file_truthy (delivery_file item) = true ->
      exists item',
        find_item (out_db (staff_item_delete_file req item_id db)) item_id
          = Some item'
        /\ delivery_file item' = None
        /\ item_processing_status item' = item_processing_status item
        /\ user_file item' = user_file item
        /\ (req_user get = Some owner ->
            order_user order = Some (user_id owner) ->
            item_file_download can_open get item_id
              (out_db (staff_item_delete_file req item_id db))
            = NoFile [say lvl_error "No file attached for this item."]
                     (order_page owner (order_pk order)))).
Proof.
  intros Hu Hs Hm Hi Ho.
  unfold staff_item_delete_file.
  rewrite (staff_view_runs req staff _ db Hu Hs Hm), Hi, Ho.
  split; intros Ht; rewrite Ht; [reflexivity|].
  cbv beta iota zeta delta [out_db fst].
  assert (Hi1 : find_item
                  (update_item db (item_pk item)
                     (fun i => with_delivery i None (item_processing_status i)))
                  item_id
                = Some (with_delivery item None (item_processing_status item))).
  { rewrite find_item_update by reflexivity. rewrite Hi. simpl.
    rewrite Z.eqb_refl. reflexivity. }
  exists (with_delivery item None (item_processing_status item)).
  split; [exact Hi1|]. split; [reflexivity|]. split; [reflexivity|].
  split; [reflexivity|].
  intros Hg Hown. unfold item_file_download, download_field.
  rewrite Hg, Hi1. simpl item_order.
  change (find_order_by_pk
            (update_item db (item_pk item)
               (fun i => with_delivery i None (item_processing_status i)))
            (item_order item))
    with (find_order_by_pk db (item_order item)).
  rewrite Ho, Hown, Pos.eqb_refl, orb_true_r. reflexivity.
Qed.

End StaffDeleteFacts.

Lemma staff_delete_file_keeps_processing_status_witness :
  option_map item_processing_status
    (find_item (out_db (staff_item_delete_file (Cases.post_by Cases.staff) 1
                          Cases.db_delivered)) 1) = Some "complete"
  /\ item_file_download (fun _ => true) (Cases.get_by Scenario.alice) 1
       (out_db (staff_item_delete_file (Cases.post_by Cases.staff) 1
                  Cases.db_delivered))
     = NoFile [say lvl_error "No file attached for this item."]
              (Redirect ("my_order_detail/" ++ Scenario.oid)%string).
Proof.
  destruct (staff_delete_file_keeps_processing_status
              (fun _ => true) (Cases.post_by Cases.staff)
              (Cases.get_by Scenario.alice) 1 Cases.staff Scenario.alice
              Cases.db_delivered
              (mkOrderItem 1 Scenario.oid Scenario.pidA "Product A"
                           (Scenario.d 1000) 3 (Scenario.d 3000) "complete"
                           (Some Cases.stored_file) None)
              (Scenario.order1 "paid")
              eq_refl eq_refl eq_refl eq_refl eq_refl) as [_ Hdel].
  destruct (Hdel eq_refl) as (i' & Hi & _ & Hs & _ & Hdl).
  split; [rewrite Hi; simpl; rewrite Hs; reflexivity|].
  apply Hdl; reflexivity.
Defined.
